(** * DockerService: a shallow embedding of [services/docker_service.py]

    The service drives a container runtime through the docker-py client.
    The daemon is a black box here: a [DockerClient] answers every request
    as a function of the requests answered so far, and every request the
    service issues is recorded, with its answer, in the [calls] of the
    [world].  Python exceptions are the [Raise] results of an error monad,
    [try]/[except] blocks are [try_except] and [attempt], and the [logging]
    calls append to the [log] of the world. *)

From Stdlib Require Import ZArith Uint63 PrimFloat FloatOps SpecFloat.
From stdpp Require Import gmap strings list pretty.

Local Open Scope string_scope.
Local Open Scope list_scope.
Local Open Scope Z_scope.

(** ** Exceptions and results *)

(** The exception classes the service meets.  In docker-py [ImageNotFound]
    derives from [NotFound], which derives from [APIError]; every class
    below derives from [Exception]. *)
Inductive exn : Type :=
| ImageNotFound (msg : string)
| NotFound (msg : string)
| APIError (msg : string)
| KeyError (key : string)
| ValueError (msg : string)
| OverflowError (msg : string)
| UnicodeDecodeError (msg : string)
| AttributeError (msg : string)
| OtherError (cls msg : string)
| Exception (msg : string).

(** [isinstance(e, docker.errors.ImageNotFound)] *)
Definition is_ImageNotFound (e : exn) : bool :=
  match e with ImageNotFound _ => true | _ => false end.

(** [isinstance(e, docker.errors.NotFound)] *)
Definition is_NotFound (e : exn) : bool :=
  match e with ImageNotFound _ | NotFound _ => true | _ => false end.

(** [isinstance(e, docker.errors.APIError)] *)
Definition is_APIError (e : exn) : bool :=
  match e with ImageNotFound _ | NotFound _ | APIError _ => true | _ => false end.

(** [str(e)], as the f-strings of the log messages print it. *)
Definition exn_str (e : exn) : string :=
  match e with
  | ImageNotFound m | NotFound m | APIError m | ValueError m
  | OverflowError m | UnicodeDecodeError m | AttributeError m
  | OtherError _ m | Exception m => m
  | KeyError k => "'" +:+ k +:+ "'"
  end.

Inductive result (A : Type) : Type :=
| Ok (a : A)
| Raise (e : exn).
Arguments Ok {A} a.
Arguments Raise {A} e.

Definition result_map {A B} (f : A -> B) (r : result A) : result B :=
  match r with Ok a => Ok (f a) | Raise e => Raise e end.

(** ** The monad of the service: state and exceptions *)

Definition M (S A : Type) : Type := S -> result A * S.

Definition ret {S A} (a : A) : M S A := fun s => (Ok a, s).
Definition raise {S A} (e : exn) : M S A := fun s => (Raise e, s).
Definition bind {S A B} (m : M S A) (k : A -> M S B) : M S B :=
  fun s => match m s with
           | (Ok a, s') => k a s'
           | (Raise e, s') => (Raise e, s')
           end.

Notation "'let!' x ':=' m 'in' k" := (bind m (fun x => k))
  (at level 10, x pattern, m at level 100, k at level 200).
Notation "'run!' m 'in' k" := (bind m (fun _ => k))
  (at level 10, m at level 100, k at level 200).

(** [try: m  except Exception as e: h e] *)
Definition try_except {S A} (m : M S A) (h : exn -> M S A) : M S A :=
  fun s => match m s with
           | (Ok a, s') => (Ok a, s')
           | (Raise e, s') => h e s'
           end.

(** [try: m  except: pass] *)
Definition attempt {S} (m : M S unit) : M S unit :=
  try_except m (fun _ => ret tt).

Definition of_result {S A} (r : result A) : M S A := fun s => (r, s).

(** ** Python values *)

(** Truthiness of an optional string, an optional integer, an optional
    dictionary given by its items. *)
Definition truthy_str (o : option string) : bool :=
  match o with Some (String _ _) => true | _ => false end.

Definition truthy_int (o : option Z) : bool :=
  match o with Some n => negb (n =? 0) | None => false end.

Definition truthy_items {A} (o : option (list A)) : bool :=
  match o with Some (_ :: _) => true | _ => false end.

(** [labels or {}] *)
Definition or_empty (o : option (gmap string string)) : gmap string string :=
  match o with Some m => m | None => ∅ end.

(** [str(n)] and the f-string rendering of an optional integer. *)
Definition str_int (n : Z) : string := pretty n.

Definition str_opt_int (o : option Z) : string :=
  match o with Some n => str_int n | None => "None" end.

(** [s[:n]], counted in bytes: the ids and names sliced are ASCII. *)
Definition str_take (n : nat) (s : string) : string := String.substring 0 n s.

(** [int(f)] of a float: truncation towards zero; NaN and the infinities
    raise. *)
Definition py_int (f : float) : result Z :=
  match Prim2SF f with
  | S754_zero _ => Ok 0
  | S754_finite s m e =>
      let a := if 0 <=? e then Z.pos m * 2 ^ e else Z.pos m / 2 ^ (- e) in
      Ok (if s then - a else a)
  | S754_infinity _ => Raise (OverflowError "cannot convert float infinity to integer")
  | S754_nan => Raise (ValueError "cannot convert float NaN to integer")
  end.

(** [float(n)], exact for the small non-negative integers the service
    multiplies a float with (here only [cpu_period]). *)
Definition py_float (n : Z) : float := PrimFloat.of_uint63 (Uint63.of_Z n).

(** The exact value of a finite binary64 float, as a fraction with a
    positive denominator: [(n, k)] stands for [n / k]. *)
Definition float_fraction (f : float) : option (Z * Z) :=
  match Prim2SF f with
  | S754_zero _ => Some (0, 1)
  | S754_finite s m e =>
      let n := if s then Z.neg m else Z.pos m in
      Some (if 0 <=? e then (n * 2 ^ e, 1) else (n, 2 ^ (- e)))
  | _ => None
  end.

(** [bytes.decode()]: strict UTF-8.  A byte string and the text it decodes
    to are both kept as the sequence of their UTF-8 bytes. *)
Definition byte_in (lo hi : N) (c : Ascii.ascii) : bool :=
  ((lo <=? Ascii.N_of_ascii c) && (Ascii.N_of_ascii c <=? hi))%N.

Definition utf8_cont (c : Ascii.ascii) : bool := byte_in 128 191 c.

Definition utf8_lead3 (a b : Ascii.ascii) : bool :=
  (byte_in 224 224 a && byte_in 160 191 b)
  || (byte_in 225 236 a && utf8_cont b)
  || (byte_in 237 237 a && byte_in 128 159 b)
  || (byte_in 238 239 a && utf8_cont b).

Definition utf8_lead4 (a b : Ascii.ascii) : bool :=
  (byte_in 240 240 a && byte_in 144 191 b)
  || (byte_in 241 243 a && utf8_cont b)
  || (byte_in 244 244 a && byte_in 128 143 b).

Fixpoint utf8_valid (s : string) : bool :=
  match s with
  | EmptyString => true
  | String a r =>
      if byte_in 0 127 a then utf8_valid r
      else match r with
           | String b r2 =>
               if byte_in 194 223 a then utf8_cont b && utf8_valid r2
               else match r2 with
                    | String c r3 =>
                        if utf8_lead3 a b then utf8_cont c && utf8_valid r3
                        else match r3 with
                             | String d r4 =>
                                 utf8_lead4 a b && utf8_cont c && utf8_cont d
                                 && utf8_valid r4
                             | EmptyString => false
                             end
                    | EmptyString => false
                    end
           | EmptyString => false
           end
  end.

(** The message of the decoding error is not reproduced byte for byte (it
    names the offending byte and its position); nothing inspects it. *)
Definition bytes_decode (b : string) : result string :=
  if utf8_valid b then Ok b
  else Raise (UnicodeDecodeError "'utf-8' codec can't decode bytes").

(** [str.strip()]: the white space of Python, in UTF-8. *)
Definition of_bytes (l : list N) : string :=
  foldr (fun n s => String (Ascii.ascii_of_N n) s) EmptyString l.

Definition whitespace : list string :=
  map of_bytes
    [[9]; [10]; [11]; [12]; [13]; [28]; [29]; [30]; [31]; [32];
     [194; 133]; [194; 160]; [225; 154; 128];
     [226; 128; 128]; [226; 128; 129]; [226; 128; 130]; [226; 128; 131];
     [226; 128; 132]; [226; 128; 133]; [226; 128; 134]; [226; 128; 135];
     [226; 128; 136]; [226; 128; 137]; [226; 128; 138];
     [226; 128; 168]; [226; 128; 169]; [226; 128; 175];
     [226; 129; 159]; [227; 128; 128]]%N.

Fixpoint drop_prefix (p s : string) : option string :=
  match p, s with
  | EmptyString, _ => Some s
  | String a p', String b s' => if Ascii.eqb a b then drop_prefix p' s' else None
  | String _ _, EmptyString => None
  end.

Fixpoint drop_any (ws : list string) (s : string) : option string :=
  match ws with
  | [] => None
  | p :: ws' => match drop_prefix p s with
                | Some r => Some r
                | None => drop_any ws' s
                end
  end.

Fixpoint lstrip_with (ws : list string) (fuel : nat) (s : string) : string :=
  match fuel with
  | O => s
  | S fuel' => match drop_any ws s with
               | Some r => lstrip_with ws fuel' r
               | None => s
               end
  end.

Definition py_strip (s : string) : string :=
  let l := lstrip_with whitespace (String.length s) s in
  String.rev (lstrip_with (map String.rev whitespace) (String.length l) (String.rev l)).

(** ** The runtime: objects, requests, answers *)

(** What the service reads of a docker-py [Container] and [Network]. *)
Record Container : Type := {
  c_id : string;
  c_status : string;
  c_labels : gmap string string
}.

Record Network : Type := {
  n_id : string
}.

(** Keyword arguments of [client.containers.run]; [None] is an argument the
    call leaves out.  [ra_networking_config] is the value of
    [create_networking_config({net: create_endpoint_config(aliases=...)})],
    which docker-py builds without a request to the daemon. *)
Record run_args : Type := {
  ra_image : string;
  ra_name : option string;
  ra_command : option string;
  ra_detach : bool;
  ra_auto_remove : bool;
  ra_ports : option (list (string * option Z));
  ra_environment : gmap string string;
  ra_mem_limit : string;
  ra_cpu_quota : Z;
  ra_cpu_period : Z;
  ra_pids_limit : Z;
  ra_labels : gmap string string;
  ra_network : option string;
  ra_network_mode : option string;
  ra_cap_drop : option (list string);
  ra_cap_add : option (list string);
  ra_security_opt : option (list string);
  ra_networking_config : option (list (string * list string))
}.

(** Keyword arguments of [client.networks.create]. *)
Record net_args : Type := {
  na_name : string;
  na_driver : string;
  na_internal : option bool;
  na_options : option (gmap string string);
  na_check_duplicate : option bool;
  na_labels : gmap string string
}.

Inductive request : Type :=
| Ping
| ContainersRun (a : run_args)
| ContainersGet (ref : string)
| ContainersList (all : bool) (label : string)
| ContainerStop (c : Container) (timeout : Z)
| ContainerRemove (c : Container)
| ContainerExecRun (c : Container) (cmd : string)
| NetworksGet (ref : string)
| NetworksCreate (a : net_args)
| NetworkRemove (n : Network)
| NetworkConnect (n : Network) (c : Container)
| NetworkDisconnect (n : Network) (c : Container).

Inductive reply : Type :=
| RNone
| RContainer (c : Container)
| RContainers (cs : list Container)
| RNetwork (n : Network)
| RExec (exit_code : Z) (output : string).

(** A request with the answer it got. *)
Definition event : Type := request * result reply.

(** The docker-py client bound to a daemon.  The daemon is any
    deterministic black box: each answer may depend on all the requests
    answered before. *)
Record DockerClient : Type := {
  ping : list event -> result unit;
  containers_run : list event -> run_args -> result Container;
  containers_get : list event -> string -> result Container;
  containers_list : list event -> bool -> string -> result (list Container);
  container_stop : list event -> Container -> Z -> result unit;
  container_remove : list event -> Container -> result unit;
  container_exec_run : list event -> Container -> string -> result (Z * string);
  networks_get : list event -> string -> result Network;
  networks_create : list event -> net_args -> result Network;
  network_remove : list event -> Network -> result unit;
  network_connect : list event -> Network -> Container -> result unit;
  network_disconnect : list event -> Network -> Container -> result unit
}.

Inductive level : Type := INFO | WARNING | ERROR.

(** The state the service acts on: the requests issued so far with their
    answers, and the lines logged so far. *)
Record world : Type := {
  calls : list event;
  log : list (level * string)
}.

Definition call {A} (rq : request) (inj : A -> reply)
    (f : list event -> result A) : M world A :=
  fun w =>
    let r := f (calls w) in
    (r, {| calls := calls w ++ [(rq, result_map inj r)]; log := log w |}).

Definition logger (l : level) (msg : string) : M world unit :=
  fun w => (Ok tt, {| calls := calls w; log := log w ++ [(l, msg)] |}).

Section Client.
Variable d : DockerClient.

Definition client_ping : M world unit :=
  call Ping (fun _ => RNone) (ping d).
Definition run (a : run_args) : M world Container :=
  call (ContainersRun a) RContainer (fun h => containers_run d h a).
Definition containers_get_ (ref : string) : M world Container :=
  call (ContainersGet ref) RContainer (fun h => containers_get d h ref).
Definition containers_list_ (all : bool) (label : string) : M world (list Container) :=
  call (ContainersList all label) RContainers (fun h => containers_list d h all label).
Definition stop (c : Container) (timeout : Z) : M world unit :=
  call (ContainerStop c timeout) (fun _ => RNone) (fun h => container_stop d h c timeout).
Definition remove (c : Container) : M world unit :=
  call (ContainerRemove c) (fun _ => RNone) (fun h => container_remove d h c).
Definition exec_run (c : Container) (cmd : string) : M world (Z * string) :=
  call (ContainerExecRun c cmd) (fun '(x, o) => RExec x o)
       (fun h => container_exec_run d h c cmd).
Definition networks_get_ (ref : string) : M world Network :=
  call (NetworksGet ref) RNetwork (fun h => networks_get d h ref).
Definition networks_create_ (a : net_args) : M world Network :=
  call (NetworksCreate a) RNetwork (fun h => networks_create d h a).
Definition net_remove (n : Network) : M world unit :=
  call (NetworkRemove n) (fun _ => RNone) (fun h => network_remove d h n).
Definition net_connect (n : Network) (c : Container) : M world unit :=
  call (NetworkConnect n c) (fun _ => RNone) (fun h => network_connect d h n c).
Definition net_disconnect (n : Network) (c : Container) : M world unit :=
  call (NetworkDisconnect n c) (fun _ => RNone) (fun h => network_disconnect d h n c).
End Client.


(** ** DockerService *)

(** [self.client] is [None] when the connection could not be set up. *)
Record DockerService : Type := {
  base_url : string;
  client : option DockerClient
}.

(** An attribute access on [self.client]. *)
Definition the_client (self : DockerService) : M world DockerClient :=
  match client self with
  | Some d => ret d
  | None => raise (AttributeError "'NoneType' object has no attribute")
  end.

Definition is_connected (self : DockerService) : M world bool :=
  match client self with
  | None => ret false
  | Some d => try_except (run! client_ping d in ret true) (fun _ => ret false)
  end.

(** *** create_container *)

(** The parameters of [create_container]; a dictionary parameter is the
    list of its items. *)
Record create_args : Type := {
  cc_image : string;
  cc_internal_port : option Z;
  cc_host_port : option Z;
  cc_ports : option (list (string * Z));
  cc_command : option string;
  cc_environment : option (gmap string string);
  cc_memory_limit : string;
  cc_cpu_limit : float;
  cc_pids_limit : Z;
  cc_labels : option (gmap string string);
  cc_name : option string;
  cc_network : option string;
  cc_use_traefik : bool;
  cc_network_mode : option string
}.

(** The dictionary [create_container] returns. *)
Record created : Type := {
  container_id : string;
  status : string;
  port : option Z
}.

Definition create_container (self : DockerService) (a : create_args) : M world created :=
  let! connected := is_connected self in
  if negb connected then raise (Exception "Docker is not connected")
  else
    try_except
      (let cpu_period := 100000 in
       let! cpu_quota := of_result (py_int (cc_cpu_limit a * py_float cpu_period)) in
       let container_labels :=
         <["ctfd.plugin" := "containers"]>
           (<["ctfd.managed" := "true"]> (or_empty (cc_labels a))) in
       let! d := the_client self in
       let! container :=
         if truthy_str (cc_network_mode a) then
           run d {| ra_image := cc_image a;
                    ra_name := cc_name a;
                    ra_command := cc_command a;
                    ra_detach := true;
                    ra_auto_remove := true;
                    ra_ports := None;
                    ra_environment := or_empty (cc_environment a);
                    ra_mem_limit := cc_memory_limit a;
                    ra_cpu_quota := cpu_quota;
                    ra_cpu_period := cpu_period;
                    ra_pids_limit := cc_pids_limit a;
                    ra_labels := container_labels;
                    ra_network := None;
                    ra_network_mode := cc_network_mode a;
                    ra_cap_drop := Some ["ALL"];
                    ra_cap_add := Some ["CHOWN"; "SETUID"; "SETGID"];
                    ra_security_opt := Some ["no-new-privileges"];
                    ra_networking_config := None |}
         else
           let ports_config :=
             if negb (cc_use_traefik a) then
               if truthy_items (cc_ports a) then
                 Some (map (fun '(internal, external) => (internal +:+ "/tcp", Some external))
                           (default [] (cc_ports a)))
               else
                 Some [(str_opt_int (cc_internal_port a) +:+ "/tcp", cc_host_port a)]
             else None in
           let network_arg :=
             if truthy_str (cc_network a) then default "bridge" (cc_network a)
             else "bridge" in
           run d {| ra_image := cc_image a;
                    ra_name := cc_name a;
                    ra_command := cc_command a;
                    ra_detach := true;
                    ra_auto_remove := true;
                    ra_ports := ports_config;
                    ra_environment := or_empty (cc_environment a);
                    ra_mem_limit := cc_memory_limit a;
                    ra_cpu_quota := cpu_quota;
                    ra_cpu_period := cpu_period;
                    ra_pids_limit := cc_pids_limit a;
                    ra_labels := container_labels;
                    ra_network := Some network_arg;
                    ra_network_mode := None;
                    ra_cap_drop := Some ["ALL"];
                    ra_cap_add := Some ["CHOWN"; "SETUID"; "SETGID"];
                    ra_security_opt := Some ["no-new-privileges"];
                    ra_networking_config := None |} in
       run! logger INFO ("Created container " +:+ str_take 12 (c_id container)
                         +:+ " from image " +:+ cc_image a) in
       ret {| container_id := c_id container;
              status := c_status container;
              port := cc_host_port a |})
      (fun e =>
         if is_ImageNotFound e then
           run! logger ERROR ("Docker image not found: " +:+ cc_image a) in
           raise (Exception ("Docker image '" +:+ cc_image a +:+ "' not found"))
         else if is_APIError e then
           run! logger ERROR ("Docker API error: " +:+ exn_str e) in
           raise (Exception ("Failed to create container: " +:+ exn_str e))
         else
           run! logger ERROR ("Unexpected error creating container: " +:+ exn_str e) in
           raise e).

(** *** stop_container *)

Definition stop_container (self : DockerService) (container_id : string) : M world bool :=
  let! connected := is_connected self in
  if negb connected then
    run! logger WARNING "Docker not connected, cannot stop container" in
    ret false
  else
    try_except
      (let! d := the_client self in
       let! container := containers_get_ d container_id in
       run! stop d container 3 in
       run! remove d container in
       run! logger INFO ("Stopped and removed container " +:+ str_take 12 container_id) in
       ret true)
      (fun e =>
         if is_NotFound e then
           run! logger INFO ("Container " +:+ str_take 12 container_id
                             +:+ " not found (already removed)") in
           ret true
         else
           run! logger ERROR ("Error stopping container " +:+ str_take 12 container_id
                              +:+ ": " +:+ exn_str e) in
           ret false).

(** *** list_managed_containers and cleanup_expired_containers *)

Definition list_managed_containers (self : DockerService) : M world (list Container) :=
  let! connected := is_connected self in
  if negb connected then ret []
  else
    try_except
      (let! d := the_client self in
       containers_list_ d true "ctfd.managed=true")
      (fun e =>
         run! logger ERROR ("Error listing containers: " +:+ exn_str e) in
         ret []).

(** The body of the [for container in containers] loop. *)
Definition cleanup_one (self : DockerService) (instance_uuids : list string)
    (container : Container) : M world unit :=
  let instance_uuid := c_labels container !! "ctfd.instance_uuid" in
  if truthy_str instance_uuid
     && negb (bool_decide (default "" instance_uuid ∈ instance_uuids)) then
    run! logger INFO ("Cleaning up orphaned container " +:+ str_take 12 (c_id container)) in
    attempt (let! d := the_client self in
             run! stop d container 5 in
             remove d container)
  else ret tt.

Fixpoint cleanup_loop (self : DockerService) (instance_uuids : list string)
    (containers : list Container) : M world unit :=
  match containers with
  | [] => ret tt
  | container :: rest =>
      run! cleanup_one self instance_uuids container in
      cleanup_loop self instance_uuids rest
  end.

Definition cleanup_expired_containers (self : DockerService)
    (instance_uuids : list string) : M world unit :=
  let! connected := is_connected self in
  if negb connected then ret tt
  else
    try_except
      (let! containers := list_managed_containers self in
       cleanup_loop self instance_uuids containers)
      (fun e => logger ERROR ("Error during cleanup: " +:+ exn_str e)).

(** *** create_network and remove_network *)

Definition create_network (self : DockerService) (name : string) (internal : bool)
    (driver : string) (options : option (gmap string string)) : M world bool :=
  let! connected := is_connected self in
  if negb connected then ret false
  else
    try_except
      (let! d := the_client self in
       let! exists_ :=
         try_except (run! networks_get_ d name in ret true)
                    (fun e => if is_NotFound e then ret false else raise e) in
       if exists_ : bool then ret true
       else
         run! networks_create_ d {| na_name := name;
                                    na_driver := driver;
                                    na_internal := Some internal;
                                    na_options := options;
                                    na_check_duplicate := Some true;
                                    na_labels := {["ctfd.managed" := "true"]} |} in
         run! logger INFO ("Created network " +:+ name) in
         ret true)
      (fun e =>
         run! logger ERROR ("Failed to create network " +:+ name +:+ ": " +:+ exn_str e) in
         ret false).

Definition remove_network (self : DockerService) (name : string) : M world bool :=
  let! connected := is_connected self in
  if negb connected then ret false
  else
    try_except
      (let! d := the_client self in
       let! network := networks_get_ d name in
       run! net_remove d network in
       run! logger INFO ("Removed network " +:+ name) in
       ret true)
      (fun e =>
         if is_NotFound e then ret true
         else
           run! logger WARNING ("Failed to remove network " +:+ name
                                +:+ " (might be in use): " +:+ exn_str e) in
           ret false).

(** *** create_container_group *)

(** One dictionary of [containers_config]; [None] is a missing key. *)
Record container_def : Type := {
  cd_name : option string;
  cd_image : option string;
  cd_command : option string;
  cd_environment : option (gmap string string);
  cd_expose : option Z
}.

Record group_args : Type := {
  g_containers_config : list container_def;
  g_network_name : string;
  g_entry_port : Z;
  g_host_port : Z;
  g_flag : string;
  g_labels : option (gmap string string);
  g_name_prefix : string;
  g_memory_limit : string;
  g_cpu_limit : float;
  g_pids_limit : Z;
  g_connection_host : string;
  g_tailnet_container : string
}.

(** The dictionary [create_container_group] returns. *)
Record group_handle : Type := {
  container_ids : list string;
  entry_container_id : string;
  network_id : string;
  gh_port : Z
}.

(** The local variables the [except] block of [create_container_group]
    reads. *)
Record locals : Type := {
  created_containers : list Container;
  network : option Network;
  ts_connected : bool;
  ts_serve_port : option Z
}.

Definition G (A : Type) : Type := M (locals * world) A.

Definition lift {A} (m : M world A) : G A :=
  fun '(l, w) => match m w with (r, w') => (r, (l, w')) end.

Definition assign (f : locals -> locals) : G unit :=
  fun '(l, w) => (Ok tt, (f l, w)).

Definition set_network (n : Network) (l : locals) : locals :=
  {| created_containers := created_containers l; network := Some n;
     ts_connected := ts_connected l; ts_serve_port := ts_serve_port l |}.

Definition append_created (c : Container) (l : locals) : locals :=
  {| created_containers := created_containers l ++ [c]; network := network l;
     ts_connected := ts_connected l; ts_serve_port := ts_serve_port l |}.

Definition set_ts_connected (l : locals) : locals :=
  {| created_containers := created_containers l; network := network l;
     ts_connected := true; ts_serve_port := ts_serve_port l |}.

Definition set_ts_serve_port (p : Z) (l : locals) : locals :=
  {| created_containers := created_containers l; network := network l;
     ts_connected := ts_connected l; ts_serve_port := Some p |}.

(** [c_def[key]] *)
Definition item {S A} (key : string) (o : option A) : M S A :=
  match o with Some v => ret v | None => raise (KeyError key) end.

(** The first index whose dictionary has a truthy ['expose'], from [i] on. *)
Fixpoint find_entry (i : nat) (containers_config : list container_def) : option nat :=
  match containers_config with
  | [] => None
  | c :: rest => if truthy_int (cd_expose c) then Some i else find_entry (S i) rest
  end.

(** The [containers.run] call both kinds of group container are created
    with. *)
Definition group_run_args (g : group_args) (image c_name name : string)
    (command : option string) (env c_labels : gmap string string)
    (cpu_quota cpu_period : Z) : run_args :=
  {| ra_image := image;
     ra_name := Some c_name;
     ra_command := command;
     ra_detach := true;
     ra_auto_remove := true;
     ra_ports := None;
     ra_environment := env;
     ra_mem_limit := g_memory_limit g;
     ra_cpu_quota := cpu_quota;
     ra_cpu_period := cpu_period;
     ra_pids_limit := g_pids_limit g;
     ra_labels := c_labels;
     ra_network := None;
     ra_network_mode := None;
     ra_cap_drop := None;
     ra_cap_add := None;
     ra_security_opt := None;
     ra_networking_config := Some [(g_network_name g, [name])] |}.

(** The body of the loop over the containers that are not the entry. *)
Definition create_internal (d : DockerClient) (g : group_args)
    (cpu_quota cpu_period : Z) (c_def : container_def) : G unit :=
  let! name := item "name" (cd_name c_def) in
  let c_name := g_name_prefix g +:+ "-" +:+ name in
  let c_env := default ∅ (cd_environment c_def) in
  let c_labels := or_empty (g_labels g) in
  let c_labels := <["ctfd.compose_role" := "internal"]> c_labels in
  let c_labels := <["ctfd.compose_name" := name]> c_labels in
  let! image := item "image" (cd_image c_def) in
  let! container :=
    lift (run d (group_run_args g image c_name name (cd_command c_def)
                                c_env c_labels cpu_quota cpu_period)) in
  run! assign (append_created container) in
  lift (logger INFO ("Created internal container: " +:+ c_name +:+ " ("
                     +:+ str_take 12 (c_id container) +:+ ")")).

Fixpoint create_internals (d : DockerClient) (g : group_args)
    (cpu_quota cpu_period : Z) (entry_idx i : nat)
    (containers_config : list container_def) : G unit :=
  match containers_config with
  | [] => ret tt
  | c_def :: rest =>
      run! (if Nat.eqb i entry_idx then ret tt
            else create_internal d g cpu_quota cpu_period c_def) in
      create_internals d g cpu_quota cpu_period entry_idx (S i) rest
  end.

(** The [try] block. *)
Definition group_body (self : DockerService) (g : group_args) : G group_handle :=
  let! d := lift (the_client self) in
  let! network :=
    lift (networks_create_ d
            {| na_name := g_network_name g;
               na_driver := "bridge";
               na_internal := None;
               na_options := None;
               na_check_duplicate := None;
               na_labels :=
                 or_empty (g_labels g)
                 ∪ <["ctfd.compose_group" := g_name_prefix g]>
                     {["ctfd.managed" := "true"]} |}) in
  run! assign (set_network network) in
  run! lift (logger INFO ("Created private network: " +:+ g_network_name g)) in
  let cpu_period := 100000 in
  let! cpu_quota := lift (of_result (py_int (g_cpu_limit g * py_float cpu_period))) in
  match find_entry 0 (g_containers_config g) with
  | None =>
      raise (Exception
               "No container has 'expose' defined. One container must expose a port.")
  | Some entry_idx =>
      run! create_internals d g cpu_quota cpu_period entry_idx 0 (g_containers_config g) in
      let! entry_def :=
        match g_containers_config g !! entry_idx with
        | Some c => ret c
        | None => raise (OtherError "IndexError" "list index out of range")
        end in
      let! name := item "name" (cd_name entry_def) in
      let entry_name := g_name_prefix g +:+ "-" +:+ name in
      let entry_env := default ∅ (cd_environment entry_def) in
      let entry_env := <["FLAG" := g_flag g]> entry_env in
      let entry_env := <["PORT" := str_int (g_entry_port g)]> entry_env in
      let entry_labels := or_empty (g_labels g) in
      let entry_labels := <["ctfd.compose_role" := "entry"]> entry_labels in
      let entry_labels := <["ctfd.compose_name" := name]> entry_labels in
      let! image := item "image" (cd_image entry_def) in
      let! entry_container :=
        lift (run d (group_run_args g image entry_name name (cd_command entry_def)
                                    entry_env entry_labels cpu_quota cpu_period)) in
      run! assign (append_created entry_container) in
      run! lift (logger INFO ("Created entry container: " +:+ entry_name +:+ " ("
                              +:+ str_take 12 (c_id entry_container) +:+ ")")) in
      let! ts_container := lift (containers_get_ d (g_tailnet_container g)) in
      run! lift (net_connect d network ts_container) in
      run! assign set_ts_connected in
      run! lift (logger INFO ("Connected " +:+ g_tailnet_container g +:+ " to "
                              +:+ g_network_name g)) in
      let serve_cmd :=
        "tailscale serve --bg --tcp " +:+ str_int (g_host_port g) +:+ " tcp://"
        +:+ entry_name +:+ ":" +:+ str_int (g_entry_port g) in
      let! (exit_code, output) := lift (exec_run d ts_container serve_cmd) in
      run! (if negb (exit_code =? 0) then
              let! text := of_result (bytes_decode output) in
              raise (Exception ("tailscale serve failed (exit " +:+ str_int exit_code
                                +:+ "): " +:+ text))
            else ret tt) in
      run! assign (set_ts_serve_port (g_host_port g)) in
      run! lift (logger INFO ("Tailscale serve: port " +:+ str_int (g_host_port g)
                              +:+ " -> " +:+ entry_name +:+ ":"
                              +:+ str_int (g_entry_port g))) in
      let! text := of_result (bytes_decode output) in
      run! lift (logger INFO ("Output: " +:+ py_strip text)) in
      let! l := (fun s => (Ok (fst s), s)) in
      let all_ids := map c_id (created_containers l) in
      ret {| container_ids := all_ids;
             entry_container_id := c_id entry_container;
             network_id := n_id network;
             gh_port := g_host_port g |}
  end.

(** [for c in created_containers: try: c.stop(timeout=3); c.remove()
    except: pass] *)
Fixpoint stop_created (d : DockerClient) (cs : list Container) : M world unit :=
  match cs with
  | [] => ret tt
  | c :: rest =>
      run! attempt (run! stop d c 3 in remove d c) in
      stop_created d rest
  end.

(** The steps of the [except] block, each in its own [try]/[except: pass]:
    clean up tailscale serve, disconnect tailscale from the network, and
    remove the network. *)
Definition cleanup_serve (self : DockerService) (g : group_args)
    (ts_serve_port : option Z) : M world unit :=
  attempt (let! d := the_client self in
           let! ts_container := containers_get_ d (g_tailnet_container g) in
           run! exec_run d ts_container
                  ("tailscale serve --tcp " +:+ str_opt_int ts_serve_port +:+ " off") in
           ret tt).

Definition disconnect_tailscale (self : DockerService) (g : group_args)
    (network : Network) : M world unit :=
  attempt (let! d := the_client self in
           let! ts_container := containers_get_ d (g_tailnet_container g) in
           net_disconnect d network ts_container).

Definition remove_created_network (self : DockerService) (network : Network)
    : M world unit :=
  attempt (let! d := the_client self in net_remove d network).

(** The clean-up of the [except] block, before its [raise]. *)
Definition compensate (self : DockerService) (g : group_args) (l : locals) : M world unit :=
  run! (if truthy_int (ts_serve_port l) then cleanup_serve self g (ts_serve_port l)
        else ret tt) in
  run! (match ts_connected l, network l with
        | true, Some network => disconnect_tailscale self g network
        | _, _ => ret tt
        end) in
  run! (match client self with
        | Some d => stop_created d (created_containers l)
        | None => ret tt
        end) in
  match network l with
  | Some network => remove_created_network self network
  | None => ret tt
  end.

Definition init_locals : locals :=
  {| created_containers := []; network := None;
     ts_connected := false; ts_serve_port := None |}.

Definition create_container_group (self : DockerService) (g : group_args)
    : M world group_handle :=
  let! connected := is_connected self in
  if negb connected then raise (Exception "Docker is not connected")
  else
    fun w =>
      match group_body self g (init_locals, w) with
      | (Ok h, (_, w')) => (Ok h, w')
      | (Raise e, (l, w')) =>
          (run! logger ERROR ("Error creating container group: " +:+ exn_str e) in
           run! compensate self g l in
           raise e) w'
      end.

(** *** stop_container_group *)

(** The body of the loop over the container ids; [success] is the flag the
    loop may clear. *)
Definition stop_one (self : DockerService) (success : bool) (cid : string) : M world bool :=
  try_except
    (let! d := the_client self in
     let! container := containers_get_ d cid in
     run! stop d container 3 in
     run! remove d container in
     run! logger INFO ("Stopped container " +:+ str_take 12 cid) in
     ret success)
    (fun e =>
       if is_NotFound e then
         run! logger INFO ("Container " +:+ str_take 12 cid
                           +:+ " not found (already removed)") in
         ret success
       else
         run! logger ERROR ("Error stopping container " +:+ str_take 12 cid
                            +:+ ": " +:+ exn_str e) in
         ret false).

Fixpoint stop_each (self : DockerService) (success : bool) (ids : list string)
    : M world bool :=
  match ids with
  | [] => ret success
  | cid :: rest =>
      let! success := stop_one self success cid in
      stop_each self success rest
  end.

(** Step 1 of [stop_container_group]: remove the tailscale serve
    forwarding. *)
Definition remove_serve (self : DockerService) (host_port : option Z)
    (tailnet_container : string) : M world unit :=
  if truthy_int host_port then
    try_except
      (let! d := the_client self in
       let! ts_container := containers_get_ d tailnet_container in
       run! exec_run d ts_container
              ("tailscale serve --tcp " +:+ str_opt_int host_port +:+ " off") in
       logger INFO ("Removed tailscale serve for port " +:+ str_opt_int host_port))
      (fun e =>
         if is_NotFound e then
           logger WARNING ("Tailscale container " +:+ tailnet_container +:+ " not found")
         else
           logger WARNING ("Error removing tailscale serve: " +:+ exn_str e))
  else ret tt.

(** Step 3 of [stop_container_group]: disconnect the relay from the
    network and remove the network. *)
Definition remove_group_network (self : DockerService) (network_id : option string)
    (tailnet_container : string) (success : bool) : M world bool :=
  if truthy_str network_id then
    let nid := default "" network_id in
    try_except
      (let! d := the_client self in
       let! network := networks_get_ d nid in
       run! attempt (let! ts_container := containers_get_ d tailnet_container in
                     run! net_disconnect d network ts_container in
                     logger INFO ("Disconnected " +:+ tailnet_container
                                  +:+ " from network " +:+ str_take 12 nid)) in
       run! net_remove d network in
       run! logger INFO ("Removed private network " +:+ str_take 12 nid) in
       ret success)
      (fun e =>
         if is_NotFound e then ret success
         else
           run! logger WARNING ("Failed to remove network " +:+ str_take 12 nid
                                +:+ ": " +:+ exn_str e) in
           ret false)
  else ret success.

Definition stop_container_group (self : DockerService)
    (container_ids : option (list string)) (network_id : option string)
    (host_port : option Z) (tailnet_container : string) : M world bool :=
  let! connected := is_connected self in
  if negb connected then
    run! logger WARNING "Docker not connected, cannot stop container group" in
    ret false
  else
    let success := true in
    run! remove_serve self host_port tailnet_container in
    let! success := stop_each self success (default [] container_ids) in
    remove_group_network self network_id tailnet_container success.

(** *** __init__ and _connect *)

(** [docker.DockerClient(base_url=..., timeout=...)] is the argument
    [docker_DockerClient]: it gives a client or raises (an [ssh://] URL
    opens its connection there).  [_connect] assigns [self.client]: the
    service it returns is [self] after the call. *)
Definition _connect (docker_DockerClient : string -> Z -> result DockerClient)
    (self : DockerService) : M world DockerService :=
  try_except
    (let! c :=
       if String.prefix "ssh://" (base_url self) then
         run! logger INFO ("Attempting SSH connection to Docker: " +:+ base_url self) in
         of_result (docker_DockerClient (base_url self) 30)
       else
         of_result (docker_DockerClient (base_url self) 10) in
     run! client_ping c in
     run! logger INFO ("Connected to Docker daemon at " +:+ base_url self) in
     ret {| base_url := base_url self; client := Some c |})
    (fun e =>
       run! logger WARNING ("Failed to connect to Docker: " +:+ exn_str e) in
       run! logger WARNING
              "Docker connection will be retried when needed. Configure in plugin settings." in
       ret {| base_url := base_url self; client := None |}).

Definition __init__ (docker_DockerClient : string -> Z -> result DockerClient)
    (base_url : string) : M world DockerService :=
  _connect docker_DockerClient {| base_url := base_url; client := None |}.

(** *** get_container_status and is_container_running *)

Definition get_container_status (self : DockerService) (container_id : string)
    : M world (option string) :=
  let! connected := is_connected self in
  if negb connected then ret None
  else
    try_except
      (let! d := the_client self in
       let! container := containers_get_ d container_id in
       ret (Some (c_status container)))
      (fun e =>
         if is_NotFound e then ret None
         else
           run! logger ERROR ("Error getting container status: " +:+ exn_str e) in
           ret None).

Definition is_container_running (self : DockerService) (container_id : string)
    : M world bool :=
  let! status := get_container_status self container_id in
  ret (bool_decide (status = Some "running")).

(** ** A scripted daemon

    A concrete [DockerClient] to run the service on: it holds a fixed list of
    containers, answers [exec_run] with a fixed result, and fails exactly the
    requests its script names. *)

Record script : Type := {
  s_fail : list event -> request -> option exn;
  s_store : list Container;
  s_exec : Z * string
}.

Definition answer {A} (s : script) (h : list event) (rq : request) (r : result A)
    : result A :=
  match s_fail s h rq with
  | Some e => Raise e
  | None => r
  end.

(** The label filter ["key=value"] of [containers.list]. *)
Definition has_label (label : string) (c : Container) : bool :=
  existsb (fun '(k, v) => String.eqb (k +:+ "=" +:+ v) label)
          (map_to_list (c_labels c)).

Definition find_container (ref : string) (cs : list Container) : result Container :=
  match List.find (fun c => String.eqb (c_id c) ref) cs with
  | Some c => Ok c
  | None => Raise (NotFound ("No such container: " +:+ ref))
  end.

Definition scripted (s : script) : DockerClient :=
  {| ping := fun h => answer s h Ping (Ok tt);
     containers_run := fun h a =>
       answer s h (ContainersRun a)
         (Ok {| c_id := "id-" +:+ default (ra_image a) (ra_name a);
                c_status := "created";
                c_labels := ra_labels a |});
     containers_get := fun h ref =>
       answer s h (ContainersGet ref) (find_container ref (s_store s));
     containers_list := fun h all label =>
       answer s h (ContainersList all label)
         (Ok (List.filter (has_label label) (s_store s)));
     container_stop := fun h c t => answer s h (ContainerStop c t) (Ok tt);
     container_remove := fun h c => answer s h (ContainerRemove c) (Ok tt);
     container_exec_run := fun h c cmd =>
       answer s h (ContainerExecRun c cmd) (Ok (s_exec s));
     networks_get := fun h ref => answer s h (NetworksGet ref) (Ok {| n_id := ref |});
     networks_create := fun h a =>
       answer s h (NetworksCreate a) (Ok {| n_id := "net-" +:+ na_name a |});
     network_remove := fun h n => answer s h (NetworkRemove n) (Ok tt);
     network_connect := fun h n c => answer s h (NetworkConnect n c) (Ok tt);
     network_disconnect := fun h n c => answer s h (NetworkDisconnect n c) (Ok tt) |}.

Definition service (s : script) : DockerService :=
  {| base_url := "unix://var/run/docker.sock"; client := Some (scripted s) |}.

Definition fresh : world := {| calls := []; log := [] |}.

(** The relay container the group functions look up. *)
Definition relay : Container :=
  {| c_id := "tailscale-challenges"; c_status := "running"; c_labels := ∅ |}.

(** A daemon on which every request succeeds. *)
Definition healthy : script :=
  {| s_fail := fun _ _ => None; s_store := [relay]; s_exec := (0, "ok") |}.

Definition cdef (name image : string) (expose : option Z) : container_def :=
  {| cd_name := Some name; cd_image := Some image; cd_command := None;
     cd_environment := None; cd_expose := expose |}.

Definition group_of (cfg : list container_def) (host_port : Z) : group_args :=
  {| g_containers_config := cfg;
     g_network_name := "net1";
     g_entry_port := 8080;
     g_host_port := host_port;
     g_flag := "FLAG{x}";
     g_labels := None;
     g_name_prefix := "grp";
     g_memory_limit := "512m";
     g_cpu_limit := 0.5;
     g_pids_limit := 100;
     g_connection_host := "localhost";
     g_tailnet_container := "tailscale-challenges" |}.


(** ** Reading the recorded requests *)

(** The events recorded between two worlds. *)
Definition new_calls (w w' : world) : list event :=
  drop (length (calls w)) (calls w').

Definition new_log (w w' : world) : list (level * string) :=
  drop (length (log w)) (log w').

(** The answer [is_connected] records for its probe. *)
Definition ping_event (d : DockerClient) (w : world) : event :=
  (Ping, result_map (fun _ => RNone) (ping d (calls w))).

(** The arguments of the [containers.run] requests among some events. *)
Definition run_requests (evs : list event) : list run_args :=
  omap (fun ev => match fst ev with ContainersRun a => Some a | _ => None end) evs.

(** The exceptions the daemon answered with. *)
Definition failures (evs : list event) : list exn :=
  omap (fun ev => match snd ev with Raise e => Some e | Ok _ => None end) evs.

(** The containers a [stop], respectively a [remove], was requested on. *)
Definition stopped (evs : list event) : list Container :=
  omap (fun ev => match fst ev with ContainerStop c _ => Some c | _ => None end) evs.

Definition removed (evs : list event) : list Container :=
  omap (fun ev => match fst ev with ContainerRemove c => Some c | _ => None end) evs.

(** The requests of [stop_container_group] whose failure clears the
    success flag: the lookup, the stop and the removal of a container of
    the group, the lookup and the removal of the network.  The probe, the
    lookups of the relay, the command in the relay and the disconnection
    are not among them. *)
Definition teardown_step (tailnet_container : string) (rq : request) : bool :=
  match rq with
  | ContainersGet ref => negb (String.eqb ref tailnet_container)
  | ContainerStop _ _ | ContainerRemove _ | NetworksGet _ | NetworkRemove _ => true
  | _ => false
  end.

(** The kinds of request among which [teardown_step] chooses. *)
Definition group_step (rq : request) : bool :=
  match rq with
  | ContainersGet _ | ContainerStop _ _ | ContainerRemove _
  | NetworksGet _ | NetworkRemove _ => true
  | _ => false
  end.

Definition step_failures (tailnet_container : string) (evs : list event) : list exn :=
  failures (List.filter (fun ev => teardown_step tailnet_container (fst ev)) evs).


(** ** Concrete inputs *)

(** A single container with one published port. *)
Definition web_args : create_args :=
  {| cc_image := "nginx";
     cc_internal_port := Some 80;
     cc_host_port := Some 30001;
     cc_ports := None;
     cc_command := None;
     cc_environment := None;
     cc_memory_limit := "512m";
     cc_cpu_limit := 0.5;
     cc_pids_limit := 100;
     cc_labels := None;
     cc_name := Some "web";
     cc_network := None;
     cc_use_traefik := false;
     cc_network_mode := None |}.

(** Shared-namespace mode together with a port dictionary, a single port
    pair and a named network. *)
Definition shared_with_ports : create_args :=
  {| cc_image := "nginx";
     cc_internal_port := Some 80;
     cc_host_port := Some 30001;
     cc_ports := Some [("80", 30001); ("22", 30002)];
     cc_command := None;
     cc_environment := None;
     cc_memory_limit := "512m";
     cc_cpu_limit := 1.0;
     cc_pids_limit := 100;
     cc_labels := None;
     cc_name := Some "web";
     cc_network := Some "ctfd";
     cc_use_traefik := false;
     cc_network_mode := Some "container:tailscale-challenges" |}.

(** Daemons that fail one kind of request. *)
Definition fail_on (p : request -> bool) (e : exn) : script :=
  {| s_fail := fun _ rq => if p rq then Some e else None;
     s_store := [relay];
     s_exec := (0, "ok") |}.

Definition is_NetworksGet (rq : request) : bool :=
  match rq with NetworksGet _ => true | _ => false end.

Definition is_NetworksCreate (rq : request) : bool :=
  match rq with NetworksCreate _ => true | _ => false end.

Definition is_NetworkRemove (rq : request) : bool :=
  match rq with NetworkRemove _ => true | _ => false end.

Definition is_ContainersGet (rq : request) : bool :=
  match rq with ContainersGet _ => true | _ => false end.

Definition is_ContainerStop (rq : request) : bool :=
  match rq with ContainerStop _ _ => true | _ => false end.

Definition network_gone : script :=
  fail_on is_NetworksGet (NotFound "network net1 not found").

Definition network_busy : script :=
  fail_on is_NetworkRemove (APIError "network net1 has active endpoints").

Definition container_gone : script :=
  fail_on is_ContainersGet (NotFound "No such container").

Definition stop_refused : script :=
  fail_on is_ContainerStop (APIError "cannot stop container").

(** The containers of the sweep: [managed] bear the management label;
    [orphaned] carry a non-empty correlation id that is not among the
    valid ones. *)
Definition managed (c : Container) : bool :=
  bool_decide (c_labels c !! "ctfd.managed" = Some "true").

Definition orphaned (instance_uuids : list string) (c : Container) : bool :=
  match c_labels c !! "ctfd.instance_uuid" with
  | Some u => negb (String.eqb u "") && negb (bool_decide (u ∈ instance_uuids))
  | None => false
  end.

(** The only requests a sweep may issue. *)
Definition sweep_request (rq : request) : bool :=
  match rq with
  | Ping | ContainersList _ _ | ContainerStop _ _ | ContainerRemove _ => true
  | _ => false
  end.

(** A managed container of a live instance, a managed container of a dead
    one, a managed container without correlation id, and a container that
    is not managed. *)
Definition labelled (cid : string) (ls : list (string * string)) : Container :=
  {| c_id := cid; c_status := "running"; c_labels := list_to_map ls |}.

Definition c_live : Container :=
  labelled "c-live" [("ctfd.managed", "true"); ("ctfd.instance_uuid", "u1")].
Definition c_dead : Container :=
  labelled "c-dead" [("ctfd.managed", "true"); ("ctfd.instance_uuid", "u2")].
Definition c_plain : Container :=
  labelled "c-plain" [("ctfd.managed", "true")].
Definition c_foreign : Container :=
  labelled "c-foreign" [("ctfd.instance_uuid", "u3")].

Definition crowded : script :=
  {| s_fail := fun _ _ => None;
     s_store := [c_live; c_dead; c_plain; c_foreign];
     s_exec := (0, "ok") |}.

(** ** What a failed group creation has acquired, and what compensates it *)

(** The resources the recorded answers show to have been acquired: the
    network whose creation succeeded, the containers whose [run]
    succeeded, whether the relay was connected, whether a [tailscale serve]
    command exited with 0. *)
Record resources : Type := {
  r_network : option Network;
  r_created : list Container;
  r_joined : bool;
  r_bound : bool
}.

Definition no_resources : resources :=
  {| r_network := None; r_created := []; r_joined := false; r_bound := false |}.

Definition observe (R : resources) (ev : event) : resources :=
  match ev with
  | (NetworksCreate _, Ok (RNetwork n)) =>
      {| r_network := Some n; r_created := r_created R;
         r_joined := r_joined R; r_bound := r_bound R |}
  | (ContainersRun _, Ok (RContainer c)) =>
      {| r_network := r_network R; r_created := r_created R ++ [c];
         r_joined := r_joined R; r_bound := r_bound R |}
  | (NetworkConnect _ _, Ok _) =>
      {| r_network := r_network R; r_created := r_created R;
         r_joined := true; r_bound := r_bound R |}
  | (ContainerExecRun _ _, Ok (RExec exit_code _)) =>
      {| r_network := r_network R; r_created := r_created R;
         r_joined := r_joined R; r_bound := r_bound R || (exit_code =? 0) |}
  | _ => R
  end.

Definition acquired (evs : list event) : resources := foldl observe no_resources evs.

(** The events of the compensation the specification asks for, on the
    daemon [d] after the history [h]: each attempt is recorded with the
    answer [d] gives, and an attempt that fails ends its step only. *)
Definition unbind_events (d : DockerClient) (g : group_args) (h : list event)
    : list event :=
  let ref := g_tailnet_container g in
  let e1 := (ContainersGet ref, result_map RContainer (containers_get d h ref)) in
  match containers_get d h ref with
  | Ok ts =>
      let cmd := "tailscale serve --tcp " +:+ str_int (g_host_port g) +:+ " off" in
      [e1; (ContainerExecRun ts cmd,
            result_map (fun '(x, o) => RExec x o)
                       (container_exec_run d (h ++ [e1]) ts cmd))]
  | Raise _ => [e1]
  end.

Definition disconnect_events (d : DockerClient) (g : group_args) (n : Network)
    (h : list event) : list event :=
  let ref := g_tailnet_container g in
  let e1 := (ContainersGet ref, result_map RContainer (containers_get d h ref)) in
  match containers_get d h ref with
  | Ok ts =>
      [e1; (NetworkDisconnect n ts,
            result_map (fun _ => RNone) (network_disconnect d (h ++ [e1]) n ts))]
  | Raise _ => [e1]
  end.

Definition stop_remove_events (d : DockerClient) (c : Container) (h : list event)
    : list event :=
  let e1 := (ContainerStop c 3, result_map (fun _ => RNone) (container_stop d h c 3)) in
  match container_stop d h c 3 with
  | Ok _ =>
      [e1; (ContainerRemove c,
            result_map (fun _ => RNone) (container_remove d (h ++ [e1]) c))]
  | Raise _ => [e1]
  end.

Fixpoint stop_events (d : DockerClient) (cs : list Container) (h : list event)
    : list event :=
  match cs with
  | [] => []
  | c :: rest =>
      let evs := stop_remove_events d c h in
      evs ++ stop_events d rest (h ++ evs)
  end.

Definition network_events (d : DockerClient) (n : Network) (h : list event)
    : list event :=
  [(NetworkRemove n, result_map (fun _ => RNone) (network_remove d h n))].

(** What the handler undoes, step by step, the steps in the reverse of the
    order in which the block acquires: the route if bound, the relay if
    joined, every container created, the network if created.  Within
    their step the containers are taken as [created_containers] lists
    them, in the order of their creation. *)
Definition compensation (d : DockerClient) (g : group_args) (R : resources)
    (h : list event) : list event :=
  let u := if r_bound R then unbind_events d g h else [] in
  let j := match r_joined R, r_network R with
           | true, Some n => disconnect_events d g n (h ++ u)
           | _, _ => []
           end in
  let c := stop_events d (r_created R) (h ++ u ++ j) in
  let n := match r_network R with
           | Some n => network_events d n (h ++ u ++ j ++ c)
           | None => []
           end in
  u ++ j ++ c ++ n.

(** The clean-up in the words of the specification, strictly in reverse
    order: as [compensation], but with the containers taken from the last
    created to the first. *)
Definition compensation_reversed (d : DockerClient) (g : group_args) (R : resources)
    (h : list event) : list event :=
  compensation d g
    {| r_network := r_network R; r_created := rev (r_created R);
       r_joined := r_joined R; r_bound := r_bound R |} h.

(** The local variables of [create_container_group] that go with some
    acquired resources. *)
Definition locals_of (g : group_args) (R : resources) : locals :=
  {| created_containers := r_created R;
     network := r_network R;
     ts_connected := r_joined R;
     ts_serve_port := if r_bound R then Some (g_host_port g) else None |}.

(** What every [containers.run] request of [create_container_group] has. *)
Definition group_run_shape (g : group_args) (ra : run_args) : Prop :=
  ra_cpu_period ra = 100000
  /\ py_int (g_cpu_limit g * py_float 100000) = Ok (ra_cpu_quota ra)
  /\ ra_auto_remove ra = true
  /\ ra_cap_drop ra = None
  /\ ra_cap_add ra = None
  /\ ra_security_opt ra = None
  /\ ra_labels ra !! "ctfd.managed" = or_empty (g_labels g) !! "ctfd.managed"
  /\ ra_labels ra !! "ctfd.plugin" = or_empty (g_labels g) !! "ctfd.plugin".

(** A daemon whose relay answers [tailscale serve] with exit code 0 and an
    output that is not UTF-8. *)
Definition garbled : script :=
  {| s_fail := fun _ _ => None; s_store := [relay]; s_exec := (0, of_bytes [255%N]) |}.

(** The commands of the [exec_run] requests among some events. *)
Definition exec_commands (evs : list event) : list string :=
  omap (fun ev => match fst ev with ContainerExecRun _ cmd => Some cmd | _ => None end) evs.

(** The hardening and the labels of C4, on the arguments of a
    [containers.run] request. *)
Definition hardened (ra : run_args) : bool :=
  bool_decide (ra_cap_drop ra = Some ["ALL"])
  && bool_decide (ra_cap_add ra = Some ["CHOWN"; "SETUID"; "SETGID"])
  && bool_decide (ra_security_opt ra = Some ["no-new-privileges"])
  && ra_auto_remove ra.

Definition management_labels (ra : run_args) : bool :=
  bool_decide (ra_labels ra !! "ctfd.managed" = Some "true")
  && bool_decide (ra_labels ra !! "ctfd.plugin" = Some "containers").

(** The truthiness test of the search for the entry. *)
Definition exposes (c : container_def) : bool := truthy_int (cd_expose c).

(** Groups to run: no entry, one entry, two entries. *)
Definition no_entry_group : group_args :=
  group_of [cdef "db" "postgres" None; cdef "cache" "redis" None] 30010.

Definition one_entry_group : group_args :=
  group_of [cdef "db" "postgres" None; cdef "web" "nginx" (Some 80)] 30010.

Definition two_entry_group : group_args :=
  group_of [cdef "web" "nginx" (Some 80); cdef "api" "flask" (Some 5000)] 30010.

(** A daemon without the relay, and one that moreover refuses to stop a
    container. *)
Definition relay_missing : script :=
  {| s_fail := fun _ _ => None; s_store := []; s_exec := (0, "ok") |}.

Definition relay_missing_stop_refused : script :=
  {| s_fail := fun _ rq =>
       if is_ContainerStop rq then Some (APIError "cannot stop container") else None;
     s_store := [];
     s_exec := (0, "ok") |}.

Definition three_group : group_args :=
  group_of [cdef "db" "postgres" None; cdef "cache" "redis" None;
            cdef "web" "nginx" (Some 80)] 30010.

(** A share whose product with the period is not an integer: [0.29] is
    the binary64 float nearest to 0.29. *)
#[warnings="-inexact-float"] Definition throttled : float := 0.29.

Definition throttled_args : create_args :=
  {| cc_image := "nginx";
     cc_internal_port := Some 80;
     cc_host_port := Some 30001;
     cc_ports := None;
     cc_command := None;
     cc_environment := None;
     cc_memory_limit := "512m";
     cc_cpu_limit := throttled;
     cc_pids_limit := 100;
     cc_labels := None;
     cc_name := Some "web";
     cc_network := None;
     cc_use_traefik := false;
     cc_network_mode := None |}.

Definition throttled_group : group_args :=
  {| g_containers_config := [cdef "web" "nginx" (Some 80)];
     g_network_name := "net1";
     g_entry_port := 8080;
     g_host_port := 30010;
     g_flag := "FLAG{x}";
     g_labels := None;
     g_name_prefix := "grp";
     g_memory_limit := "512m";
     g_cpu_limit := throttled;
     g_pids_limit := 100;
     g_connection_host := "localhost";
     g_tailnet_container := "tailscale-challenges" |}.

(** More daemons and inputs, for the properties beyond C1..C10. *)
Definition is_Ping (rq : request) : bool :=
  match rq with Ping => true | _ => false end.

Definition is_ContainersRun (rq : request) : bool :=
  match rq with ContainersRun _ => true | _ => false end.

Definition unreachable : script :=
  fail_on is_Ping (OtherError "ConnectionError" "connection refused").

(** The dictionaries of [containers_config] other than the entry, from
    index [i] on, in order. *)
Fixpoint others (entry_idx i : nat) (containers_config : list container_def)
    : list container_def :=
  match containers_config with
  | [] => []
  | c :: rest =>
      if Nat.eqb i entry_idx then others entry_idx (S i) rest
      else c :: others entry_idx (S i) rest
  end.

(** The [containers.run] arguments that go with a dictionary, as an
    internal container and as the entry; [None] when ['name'] or ['image']
    is missing. *)
Definition internal_request (g : group_args) (q : Z) (c_def : container_def)
    : option run_args :=
  match cd_name c_def, cd_image c_def with
  | Some name, Some image =>
      Some (group_run_args g image (g_name_prefix g +:+ "-" +:+ name) name
              (cd_command c_def) (default ∅ (cd_environment c_def))
              (<["ctfd.compose_name" := name]>
                 (<["ctfd.compose_role" := "internal"]> (or_empty (g_labels g))))
              q 100000)
  | _, _ => None
  end.

Definition entry_request (g : group_args) (q : Z) (c_def : container_def)
    : option run_args :=
  match cd_name c_def, cd_image c_def with
  | Some name, Some image =>
      Some (group_run_args g image (g_name_prefix g +:+ "-" +:+ name) name
              (cd_command c_def)
              (<["PORT" := str_int (g_entry_port g)]>
                 (<["FLAG" := g_flag g]> (default ∅ (cd_environment c_def))))
              (<["ctfd.compose_name" := name]>
                 (<["ctfd.compose_role" := "entry"]> (or_empty (g_labels g))))
              q 100000)
  | _, _ => None
  end.

(** The [tailscale serve] command that binds the route to the entry. *)
Definition serve_command (g : group_args) (c_def : container_def) : string :=
  "tailscale serve --bg --tcp " +:+ str_int (g_host_port g) +:+ " tcp://"
  +:+ (g_name_prefix g +:+ "-" +:+ default "" (cd_name c_def)) +:+ ":"
  +:+ str_int (g_entry_port g).

(** The arguments the private network of a group is created with. *)
Definition group_net_args (g : group_args) : net_args :=
  {| na_name := g_network_name g;
     na_driver := "bridge";
     na_internal := None;
     na_options := None;
     na_check_duplicate := None;
     na_labels := or_empty (g_labels g)
                  ∪ <["ctfd.compose_group" := g_name_prefix g]>
                      {["ctfd.managed" := "true"]} |}.

(** A [containers.run] request answered with a container. *)
Definition run_event (rc : run_args * Container) : event :=
  (ContainersRun (fst rc), Ok (RContainer (snd rc))).

(** [l] with more containers created. *)
Definition with_created (l : locals) (cs : list Container) : locals :=
  {| created_containers := created_containers l ++ cs; network := network l;
     ts_connected := ts_connected l; ts_serve_port := ts_serve_port l |}.

(** A daemon that finds no container and no network, and one that runs a
    group of two containers beside the relay. *)
Definition nothing_left : script :=
  {| s_fail := fun _ rq =>
       match rq with
       | ContainersGet ref => Some (NotFound ("No such container: " +:+ ref))
       | NetworksGet ref => Some (NotFound ("network " +:+ ref +:+ " not found"))
       | _ => None
       end;
     s_store := [];
     s_exec := (0, "ok") |}.

Definition running_group : script :=
  {| s_fail := fun _ _ => None; s_store := [relay; c_live; c_dead]; s_exec := (0, "ok") |}.

(** The container [running_group] answers a lookup with. *)
Definition found (ref : string) : Container :=
  match find_container ref (s_store running_group) with
  | Ok c => c
  | Raise _ => relay
  end.

(** ** Predicates of the proofs *)

(** [w'] is [w] after the events [evs] and the log lines [ls]. *)
Definition extends (w w' : world) (evs : list event) (ls : list (level * string)) : Prop :=
  calls w' = calls w ++ evs /\ log w' = log w ++ ls.

(** What a sweep over some containers leaves in the record. *)
Definition swept (d : DockerClient) (cs : list Container) (evs : list event) : Prop :=
  stopped evs = cs
  /\ sublist (removed evs) cs
  /\ forallb sweep_request (map fst evs) = true
  /\ ((forall h c t, container_stop d h c t = Ok tt) -> removed evs = cs).

(** A computation that ends normally and issues no [containers.run]. *)
Definition quiet (m : M world unit) : Prop :=
  forall w r w',
    m w = (r, w') ->
    r = Ok tt /\ exists evs ls, extends w w' evs ls /\ run_requests evs = [].


(** * Properties *)

Ltac unfold_monad :=
  unfold attempt, client_ping, run, containers_get_, containers_list_, stop, remove,
    exec_run, networks_get_, networks_create_, net_remove, net_connect,
    net_disconnect, the_client, of_result in *;
  unfold bind, ret, raise, try_except, logger, call in *.

Ltac innermost x :=
  match x with
  | context [match ?y with _ => _ end] => innermost y
  | _ => x
  end.

(** Case analysis on the innermost scrutinee of a hypothesis: the next
    answer of the daemon, or the next test of the code. *)
Ltac case_step H :=
  match type of H with
  | context [match ?x with _ => _ end] =>
      let y := innermost x in destruct y eqn:?
  end.

Ltac case_goal :=
  match goal with
  | |- context [match ?x with _ => _ end] =>
      let y := innermost x in destruct y eqn:?
  end.

Lemma new_calls_app w w' evs :
  calls w' = calls w ++ evs -> new_calls w w' = evs.
Proof. unfold new_calls. intros ->. apply drop_app_length. Qed.

(** [is_connected] never raises; with a client it records one probe. *)
Lemma is_connected_client self d w :
  client self = Some d ->
  is_connected self w
  = (Ok (match ping d (calls w) with Ok _ => true | Raise _ => false end),
     {| calls := calls w ++ [ping_event d w]; log := log w |}).
Proof.
  intros Hc. unfold is_connected, ping_event. rewrite Hc. unfold_monad.
  simpl. destruct (ping d (calls w)); reflexivity.
Qed.

Lemma is_connected_no_client self w :
  client self = None -> is_connected self w = (Ok false, w).
Proof. intros Hc. unfold is_connected. rewrite Hc. reflexivity. Qed.

(** *** C10 *)

(** C10. Whenever [create_container] returns, the ['port'] of the record
    it returns is the [host_port] argument, whatever the networking mode:
    with a [ports] dictionary, with [use_traefik], with [network_mode],
    and also when [host_port] is [None]. *)
Theorem create_container_port_is_host_port self a w r w' :
  create_container self a w = (Ok r, w') -> port r = cc_host_port a.
Proof.
  unfold create_container, is_connected. unfold_monad. cbn beta.
  intros H.
  repeat (case_step H; simpl in H; try discriminate; simplify_eq); reflexivity.
Qed.


Lemma create_container_port_witness :
  exists r w', create_container (service healthy) web_args fresh = (Ok r, w')
               /\ port r = Some 30001.
Proof.
  eexists _, _. split.
  - vm_compute. reflexivity.
  - eapply (create_container_port_is_host_port (service healthy) web_args fresh).
    vm_compute. reflexivity.
Defined.

(** *** C2 *)

(** C2, as the code has it. In shared-namespace mode ([network_mode] set)
    [create_container] validates nothing: [internal_port], [host_port],
    [ports] and [network] are ignored.  One [containers.run] request is
    issued, carrying [network_mode] and neither ports nor a network, and
    the call succeeds as soon as that request does. *)
Theorem shared_namespace_ignores_ports self d a w q :
  client self = Some d ->
  ping d (calls w) = Ok tt ->
  truthy_str (cc_network_mode a) = true ->
  py_int (cc_cpu_limit a * py_float 100000) = Ok q ->
  exists ra,
    let h := calls w ++ [ping_event d w] in
    new_calls w (snd (create_container self a w))
    = [ping_event d w; (ContainersRun ra, result_map RContainer (containers_run d h ra))]
    /\ ra_network_mode ra = cc_network_mode a
    /\ ra_ports ra = None
    /\ ra_network ra = None
    /\ forall c, containers_run d h ra = Ok c ->
         fst (create_container self a w)
         = Ok {| container_id := c_id c; status := c_status c; port := cc_host_port a |}.
Proof.
  intros Hc Hp Hm Hq.
  destruct (create_container self a w) as [r w'] eqn:E.
  unfold create_container in E. unfold bind at 1 in E.
  rewrite (is_connected_client _ _ _ Hc), Hp in E. cbn [negb] in E.
  unfold_monad. rewrite Hq, Hc, Hm in E. cbn [calls log] in E.
  unfold ping_event in *. rewrite Hp in *. cbn [result_map] in *.
  match type of E with
  | context [containers_run d ?h ?ra] =>
      exists ra; destruct (containers_run d h ra) eqn:Hrun
  end.
  - cbn in E. injection E as <- <-. cbn. split.
    { apply new_calls_app. cbn. rewrite <- app_assoc. reflexivity. }
    do 3 (split; [reflexivity|]).
    intros c Hr. injection Hr as <-. reflexivity.
  - split.
    { destruct (is_ImageNotFound e), (is_APIError e); cbn in E;
        injection E as <- <-; apply new_calls_app; cbn; rewrite <- app_assoc;
        reflexivity. }
    do 3 (split; [reflexivity|]).
    intros c Hr. discriminate.
Qed.

Lemma shared_namespace_ignores_ports_witness :
  exists ra,
    ra_network_mode ra = cc_network_mode shared_with_ports
    /\ ra_ports ra = None /\ ra_network ra = None.
Proof.
  destruct (shared_namespace_ignores_ports (service healthy) (scripted healthy)
              shared_with_ports fresh 100000 eq_refl eq_refl eq_refl)
    as (ra & _ & Hmode & Hports & Hnet & _).
  - vm_compute. reflexivity.
  - exists ra. auto.
Defined.

(** C2, as stated, fails: shared-namespace mode with a [ports] dictionary,
    a port pair and a named [network] is accepted, and a container is
    created. *)
Lemma shared_namespace_with_ports_accepted :
  fst (create_container (service healthy) shared_with_ports fresh)
  = Ok {| container_id := "id-web"; status := "created"; port := Some 30001 |}
  /\ length (run_requests
               (calls (snd (create_container (service healthy) shared_with_ports fresh))))
     = 1%nat.
Proof. vm_compute. split; reflexivity. Qed.

(** *** C7 *)

(** C7. [create_network] on a name the daemon already knows returns [True]
    after the probe and the lookup alone: no creation request is issued
    and nothing is logged.  [remove_network] returns [True] when the
    network is not found, never raises, and a removal the daemon refuses
    (the network is in use) is logged at warning level. *)
Theorem network_create_remove_idempotent :
  (forall self name w, exists b, fst (remove_network self name w) = Ok b)
  /\ (forall self d name internal driver options w,
        client self = Some d ->
        ping d (calls w) = Ok tt ->
        let h := calls w ++ [ping_event d w] in
        (forall n, networks_get d h name = Ok n ->
           create_network self name internal driver options w
           = (Ok true,
              {| calls := h ++ [(NetworksGet name, Ok (RNetwork n))]; log := log w |}))
        /\ (forall e, networks_get d h name = Raise e -> is_NotFound e = true ->
              fst (remove_network self name w) = Ok true)
        /\ (forall n e,
              networks_get d h name = Ok n ->
              network_remove d (h ++ [(NetworksGet name, Ok (RNetwork n))]) n = Raise e ->
              is_NotFound e = false ->
              exists msg,
                remove_network self name w
                = (Ok false,
                   {| calls := (h ++ [(NetworksGet name, Ok (RNetwork n))])
                               ++ [(NetworkRemove n, Raise e)];
                      log := log w ++ [(WARNING, msg)] |}))).
Proof.
  split.
  - intros self name w. unfold remove_network, is_connected. unfold_monad.
    destruct (client self); cbn; [|eauto].
    repeat (case_goal; cbn; eauto).
  - intros self d name internal driver options w Hc Hp h. subst h.
    split; [|split].
    + intros n Hg. unfold create_network. unfold bind at 1.
      rewrite (is_connected_client _ _ _ Hc), Hp. cbn [negb].
      unfold_monad. rewrite Hc. cbn [calls log]. rewrite Hg. reflexivity.
    + intros e Hg He. unfold remove_network. unfold bind at 1.
      rewrite (is_connected_client _ _ _ Hc), Hp. cbn [negb].
      unfold_monad. rewrite Hc. cbn [calls log]. rewrite Hg, He. reflexivity.
    + intros n e Hg Hr He. unfold remove_network. unfold bind at 1.
      rewrite (is_connected_client _ _ _ Hc), Hp. cbn [negb].
      unfold_monad. rewrite Hc. cbn [calls log]. rewrite Hg. cbn [calls log result_map].
      rewrite Hr, He. eexists. reflexivity.
Qed.

Lemma network_create_remove_witness :
  fst (create_network (service healthy) "net1" false "bridge" None fresh) = Ok true
  /\ fst (remove_network (service network_gone) "net1" fresh) = Ok true
  /\ fst (remove_network (service network_busy) "net1" fresh) = Ok false.
Proof.
  destruct network_create_remove_idempotent as [_ H].
  split; [|split].
  - destruct (H (service healthy) (scripted healthy) "net1" false "bridge" None fresh
                eq_refl eq_refl) as (H1 & _ & _).
    rewrite (H1 _ eq_refl). reflexivity.
  - destruct (H (service network_gone) (scripted network_gone) "net1" false "bridge" None
                fresh eq_refl eq_refl) as (_ & H2 & _).
    exact (H2 _ eq_refl eq_refl).
  - destruct (H (service network_busy) (scripted network_busy) "net1" false "bridge" None
                fresh eq_refl eq_refl) as (_ & _ & H3).
    destruct (H3 _ _ eq_refl eq_refl eq_refl) as [msg ->]. reflexivity.
Defined.

(** *** C5 *)

Lemma failures_app evs1 evs2 : failures (evs1 ++ evs2) = failures evs1 ++ failures evs2.
Proof. apply omap_app. Qed.

Lemma extends_refl w : extends w w [] [].
Proof. split; symmetry; apply app_nil_r. Qed.

Lemma extends_trans w1 w2 w3 evs1 ls1 evs2 ls2 :
  extends w1 w2 evs1 ls1 -> extends w2 w3 evs2 ls2 ->
  extends w1 w3 (evs1 ++ evs2) (ls1 ++ ls2).
Proof.
  intros [H1 H2] [H3 H4]. split.
  - rewrite H3, H1, app_assoc. reflexivity.
  - rewrite H4, H2, app_assoc. reflexivity.
Qed.

Lemma app_eq_nil_r {A} (l : list A) : l = l ++ [].
Proof. symmetry. apply app_nil_r. Qed.

(** Reads the events and the log lines off a world built by appending. *)
Ltac solve_extends :=
  split; cbn [calls log]; rewrite <- ?app_assoc;
  first [reflexivity | apply app_eq_nil_r].

(** One round of the loop of [stop_container_group]: the flag survives
    exactly when every failure the daemon reported was "not found". *)
Lemma stop_one_spec self d success cid w r w' :
  client self = Some d ->
  stop_one self success cid w = (r, w') ->
  exists evs ls,
    extends w w' evs ls
    /\ r = Ok (success && forallb is_NotFound (failures evs)).
Proof.
  intros Hc H. unfold stop_one in H. unfold_monad. rewrite Hc in H.
  repeat (case_step H; cbn [calls log] in H); injection H as <- <-;
    (eexists _, _; split; [solve_extends|]);
    cbn; rewrite ?Heqb, ?andb_true_r, ?andb_false_r; reflexivity.
Qed.

Lemma stop_each_spec self d ids : forall success w r w',
  client self = Some d ->
  stop_each self success ids w = (r, w') ->
  exists evs ls,
    extends w w' evs ls
    /\ r = Ok (success && forallb is_NotFound (failures evs)).
Proof.
  induction ids as [|cid ids IH]; intros success w r w' Hc H; cbn in H.
  - injection H as <- <-. exists [], []. split; [apply extends_refl|].
    cbn. rewrite andb_true_r. reflexivity.
  - unfold bind in H. destruct (stop_one self success cid w) as [r1 w1] eqn:H1.
    destruct (stop_one_spec _ _ _ _ _ _ _ Hc H1) as (evs1 & ls1 & He1 & ->).
    destruct (IH _ _ _ _ Hc H) as (evs2 & ls2 & He2 & ->).
    exists (evs1 ++ evs2), (ls1 ++ ls2). split; [eapply extends_trans; eassumption|].
    rewrite failures_app, forallb_app, andb_assoc. reflexivity.
Qed.

(** C5. [stop_container] never raises.  Once the probe succeeds its result
    is [True] exactly when every failure the daemon reported (looking the
    container up, stopping it, removing it) was "not found": a container
    that is not found gives [True], any other failure gives [False] with
    one line logged at error level.  The loop of [stop_container_group]
    keeps its success flag under the same condition, so a container id
    that is not found counts as stopped. *)
Theorem stop_is_idempotent :
  (forall self cid w, exists b, fst (stop_container self cid w) = Ok b)
  /\ (forall self d cid w,
        client self = Some d ->
        ping d (calls w) = Ok tt ->
        let r := stop_container self cid w in
        let evs := new_calls w (snd r) in
        fst r = Ok (forallb is_NotFound (failures evs))
        /\ (forall e, containers_get d (calls w ++ [ping_event d w]) cid = Raise e ->
                      is_NotFound e = true -> fst r = Ok true)
        /\ (forallb is_NotFound (failures evs) = false ->
            exists msg, new_log w (snd r) = [(ERROR, msg)]))
  /\ (forall self d ids tailnet_container w,
        client self = Some d ->
        ping d (calls w) = Ok tt ->
        let r := stop_container_group self (Some ids) None None tailnet_container w in
        fst r = Ok (forallb is_NotFound (failures (new_calls w (snd r))))).
Proof.
  split; [|split].
  - intros self cid w. unfold stop_container, is_connected. unfold_monad.
    destruct (client self); cbn; [|eauto].
    repeat (case_goal; cbn; eauto).
  - intros self d cid w Hc Hp r evs. subst evs r.
    destruct (stop_container self cid w) as [r w'] eqn:E.
    unfold stop_container in E. unfold bind at 1 in E.
    rewrite (is_connected_client _ _ _ Hc), Hp in E. cbn [negb] in E.
    unfold_monad. rewrite Hc in E. cbn [calls log fst snd] in *.
    unfold ping_event in *. rewrite Hp in *. cbn [result_map] in *.
    repeat (case_step E; cbn [calls log] in E); injection E as <- <-;
      unfold new_calls, new_log; cbn [calls log];
      rewrite <- ?app_assoc, ?drop_app_length; cbn;
      rewrite ?Heqb; (split; [reflexivity|split]);
      try (intros; congruence); try (intros; simplify_eq; congruence); eauto.
  - intros self d ids tn w Hc Hp r. subst r.
    destruct (stop_container_group self (Some ids) None None tn w) as [r w'] eqn:E.
    unfold stop_container_group in E. unfold bind at 1 in E.
    rewrite (is_connected_client _ _ _ Hc), Hp in E.
    unfold remove_serve, remove_group_network in E.
    cbn [negb truthy_int truthy_str] in E.
    unfold bind, ret in E. cbn [default] in E.
    match type of E with
    | context [stop_each ?s ?b ?l ?w0] => destruct (stop_each s b l w0) as [r1 w1] eqn:E1
    end.
    destruct (stop_each_spec _ _ _ _ _ _ _ Hc E1) as (evs & ls & [He _] & ->).
    cbn in E. injection E as <- <-. cbn [fst snd].
    cbn [calls] in He. rewrite <- app_assoc in He.
    rewrite (new_calls_app _ _ _ He), failures_app. unfold ping_event. rewrite Hp.
    reflexivity.
Qed.

Lemma stop_is_idempotent_witness :
  fst (stop_container (service container_gone) "0123456789abcdef" fresh) = Ok true
  /\ fst (stop_container (service stop_refused) "tailscale-challenges" fresh) = Ok false
  /\ fst (stop_container_group (service container_gone) (Some ["c1"; "c2"]) None None
            "tailscale-challenges" fresh) = Ok true.
Proof.
  destruct stop_is_idempotent as (_ & H2 & H3).
  split; [|split].
  - destruct (H2 (service container_gone) (scripted container_gone) "0123456789abcdef"
                fresh eq_refl eq_refl) as (_ & Hgone & _).
    exact (Hgone _ eq_refl eq_refl).
  - destruct (H2 (service stop_refused) (scripted stop_refused) "tailscale-challenges"
                fresh eq_refl eq_refl) as (Hres & _ & _).
    rewrite Hres. vm_compute. reflexivity.
  - rewrite (H3 (service container_gone) (scripted container_gone) ["c1"; "c2"]
               "tailscale-challenges" fresh eq_refl eq_refl).
    vm_compute. reflexivity.
Defined.

(** *** C6 *)

Lemma remove_serve_total self host_port tailnet_container w :
  exists w', remove_serve self host_port tailnet_container w = (Ok tt, w').
Proof.
  unfold remove_serve. unfold_monad.
  repeat (case_goal; cbn; eauto).
Qed.

Lemma stop_one_total self success cid w :
  exists b w', stop_one self success cid w = (Ok b, w').
Proof.
  unfold stop_one. unfold_monad.
  repeat (case_goal; cbn; eauto).
Qed.

Lemma stop_each_total self ids : forall success w,
  exists b w', stop_each self success ids w = (Ok b, w').
Proof.
  induction ids as [|cid ids IH]; intros success w; cbn.
  - eauto.
  - unfold bind. destruct (stop_one_total self success cid w) as (b & w1 & ->).
    apply IH.
Qed.

Lemma remove_group_network_total self network_id tailnet_container success w :
  exists b w',
    remove_group_network self network_id tailnet_container success w = (Ok b, w').
Proof.
  unfold remove_group_network. unfold_monad.
  repeat (case_goal; cbn; eauto).
Qed.

(** A removal the daemon refuses clears the flag, and is logged as a
    warning. *)
Lemma remove_group_network_refused self d network_id tailnet_container success w n e :
  client self = Some d ->
  truthy_str network_id = true ->
  (forall h, networks_get d h (default "" network_id) = Ok n) ->
  (forall h, network_remove d h n = Raise e) ->
  is_NotFound e = false ->
  exists w' msg,
    remove_group_network self network_id tailnet_container success w = (Ok false, w')
    /\ last (log w') = Some (WARNING, msg).
Proof.
  intros Hc Ht Hget Hrm He.
  unfold remove_group_network. rewrite Ht. unfold_monad. rewrite Hc, Hget.
  cbn [calls log].
  repeat (first [rewrite Hrm, He | case_goal]; cbn [calls log]);
    eexists _, _; (split; [reflexivity|]); cbn [log];
    apply last_snoc.
Qed.

Lemma step_failures_app tn evs1 evs2 :
  step_failures tn (evs1 ++ evs2) = step_failures tn evs1 ++ step_failures tn evs2.
Proof. unfold step_failures. rewrite List.filter_app. apply failures_app. Qed.

Lemma remove_serve_spec self d host_port tn w r w' :
  client self = Some d ->
  remove_serve self host_port tn w = (r, w') ->
  r = Ok tt
  /\ exists evs ls, extends w w' evs ls /\ step_failures tn evs = [].
Proof.
  intros Hc H. unfold remove_serve in H.
  destruct (truthy_int host_port).
  - unfold_monad. rewrite Hc in H.
    repeat (case_step H; cbn [calls log] in H); injection H as <- <-;
      (split; [reflexivity|]); eexists _, _; (split; [solve_extends|]);
      unfold step_failures; cbn; rewrite String.eqb_refl; reflexivity.
  - injection H as <- <-. split; [reflexivity|]. exists [], [].
    split; [apply extends_refl|reflexivity].
Qed.

Lemma stop_one_steps self d success tn cid w r w' :
  client self = Some d ->
  cid <> tn ->
  stop_one self success cid w = (r, w') ->
  exists evs ls,
    extends w w' evs ls
    /\ r = Ok (success && forallb is_NotFound (step_failures tn evs)).
Proof.
  intros Hc Hne H. unfold stop_one in H. unfold_monad. rewrite Hc in H.
  apply String.eqb_neq in Hne.
  repeat (case_step H; cbn [calls log] in H); injection H as <- <-;
    (eexists _, _; split; [solve_extends|]);
    unfold step_failures; cbn; rewrite Hne; cbn;
    rewrite ?Heqb, ?andb_true_r, ?andb_false_r; reflexivity.
Qed.

Lemma stop_each_steps self d tn ids : forall success w r w',
  client self = Some d ->
  tn ∉ ids ->
  stop_each self success ids w = (r, w') ->
  exists evs ls,
    extends w w' evs ls
    /\ r = Ok (success && forallb is_NotFound (step_failures tn evs)).
Proof.
  induction ids as [|cid ids IH]; intros success w r w' Hc Hni H; cbn in H.
  - injection H as <- <-. exists [], []. split; [apply extends_refl|].
    cbn. rewrite andb_true_r. reflexivity.
  - apply not_elem_of_cons in Hni as [Hne Hni].
    unfold bind in H. destruct (stop_one self success cid w) as [r1 w1] eqn:H1.
    destruct (stop_one_steps _ _ _ tn _ _ _ _ Hc (not_eq_sym Hne) H1)
      as (evs1 & ls1 & He1 & ->).
    destruct (IH _ _ _ _ Hc Hni H) as (evs2 & ls2 & He2 & ->).
    exists (evs1 ++ evs2), (ls1 ++ ls2). split; [eapply extends_trans; eassumption|].
    rewrite step_failures_app, forallb_app, andb_assoc. reflexivity.
Qed.

Lemma remove_group_network_steps self d network_id tn success w r w' :
  client self = Some d ->
  remove_group_network self network_id tn success w = (r, w') ->
  exists evs ls,
    extends w w' evs ls
    /\ r = Ok (success && forallb is_NotFound (step_failures tn evs)).
Proof.
  intros Hc H. unfold remove_group_network in H.
  destruct (truthy_str network_id).
  - unfold_monad. rewrite Hc in H.
    repeat (case_step H; cbn [calls log] in H); injection H as <- <-;
      (eexists _, _; split; [solve_extends|]);
      unfold step_failures; cbn; rewrite ?String.eqb_refl; cbn;
      rewrite ?Heqb, ?Heqb0, ?andb_true_r, ?andb_false_r; reflexivity.
  - injection H as <- <-. exists [], []. split; [apply extends_refl|].
    cbn. rewrite andb_true_r. reflexivity.
Qed.

Lemma step_failures_sub tn evs :
  forallb is_NotFound (failures evs) = true ->
  forallb is_NotFound (step_failures tn evs) = true.
Proof.
  unfold step_failures, failures.
  induction evs as [|[rq [a|e]] evs IH]; cbn; [reflexivity| |].
  - intros H. destruct (teardown_step tn rq); cbn; auto.
  - intros H. apply andb_prop in H as [He H].
    destruct (teardown_step tn rq); cbn; rewrite ?He; auto.
Qed.


Lemma stop_one_requests self d success cid w r w' :
  client self = Some d ->
  stop_one self success cid w = (r, w') ->
  forallb group_step (map fst (new_calls w w')) = true.
Proof.
  intros Hc H. unfold stop_one in H. unfold_monad. rewrite Hc in H.
  repeat (case_step H; cbn [calls log] in H); injection H as <- <-;
    unfold new_calls; cbn [calls];
    rewrite <- ?app_assoc, ?drop_app_length; reflexivity.
Qed.

Lemma stop_each_requests self d ids : forall success w r w' evs ls,
  client self = Some d ->
  stop_each self success ids w = (r, w') ->
  extends w w' evs ls ->
  forallb group_step (map fst evs) = true.
Proof.
  induction ids as [|cid ids IH]; intros success w r w' evs ls Hc H [C _]; cbn in H.
  - injection H as <- <-. rewrite <- (app_nil_r (calls w)) in C at 1.
    apply app_inv_head in C. subst evs. reflexivity.
  - unfold bind in H. destruct (stop_one self success cid w) as [r1 w1] eqn:H1.
    pose proof (stop_one_requests _ _ _ _ _ _ _ Hc H1) as K1.
    destruct (stop_one_spec _ _ _ _ _ _ _ Hc H1) as (evs1 & ls1 & [C1 L1] & ->).
    destruct (stop_each_spec _ _ _ _ _ _ _ Hc H) as (evs2 & ls2 & [C2 L2] & _).
    rewrite (new_calls_app _ _ _ C1) in K1.
    pose proof (IH _ _ _ _ evs2 ls2 Hc H (conj C2 L2)) as K2.
    rewrite C2, C1, <- app_assoc in C. apply app_inv_head in C. subst evs.
    rewrite map_app, forallb_app. apply andb_true_intro. split; assumption.
Qed.

Lemma failing_step (p : request -> bool) evs :
  forallb is_NotFound (failures (List.filter (fun ev => p (fst ev)) evs)) = false ->
  exists rq e, (rq, Raise e) ∈ evs /\ is_NotFound e = false /\ p rq = true.
Proof.
  induction evs as [|[rq [a|e]] evs IH]; cbn; [discriminate| |].
  - destruct (p rq); cbn; intros H; destruct (IH H) as (rq' & e' & Hin & He & Hp);
      exists rq', e'; (split; [apply elem_of_cons; right; exact Hin|auto]).
  - destruct (p rq) eqn:Hp; cbn.
    + destruct (is_NotFound e) eqn:He; cbn.
      * intros H. destruct (IH H) as (rq' & e' & Hin & He' & Hp').
        exists rq', e'. split; [apply elem_of_cons; right; exact Hin|auto].
      * intros _. exists rq, e. split; [apply list_elem_of_here|auto].
    + intros H. destruct (IH H) as (rq' & e' & Hin & He' & Hp').
      exists rq', e'. split; [apply elem_of_cons; right; exact Hin|auto].
Qed.

Lemma teardown_step_group tn rq : teardown_step tn rq = true -> group_step rq = true.
Proof. destruct rq; cbn; congruence. Qed.

Lemma filter_group_steps (evs : list event) :
  forallb group_step (map fst evs) = true ->
  List.filter (fun ev => group_step (fst ev)) evs = evs.
Proof.
  induction evs as [|x evs IH]; cbn; [reflexivity|].
  intros H. apply andb_prop in H as [-> H]. rewrite IH by exact H. reflexivity.
Qed.

(** [stop_container_group], connected, in its three steps. *)
Lemma stop_container_group_steps self d ids nid hp tn w :
  client self = Some d ->
  ping d (calls w) = Ok tt ->
  exists evs1 evs2 evs3 b2 w',
    stop_container_group self ids nid hp tn w
    = (Ok (b2 && forallb is_NotFound (step_failures tn evs3)), w')
    /\ calls w' = calls w ++ [ping_event d w] ++ evs1 ++ evs2 ++ evs3
    /\ step_failures tn evs1 = []
    /\ b2 = forallb is_NotFound (failures evs2)
    /\ forallb group_step (map fst evs2) = true
    /\ (tn ∉ default [] ids -> b2 = forallb is_NotFound (step_failures tn evs2)).
Proof.
  intros Hc Hp. unfold stop_container_group. unfold bind at 1.
  rewrite (is_connected_client _ _ _ Hc), Hp. cbn [negb]. unfold bind.
  match goal with
  | |- context [remove_serve ?a ?b ?c ?w0] =>
      destruct (remove_serve a b c w0) as [r1 w1] eqn:E1
  end.
  destruct (remove_serve_spec _ _ _ _ _ _ _ Hc E1) as (-> & evs1 & ls1 & [C1 _] & F1).
  destruct (stop_each self true (default [] ids) w1) as [r2 w2] eqn:E2.
  destruct (stop_each_spec _ _ _ _ _ _ _ Hc E2) as (evs2 & ls2 & [C2 L2] & ->).
  destruct (remove_group_network self nid tn _ w2) as [r3 w3] eqn:E3.
  destruct (remove_group_network_steps _ _ _ _ _ _ _ _ Hc E3)
    as (evs3 & ls3 & [C3 _] & ->).
  exists evs1, evs2, evs3, (forallb is_NotFound (failures evs2)), w3.
  cbn [andb]. split; [reflexivity|].
  split; [rewrite C3, C2, C1; cbn [calls]; unfold ping_event; rewrite Hp;
          rewrite <- !app_assoc; reflexivity|].
  split; [exact F1|]. split; [reflexivity|].
  split; [exact (stop_each_requests _ _ _ _ _ _ _ _ _ Hc E2 (conj C2 L2))|].
  intros Hni.
  destruct (stop_each_steps _ _ tn _ _ _ _ _ Hc Hni E2) as (evs2' & ls2' & [C2' _] & Hr).
  rewrite C2 in C2'. apply app_inv_head in C2'. subst evs2'.
  cbn [andb] in Hr. injection Hr as Hr. exact Hr.
Qed.

(** C6, as the code has it. [stop_container_group] never raises.  Once
    connected it returns the aggregate of its steps: [True] exactly when
    every failure the daemon reported on a step that counts (the lookup,
    the stop and the removal of a container of the group, the lookup and
    the removal of the network) was "not found"; what the lookups of the
    relay, the command in the relay and the disconnection answer does not
    count.  In particular the result is [True] when nothing fails but with
    "not found", and a removal of the group's network that the daemon
    refuses (the network is still in use) is logged at warning level and
    makes the result [False]. *)
Theorem group_teardown_never_raises :
  (forall self container_ids network_id host_port tailnet_container w,
     exists b,
       fst (stop_container_group self container_ids network_id host_port
              tailnet_container w) = Ok b)
  /\ (forall self d container_ids network_id host_port tailnet_container w,
        client self = Some d ->
        ping d (calls w) = Ok tt ->
        let r := stop_container_group self container_ids network_id host_port
                   tailnet_container w in
        let evs := new_calls w (snd r) in
        (tailnet_container ∉ default [] container_ids ->
         fst r = Ok (forallb is_NotFound (step_failures tailnet_container evs)))
        /\ (forallb is_NotFound (failures evs) = true -> fst r = Ok true)
        /\ (fst r = Ok false ->
            exists rq e,
              (rq, Raise e) ∈ evs /\ is_NotFound e = false
              /\ match rq with
                 | ContainersGet _ | ContainerStop _ _ | ContainerRemove _
                 | NetworksGet _ | NetworkRemove _ => True
                 | _ => False
                 end))
  /\ (forall self d container_ids network_id host_port tailnet_container w n e,
        client self = Some d ->
        ping d (calls w) = Ok tt ->
        truthy_str network_id = true ->
        (forall h, networks_get d h (default "" network_id) = Ok n) ->
        (forall h, network_remove d h n = Raise e) ->
        is_NotFound e = false ->
        let r := stop_container_group self container_ids network_id host_port
                   tailnet_container w in
        fst r = Ok false /\ exists msg, last (log (snd r)) = Some (WARNING, msg)).
Proof.
  split; [|split].
  - intros self ids nid hp tn w. unfold stop_container_group. unfold bind at 1.
    destruct (client self) as [d|] eqn:Hc.
    + rewrite (is_connected_client _ _ _ Hc).
      destruct (ping d (calls w)); cbn [negb]; [|cbn; eauto].
      unfold bind.
      match goal with
      | |- context [remove_serve ?a ?b ?c ?w0] =>
          destruct (remove_serve_total a b c w0) as (w1 & ->)
      end.
      match goal with
      | |- context [stop_each ?a ?b ?c ?w0] =>
          destruct (stop_each_total a c b w0) as (b1 & w2 & ->)
      end.
      match goal with
      | |- context [remove_group_network ?a ?b ?c ?s ?w0] =>
          destruct (remove_group_network_total a b c s w0) as (b2 & w3 & ->)
      end.
      eauto.
    + rewrite (is_connected_no_client _ _ Hc). cbn. eauto.
  - intros self d ids nid hp tn w Hc Hp r evs. subst evs r.
    destruct (stop_container_group_steps self d ids nid hp tn w Hc Hp)
      as (evs1 & evs2 & evs3 & b2 & w' & -> & C & F1 & Hb & K2 & Hsteps).
    cbn [fst snd]. rewrite (new_calls_app _ _ _ C).
    assert (Hping : step_failures tn [ping_event d w] = []).
    { unfold ping_event. rewrite Hp. reflexivity. }
    split; [|split].
    + intros Hni. rewrite !step_failures_app, Hping, F1. cbn [app].
      rewrite forallb_app, <- (Hsteps Hni). reflexivity.
    + rewrite !failures_app, !forallb_app. intros H.
      apply andb_prop in H as [_ H]. apply andb_prop in H as [_ H].
      apply andb_prop in H as [H2 H3].
      rewrite Hb, H2, (step_failures_sub _ _ H3). reflexivity.
    + intros H. injection H as H. apply andb_false_iff in H as [H|H].
      * rewrite Hb, <- (filter_group_steps _ K2) in H.
        destruct (failing_step _ _ H) as (rq & e & Hin & He & Hk).
        exists rq, e. split; [|split; [exact He|destruct rq; cbn in Hk |- *; first [exact I|discriminate]]].
        rewrite !elem_of_app. auto.
      * destruct (failing_step _ _ H) as (rq & e & Hin & He & Hk).
        apply teardown_step_group in Hk.
        exists rq, e. split; [|split; [exact He|destruct rq; cbn in Hk |- *; first [exact I|discriminate]]].
        rewrite !elem_of_app. auto.
  - intros self d ids nid hp tn w n e Hc Hp Ht Hget Hrm He r. subst r.
    assert (exists w' msg,
               stop_container_group self ids nid hp tn w = (Ok false, w')
               /\ last (log w') = Some (WARNING, msg)) as (w' & msg & -> & Hlast).
    { unfold stop_container_group. unfold bind at 1.
      rewrite (is_connected_client _ _ _ Hc), Hp. cbn [negb]. unfold bind.
      match goal with
      | |- context [remove_serve ?a ?b ?c ?w0] =>
          destruct (remove_serve_total a b c w0) as (w1 & ->)
      end.
      match goal with
      | |- context [stop_each ?a ?b ?c ?w0] =>
          destruct (stop_each_total a c b w0) as (b1 & w2 & ->)
      end.
      destruct (remove_group_network_refused self d nid tn b1 w2 n e Hc Ht Hget Hrm He)
        as (w3 & msg & -> & Hlast).
      eauto. }
    cbn. eauto.
Qed.

Lemma group_teardown_witness :
  fst (stop_container_group (service network_busy) (Some ["c1"]) (Some "net1")
         (Some 30010) "tailscale-challenges" fresh) = Ok false
  /\ fst (stop_container_group (service container_gone) (Some ["c1"]) (Some "net1")
            (Some 30010) "tailscale-challenges" fresh) = Ok true.
Proof.
  destruct group_teardown_never_raises as (_ & Hagg & Hbusy).
  split.
  - destruct (Hbusy (service network_busy) (scripted network_busy) (Some ["c1"])
                (Some "net1") (Some 30010) "tailscale-challenges" fresh
                {| n_id := "net1" |} (APIError "network net1 has active endpoints")
                eq_refl eq_refl eq_refl (fun _ => eq_refl) (fun _ => eq_refl) eq_refl)
      as [Hres _].
    exact Hres.
  - destruct (Hagg (service container_gone) (scripted container_gone) (Some ["c1"])
                (Some "net1") (Some 30010) "tailscale-challenges" fresh
                eq_refl eq_refl) as (Hexact & _ & _).
    rewrite Hexact; [vm_compute; reflexivity|].
    cbn. intros Hin. apply elem_of_cons in Hin as [Hin|Hin]; [discriminate Hin|].
    apply elem_of_nil in Hin. contradiction.
Defined.

(** C6, as stated, fails: the containers of the group are gone, the network
    is still in use, and the aggregate result is [False]. *)
Lemma network_in_use_fails_teardown :
  fst (stop_container_group (service network_busy) (Some []) (Some "net1")
         None "tailscale-challenges" fresh) = Ok false
  /\ failures (calls (snd (stop_container_group (service network_busy) (Some [])
                             (Some "net1") None "tailscale-challenges" fresh)))
     = [APIError "network net1 has active endpoints"].
Proof. vm_compute. split; reflexivity. Qed.

(** *** C8 *)

Lemma stopped_app evs1 evs2 : stopped (evs1 ++ evs2) = stopped evs1 ++ stopped evs2.
Proof. apply omap_app. Qed.

Lemma removed_app evs1 evs2 : removed (evs1 ++ evs2) = removed evs1 ++ removed evs2.
Proof. apply omap_app. Qed.

(** The test of the loop of [cleanup_expired_containers] is [orphaned]. *)
Lemma cleanup_test_orphaned instance_uuids c :
  truthy_str (c_labels c !! "ctfd.instance_uuid")
  && negb (bool_decide (default "" (c_labels c !! "ctfd.instance_uuid") ∈ instance_uuids))
  = orphaned instance_uuids c.
Proof.
  unfold orphaned. destruct (c_labels c !! "ctfd.instance_uuid") as [[|a u]|]; reflexivity.
Qed.

Lemma swept_app d cs1 cs2 evs1 evs2 :
  swept d cs1 evs1 -> swept d cs2 evs2 -> swept d (cs1 ++ cs2) (evs1 ++ evs2).
Proof.
  intros (S1 & R1 & F1 & A1) (S2 & R2 & F2 & A2). repeat split.
  - rewrite stopped_app, S1, S2. reflexivity.
  - rewrite removed_app. apply sublist_app; assumption.
  - rewrite map_app, forallb_app. apply andb_true_intro. split; assumption.
  - intros H. rewrite removed_app, A1, A2 by assumption. reflexivity.
Qed.

Lemma cleanup_one_spec self d instance_uuids c w r w' :
  client self = Some d ->
  cleanup_one self instance_uuids c w = (r, w') ->
  r = Ok tt
  /\ exists evs ls,
       extends w w' evs ls
       /\ swept d (if orphaned instance_uuids c then [c] else []) evs.
Proof.
  intros Hc H. unfold cleanup_one in H. rewrite cleanup_test_orphaned in H.
  destruct (orphaned instance_uuids c).
  - unfold_monad. rewrite Hc in H. cbn [calls log] in H.
    repeat (case_step H; cbn [calls log] in H); injection H as <- <-;
      repeat match goal with u : unit |- _ => destruct u end;
      (split; [reflexivity|]); eexists _, _; (split; [solve_extends|]);
      (split; [reflexivity|split; [|split; [reflexivity|]]]); cbn;
      try (apply sublist_nil_l); try reflexivity;
      try (intros Hs; rewrite Hs in *; discriminate); try (intros; reflexivity).
  - injection H as <- <-. split; [reflexivity|]. exists [], [].
    split; [apply extends_refl|]. repeat split; constructor.
Qed.

Lemma cleanup_loop_spec self d instance_uuids cs : forall w r w',
  client self = Some d ->
  cleanup_loop self instance_uuids cs w = (r, w') ->
  r = Ok tt
  /\ exists evs ls,
       extends w w' evs ls
       /\ swept d (List.filter (orphaned instance_uuids) cs) evs.
Proof.
  induction cs as [|c cs IH]; intros w r w' Hc H; cbn in H.
  - injection H as <- <-. split; [reflexivity|]. exists [], [].
    split; [apply extends_refl|]. repeat split; constructor.
  - unfold bind in H.
    destruct (cleanup_one self instance_uuids c w) as [r1 w1] eqn:H1.
    destruct (cleanup_one_spec _ _ _ _ _ _ _ Hc H1) as (-> & evs1 & ls1 & He1 & Hs1).
    destruct (IH _ _ _ Hc H) as (-> & evs2 & ls2 & He2 & Hs2).
    split; [reflexivity|]. exists (evs1 ++ evs2), (ls1 ++ ls2).
    split; [eapply extends_trans; eassumption|].
    cbn [List.filter].
    destruct (orphaned instance_uuids c); [|exact (swept_app _ [] _ _ _ Hs1 Hs2)].
    exact (swept_app _ [c] _ _ _ Hs1 Hs2).
Qed.

Lemma filter_filter_andb {A} (p q : A -> bool) (l : list A) :
  List.filter q (List.filter p l) = List.filter (fun x => p x && q x) l.
Proof.
  induction l as [|x l IH]; cbn; [reflexivity|].
  destruct (p x); cbn; [destruct (q x)|]; rewrite IH; reflexivity.
Qed.

(** C8, as the code has it. Given the containers [all] of the daemon, of
    which [list_managed_containers] is answered those bearing the
    management label, the sweep requests a stop on exactly the managed
    containers that carry a non-empty correlation id absent from
    [instance_uuids], in the order listed, and a removal on those of them
    whose stop went through.  Nothing else is requested of the daemon but
    the probes and the listing: a container that is unmanaged, or managed
    with a valid correlation id, or managed without correlation id, is left
    alone.  Failures of a stop or removal do not surface. *)
Theorem sweep_label_isolation self d instance_uuids all w :
  client self = Some d ->
  (forall h, ping d h = Ok tt) ->
  (forall h, containers_list d h true "ctfd.managed=true" = Ok (List.filter managed all)) ->
  let r := cleanup_expired_containers self instance_uuids w in
  let evs := new_calls w (snd r) in
  let targets := List.filter (fun c => managed c && orphaned instance_uuids c) all in
  fst r = Ok tt
  /\ stopped evs = targets
  /\ sublist (removed evs) targets
  /\ forallb sweep_request (map fst evs) = true
  /\ ((forall h c t, container_stop d h c t = Ok tt) -> removed evs = targets).
Proof.
  intros Hc Hp Hl r evs targets. subst evs targets r.
  destruct (cleanup_expired_containers self instance_uuids w) as [r w'] eqn:E.
  unfold cleanup_expired_containers in E. unfold bind at 1 in E.
  rewrite (is_connected_client _ _ _ Hc), Hp in E. cbn [negb] in E.
  unfold try_except, bind, list_managed_containers in E. unfold bind at 1 in E.
  cbn beta in E.
  rewrite (is_connected_client _ _ _ Hc), Hp in E. cbn [negb] in E.
  unfold_monad. rewrite Hc in E. cbn [calls log] in E. rewrite Hl in E.
  cbn [result_map] in E.
  match type of E with
  | context [cleanup_loop ?a ?b ?c ?w0] =>
      destruct (cleanup_loop a b c w0) as [r1 w1] eqn:E1
  end.
  destruct (cleanup_loop_spec _ _ _ _ _ _ _ Hc E1)
    as (-> & evs & ls & [He _] & (S & R & F & A)).
  injection E as <- <-. cbn [fst snd].
  cbn [calls] in He. rewrite <- !app_assoc in He. cbn [app] in He.
  rewrite (new_calls_app _ _ _ He).
  rewrite filter_filter_andb in S, R, A.
  repeat split; assumption.
Qed.

Lemma sweep_label_isolation_witness :
  stopped (calls (snd (cleanup_expired_containers (service crowded) ["u1"] fresh)))
  = [c_dead].
Proof.
  destruct (sweep_label_isolation (service crowded) (scripted crowded) ["u1"]
              [c_live; c_dead; c_plain; c_foreign] fresh eq_refl
              (fun _ => eq_refl)) as (_ & H & _).
  - intros h. vm_compute. reflexivity.
  - transitivity (List.filter (fun c => managed c && orphaned ["u1"] c)
                                [c_live; c_dead; c_plain; c_foreign]).
    + exact H.
    + vm_compute. reflexivity.
Defined.

(** C8, as stated, fails: [c_plain] bears the management label and has no
    correlation id among the valid ones, for it has none; the sweep stops
    [c_dead] only. *)
Lemma sweep_skips_unlabelled :
  managed c_plain = true
  /\ c_labels c_plain !! "ctfd.instance_uuid" = None
  /\ stopped (calls (snd (cleanup_expired_containers (service crowded) ["u1"] fresh)))
     = [c_dead]
  /\ removed (calls (snd (cleanup_expired_containers (service crowded) ["u1"] fresh)))
     = [c_dead].
Proof. vm_compute. repeat split; reflexivity. Qed.

(** *** Group creation: what the [try] block leaves behind *)

Ltac unfold_group :=
  unfold create_internal, lift, assign, item in *; unfold_monad.

Lemma run_requests_app evs1 evs2 :
  run_requests (evs1 ++ evs2) = run_requests evs1 ++ run_requests evs2.
Proof. apply omap_app. Qed.

Lemma group_run_args_shape g image c_name name command env role q :
  py_int (g_cpu_limit g * py_float 100000) = Ok q ->
  group_run_shape g
    (group_run_args g image c_name name command env
       (<["ctfd.compose_name" := name]>
          (<["ctfd.compose_role" := role]> (or_empty (g_labels g))))
       q 100000).
Proof.
  intros Hq. unfold group_run_shape. cbn.
  rewrite !lookup_insert_ne by discriminate. auto 10.
Qed.

Lemma create_internal_spec d g q c_def R w r l' w' :
  py_int (g_cpu_limit g * py_float 100000) = Ok q ->
  create_internal d g q 100000 c_def (locals_of g R, w) = (r, (l', w')) ->
  exists evs ls,
    extends w w' evs ls
    /\ l' = locals_of g (foldl observe R evs)
    /\ Forall (group_run_shape g) (run_requests evs).
Proof.
  intros Hq H. unfold_group.
  repeat (case_step H; cbn [calls log] in H); injection H as <- <- <-;
    eexists _, _; (split; [solve_extends|]); cbn;
    (split; [reflexivity|]);
    try (apply Forall_cons; split; [apply group_run_args_shape, Hq|]);
    apply Forall_nil; exact I.
Qed.

Lemma create_internals_spec d g q entry_idx cfg : forall i R w r l' w',
  py_int (g_cpu_limit g * py_float 100000) = Ok q ->
  create_internals d g q 100000 entry_idx i cfg (locals_of g R, w) = (r, (l', w')) ->
  exists evs ls,
    extends w w' evs ls
    /\ l' = locals_of g (foldl observe R evs)
    /\ Forall (group_run_shape g) (run_requests evs).
Proof.
  induction cfg as [|c_def cfg IH]; intros i R w r l' w' Hq H; cbn in H.
  - injection H as <- <- <-. exists [], []. split; [apply extends_refl|].
    split; [reflexivity|constructor].
  - unfold bind at 1 in H. destruct (Nat.eqb i entry_idx).
    + cbn in H. apply IH in H; assumption.
    + destruct (create_internal d g q 100000 c_def (locals_of g R, w))
        as [r1 [l1 w1]] eqn:H1.
      destruct (create_internal_spec _ _ _ _ _ _ _ _ _ Hq H1)
        as (evs1 & ls1 & He1 & -> & Hf1).
      destruct r1 as [[]|e].
      * destruct (IH _ _ _ _ _ _ Hq H) as (evs2 & ls2 & He2 & -> & Hf2).
        exists (evs1 ++ evs2), (ls1 ++ ls2).
        split; [eapply extends_trans; eassumption|].
        rewrite foldl_app, run_requests_app. split; [reflexivity|].
        apply Forall_app; auto.
      * injection H as <- <- <-. eauto.
Qed.


(** Case analysis as [case_step], stopping in front of the loop. *)
Ltac case_step_to_loop H :=
  match type of H with
  | context [match ?x with _ => _ end] =>
      let y := innermost x in
      lazymatch y with
      | create_internals _ _ _ _ _ _ _ _ => fail
      | _ => destruct y eqn:?
      end
  end.

Lemma group_body_spec self d g w r l' w' :
  client self = Some d ->
  group_body self g (init_locals, w) = (r, (l', w')) ->
  exists evs ls,
    extends w w' evs ls
    /\ l' = locals_of g (acquired evs)
    /\ Forall (group_run_shape g) (run_requests evs).
Proof.
  intros Hc E. unfold group_body in E. unfold_group. rewrite Hc in E.
  cbn [calls log] in E.
  repeat (case_step_to_loop E; cbn [calls log] in E).
  all: try match type of E with
    | context [create_internals ?d0 ?g0 ?q ?p ?idx ?i _
                 (set_network ?n init_locals, ?w0)] =>
        change (set_network n init_locals)
          with (locals_of g0 {| r_network := Some n; r_created := [];
                                r_joined := false; r_bound := false |}) in E;
        match type of E with
        | context [create_internals d0 g0 q p idx i ?cfg (?l0, w0)] =>
            destruct (create_internals d0 g0 q p idx i cfg (l0, w0))
              as [r1 [l1 w1]] eqn:EL;
            destruct (create_internals_spec _ _ _ _ _ _ _ _ _ _ _ ltac:(eassumption) EL)
              as (evs1 & ls1 & [Hcalls1 Hlog1] & -> & Hf1);
            cbn [calls log] in Hcalls1, Hlog1
        end
    end.
  all: repeat (case_step E; cbn [calls log] in E).
  all: injection E as <- <- <-.
  all: eexists _, _.
  all: (split; [split; cbn [calls log]; rewrite ?Hcalls1, ?Hlog1, <- ?app_assoc;
                first [reflexivity | apply app_eq_nil_r]|]).
  all: (split;
        [unfold acquired; rewrite ?foldl_app; cbn;
         try match goal with
             | H : negb (?z =? 0) = _ |- _ => destruct (z =? 0); try discriminate H
             end;
         rewrite ?orb_true_r, ?orb_false_r; reflexivity
        |rewrite ?run_requests_app; cbn;
         repeat first [assumption
                      |apply group_run_args_shape; assumption
                      |apply Forall_app; split
                      |apply List.Forall_cons
                      |apply List.Forall_nil]]).
Qed.

(** *** Group creation: the [except] block *)

Lemma stop_created_spec d cs : forall w,
  stop_created d cs w
  = (Ok tt, {| calls := calls w ++ stop_events d cs (calls w); log := log w |}).
Proof.
  induction cs as [|c cs IH]; intros w; cbn [stop_created stop_events].
  - unfold ret. rewrite app_nil_r. destruct w; reflexivity.
  - unfold bind at 1. unfold stop_remove_events. unfold_monad. cbn [calls log].
    destruct (container_stop d (calls w) c 3) eqn:Hs; cbn [calls log result_map].
    + destruct (container_remove d _ c) eqn:Hr; rewrite IH; cbn [calls log];
        rewrite <- ?app_assoc; reflexivity.
    + rewrite IH. cbn [calls log]. rewrite <- ?app_assoc. reflexivity.
Qed.

Lemma cleanup_serve_spec self d g w :
  client self = Some d ->
  cleanup_serve self g (Some (g_host_port g)) w
  = (Ok tt, {| calls := calls w ++ unbind_events d g (calls w); log := log w |}).
Proof.
  intros Hc. unfold cleanup_serve, unbind_events. unfold_monad. rewrite Hc.
  cbn [calls log str_opt_int].
  destruct (containers_get d (calls w) (g_tailnet_container g)) as [ts|];
    cbn [calls log result_map]; [|reflexivity].
  destruct (container_exec_run d _ ts _) as [[x o]|];
    cbn [calls log result_map]; rewrite <- app_assoc; reflexivity.
Qed.

Lemma disconnect_tailscale_spec self d g n w :
  client self = Some d ->
  disconnect_tailscale self g n w
  = (Ok tt, {| calls := calls w ++ disconnect_events d g n (calls w); log := log w |}).
Proof.
  intros Hc. unfold disconnect_tailscale, disconnect_events. unfold_monad. rewrite Hc.
  cbn [calls log].
  destruct (containers_get d (calls w) (g_tailnet_container g)) as [ts|];
    cbn [calls log result_map]; [|reflexivity].
  destruct (network_disconnect d _ n ts) as [[]|];
    cbn [calls log result_map]; rewrite <- app_assoc; reflexivity.
Qed.

Lemma remove_created_network_spec self d n w :
  client self = Some d ->
  remove_created_network self n w
  = (Ok tt, {| calls := calls w ++ network_events d n (calls w); log := log w |}).
Proof.
  intros Hc. unfold remove_created_network, network_events. unfold_monad. rewrite Hc.
  cbn [calls log].
  destruct (network_remove d (calls w) n) as [[]|]; reflexivity.
Qed.

(** The clean-up issues exactly the requests of [compensation], and ends
    normally whatever the daemon answers. *)
Lemma compensate_spec self d g R w :
  client self = Some d ->
  g_host_port g <> 0 ->
  compensate self g (locals_of g R) w
  = (Ok tt, {| calls := calls w ++ compensation d g R (calls w); log := log w |}).
Proof.
  intros Hc Hp. unfold compensate, compensation.
  cbn [locals_of created_containers network ts_connected ts_serve_port].
  assert (Ht : truthy_int (Some (g_host_port g)) = true).
  { cbn. apply negb_true_iff, Z.eqb_neq, Hp. }
  rewrite Hc. unfold bind, ret.
  destruct (r_bound R), (r_joined R), (r_network R) as [n|];
    rewrite ?Ht; cbn [truthy_int];
    rewrite ?(cleanup_serve_spec _ _ _ _ Hc); cbn [calls log];
    rewrite ?(disconnect_tailscale_spec _ _ _ _ _ Hc); cbn [calls log];
    rewrite ?stop_created_spec; cbn [calls log];
    rewrite ?(remove_created_network_spec _ _ _ _ Hc); cbn [calls log];
    rewrite <- ?app_assoc, ?app_nil_r; cbn [app]; reflexivity.
Qed.

(** *** C1 *)

Lemma rev_short {A} (l : list A) : (length l <= 1)%nat -> rev l = l.
Proof. destruct l as [|x [|y l]]; cbn; [reflexivity|reflexivity|lia]. Qed.

(** C1, as the code has it. When [create_container_group], connected and
    given a non-zero [host_port], raises [e]: [e] is the exception its
    [try] block raised, and the requests issued after that failure are
    exactly the compensation of what the answers recorded during the block
    show to have been acquired, step by step in reverse order: the route is
    unbound if a serve command had succeeded, the relay is disconnected if
    it had been connected, every container whose [run] had succeeded is
    stopped and, if that went through, removed, and the network is removed
    if it had been created.  The containers are taken in the order of
    their creation; with at most one of them this is the strictly reversed
    clean-up.  No failure of the clean-up replaces [e]. *)
Theorem group_failure_is_compensated self d g w e w' :
  client self = Some d ->
  ping d (calls w) = Ok tt ->
  g_host_port g <> 0 ->
  create_container_group self g w = (Raise e, w') ->
  exists body l wb,
    group_body self g
      (init_locals, {| calls := calls w ++ [ping_event d w]; log := log w |})
    = (Raise e, (l, wb))
    /\ calls wb = calls w ++ [ping_event d w] ++ body
    /\ calls w' = calls wb ++ compensation d g (acquired body) (calls wb)
    /\ ((length (r_created (acquired body)) <= 1)%nat ->
        compensation d g (acquired body) (calls wb)
        = compensation_reversed d g (acquired body) (calls wb)).
Proof.
  intros Hc Hp Hport H.
  unfold create_container_group in H. unfold bind at 1 in H.
  rewrite (is_connected_client _ _ _ Hc), Hp in H. cbn [negb] in H.
  destruct (group_body self g _) as [r [l wb]] eqn:EB.
  destruct (group_body_spec _ _ _ _ _ _ _ Hc EB) as (body & ls & [Hcalls _] & -> & _).
  destruct r as [h|e0]; [discriminate|].
  unfold bind, logger, raise in H. rewrite (compensate_spec _ _ _ _ _ Hc Hport) in H.
  cbn [calls log] in H. injection H as <- <-.
  exists body, (locals_of g (acquired body)), wb. cbn [calls] in *.
  split; [reflexivity|]. split; [|split; [reflexivity|]].
  - rewrite Hcalls. unfold ping_event. rewrite Hp, <- app_assoc. reflexivity.
  - intros Hlen. unfold compensation_reversed. rewrite (rev_short _ Hlen).
    destruct (acquired body). reflexivity.
Qed.

Lemma group_failure_witness :
  exec_commands
    (calls (snd (create_container_group (service garbled)
                   (group_of [cdef "db" "postgres" None; cdef "web" "nginx" (Some 80)] 30010)
                   fresh)))
  = ["tailscale serve --bg --tcp 30010 tcp://grp-web:8080";
     "tailscale serve --tcp 30010 off"].
Proof.
  destruct (group_failure_is_compensated (service garbled) (scripted garbled)
              (group_of [cdef "db" "postgres" None; cdef "web" "nginx" (Some 80)] 30010)
              fresh (UnicodeDecodeError "'utf-8' codec can't decode bytes")
              (snd (create_container_group (service garbled)
                      (group_of [cdef "db" "postgres" None; cdef "web" "nginx" (Some 80)]
                         30010) fresh))
              eq_refl eq_refl) as (body & l & wb & _ & _ & _).
  - discriminate.
  - vm_compute. reflexivity.
  - vm_compute. reflexivity.
Defined.

(** Why [host_port] is taken non-zero: the handler tests [ts_serve_port]
    for truth.  With [host_port = 0] the serve command has succeeded, the
    block then fails on the output of the relay, and the clean-up issues
    no command that unbinds the route; the relay is disconnected, the
    containers and the network are removed. *)
Lemma unbind_skipped_for_port_zero :
  let r := create_container_group (service garbled)
             (group_of [cdef "db" "postgres" None; cdef "web" "nginx" (Some 80)] 0)
             fresh in
  fst r = Raise (UnicodeDecodeError "'utf-8' codec can't decode bytes")
  /\ r_bound (acquired (calls (snd r))) = true
  /\ exec_commands (calls (snd r)) = ["tailscale serve --bg --tcp 0 tcp://grp-web:8080"]
  /\ map c_id (removed (calls (snd r))) = ["id-grp-db"; "id-grp-web"].
Proof. vm_compute. repeat split; reflexivity. Qed.

(** C1, as stated, fails on the order and on the removal.  The relay is
    missing, so the block fails after the three containers have been
    created: the clean-up stops and removes them in the order of their
    creation, the entry last, where the strictly reversed clean-up starts
    with the entry.  On a daemon that moreover refuses to stop a container,
    each container is asked to stop and none is removed. *)
Lemma cleanup_in_creation_order :
  let r := create_container_group (service relay_missing) three_group fresh in
  let r' := create_container_group (service relay_missing_stop_refused) three_group
              fresh in
  fst r = Raise (NotFound "No such container: tailscale-challenges")
  /\ map c_id (r_created (acquired (calls (snd r))))
     = ["id-grp-db"; "id-grp-cache"; "id-grp-web"]
  /\ map c_id (stopped (calls (snd r))) = ["id-grp-db"; "id-grp-cache"; "id-grp-web"]
  /\ map c_id (removed (calls (snd r))) = ["id-grp-db"; "id-grp-cache"; "id-grp-web"]
  /\ map c_id (stopped (compensation_reversed (scripted relay_missing) three_group
                          (acquired (calls (snd r))) (calls (snd r))))
     = ["id-grp-web"; "id-grp-cache"; "id-grp-db"]
  /\ fst r' = Raise (NotFound "No such container: tailscale-challenges")
  /\ map c_id (stopped (calls (snd r'))) = ["id-grp-db"; "id-grp-cache"; "id-grp-web"]
  /\ removed (calls (snd r')) = [].
Proof. vm_compute. repeat split; reflexivity. Qed.

(** *** C3 *)

Lemma find_entry_none cfg : forall i,
  Forall (fun c => exposes c = false) cfg -> find_entry i cfg = None.
Proof.
  induction cfg as [|c cfg IH]; intros i H; cbn; [reflexivity|].
  inversion H as [|? ? Hc Hr]; subst. unfold exposes in Hc. rewrite Hc. apply IH, Hr.
Qed.

(** The entry is the first dictionary with a truthy ['expose']. *)
Lemma find_entry_first cfg : forall i c pre post,
  cfg = pre ++ c :: post ->
  Forall (fun c' => exposes c' = false) pre ->
  exposes c = true ->
  find_entry i cfg = Some (i + length pre)%nat.
Proof.
  intros i c pre. revert i cfg.
  induction pre as [|c' pre IH]; intros i cfg post -> Hpre Hc; cbn.
  - unfold exposes in Hc. rewrite Hc. f_equal. lia.
  - inversion Hpre as [|? ? Hc' Hr]; subst. unfold exposes in Hc'. rewrite Hc'.
    rewrite (IH (S i) _ post eq_refl Hr Hc). f_equal. lia.
Qed.

(** C3, as the code has it. With no dictionary marked ['expose'],
    [create_container_group] (connected) looks for the entry only after it
    has created the private network: when that creation succeeds, the call
    raises the validation error, no container is created, and the requests
    issued are the probe, the creation of the network and its removal by
    the clean-up.  With one or more dictionaries marked, nothing is
    rejected: the entry is the first of them. *)
Theorem no_entry_fails_after_network_creation :
  (forall self d g w n q,
     client self = Some d ->
     ping d (calls w) = Ok tt ->
     Forall (fun c => exposes c = false) (g_containers_config g) ->
     networks_create d (calls w ++ [ping_event d w])
       {| na_name := g_network_name g; na_driver := "bridge"; na_internal := None;
          na_options := None; na_check_duplicate := None;
          na_labels := or_empty (g_labels g)
                       ∪ <["ctfd.compose_group" := g_name_prefix g]>
                           {["ctfd.managed" := "true"]} |} = Ok n ->
     py_int (g_cpu_limit g * py_float 100000) = Ok q ->
     let r := create_container_group self g w in
     fst r = Raise (Exception
                      "No container has 'expose' defined. One container must expose a port.")
     /\ exists a, map fst (new_calls w (snd r)) = [Ping; NetworksCreate a; NetworkRemove n])
  /\ (forall cfg pre c post,
        cfg = pre ++ c :: post ->
        Forall (fun c' => exposes c' = false) pre ->
        exposes c = true ->
        find_entry 0 cfg = Some (length pre)).
Proof.
  split.
  - intros self d g w n q Hc Hp Hz Hn Hq r. subst r.
    destruct (create_container_group self g w) as [r w'] eqn:E.
    unfold create_container_group in E. unfold bind at 1 in E.
    rewrite (is_connected_client _ _ _ Hc), Hp in E. cbn [negb] in E.
    unfold group_body in E. rewrite (find_entry_none _ _ Hz) in E.
    unfold_group. rewrite Hc in E. cbn [calls log] in E. rewrite Hn, Hq in E.
    cbn [calls log result_map] in E.
    unfold compensate, remove_created_network in E.
    cbn [set_network init_locals ts_serve_port ts_connected network created_containers
         truthy_int stop_created] in E.
    rewrite Hc in E. unfold_monad. rewrite Hc in E. cbn [calls log] in E.
    destruct (network_remove d _ n) eqn:Hr; cbn [calls log] in E; injection E as <- <-;
      (split; [reflexivity|]); eexists; unfold new_calls; cbn [calls fst snd];
      rewrite <- !app_assoc, drop_app_length; unfold ping_event; reflexivity.
  - intros cfg pre c post Hcfg Hpre Hc.
    apply (find_entry_first cfg 0 c pre post Hcfg Hpre Hc).
Qed.

Lemma no_entry_witness :
  fst (create_container_group (service healthy) no_entry_group fresh)
  = Raise (Exception
             "No container has 'expose' defined. One container must expose a port.")
  /\ find_entry 0 (g_containers_config two_entry_group) = Some 0%nat.
Proof.
  destruct no_entry_fails_after_network_creation as [HA HB].
  split.
  - destruct (HA (service healthy) (scripted healthy) no_entry_group fresh
                {| n_id := "net-net1" |} 50000 eq_refl eq_refl) as [Hr _].
    + repeat constructor.
    + reflexivity.
    + vm_compute. reflexivity.
    + exact Hr.
  - apply (HB _ [] (cdef "web" "nginx" (Some 80)) [cdef "api" "flask" (Some 5000)]
              eq_refl).
    + constructor.
    + reflexivity.
Defined.

(** C3, as stated, fails twice: with no entry the network is created (and
    then removed) before the error is raised; with two entries the group
    is created, the first of them being the entry. *)
Lemma validation_is_late_and_partial :
  map is_NetworksCreate
      (map fst (calls (snd (create_container_group (service healthy)
                              no_entry_group fresh))))
  = [false; true; false]
  /\ existsb is_NetworkRemove
       (map fst (calls (snd (create_container_group (service healthy)
                               no_entry_group fresh)))) = true
  /\ fst (create_container_group (service healthy) two_entry_group fresh)
     = Ok {| container_ids := ["id-grp-api"; "id-grp-web"];
             entry_container_id := "id-grp-web";
             network_id := "net-net1";
             gh_port := 30010 |}.
Proof. vm_compute. repeat split; reflexivity. Qed.

(** *** C4 *)

(** C4 on a group. The containers of a group, internal and entry, are
    created with auto-remove only: no capability is dropped or added, no
    security option is set, and neither the management label nor the
    plugin label is attached. [create_container] sets all of these. *)
Theorem group_containers_not_hardened :
  map (fun ra => (default "" (ra_name ra), ra_auto_remove ra, hardened ra,
                  management_labels ra))
      (run_requests (calls (snd (create_container_group (service healthy)
                                   one_entry_group fresh))))
  = [("grp-db", true, false, false); ("grp-web", true, false, false)]
  /\ map (fun ra => (default "" (ra_name ra), ra_auto_remove ra, hardened ra,
                     management_labels ra))
         (run_requests (calls (snd (create_container (service healthy) web_args fresh))))
     = [("web", true, true, true)].
Proof. vm_compute. split; reflexivity. Qed.

(** *** C9 *)

Lemma quiet_ret : quiet (ret tt).
Proof.
  intros w r w' H. injection H as <- <-. split; [reflexivity|].
  exists [], []. split; [apply extends_refl|reflexivity].
Qed.

Lemma quiet_bind m k : quiet m -> quiet k -> quiet (run! m in k).
Proof.
  intros Hm Hk w r w' H. unfold bind in H.
  destruct (m w) as [r1 w1] eqn:E1.
  destruct (Hm _ _ _ E1) as (-> & evs1 & ls1 & He1 & Hr1).
  destruct (Hk _ _ _ H) as (-> & evs2 & ls2 & He2 & Hr2).
  split; [reflexivity|]. exists (evs1 ++ evs2), (ls1 ++ ls2).
  split; [eapply extends_trans; eassumption|].
  rewrite run_requests_app, Hr1, Hr2. reflexivity.
Qed.

Ltac solve_quiet H :=
  unfold_monad;
  repeat (case_step H; cbn [calls log] in H); injection H as <- <-;
  repeat match goal with u : unit |- _ => destruct u end;
  (split; [reflexivity|]); eexists _, _; (split; [solve_extends|reflexivity]).

Lemma cleanup_serve_quiet self g p : quiet (cleanup_serve self g p).
Proof. intros w r w' H. unfold cleanup_serve in H. solve_quiet H. Qed.

Lemma disconnect_tailscale_quiet self g n : quiet (disconnect_tailscale self g n).
Proof. intros w r w' H. unfold disconnect_tailscale in H. solve_quiet H. Qed.

Lemma remove_created_network_quiet self n : quiet (remove_created_network self n).
Proof. intros w r w' H. unfold remove_created_network in H. solve_quiet H. Qed.

Lemma stop_created_quiet d cs : quiet (stop_created d cs).
Proof.
  induction cs as [|c cs IH]; cbn [stop_created].
  - apply quiet_ret.
  - apply quiet_bind; [|exact IH].
    intros w r w' H. solve_quiet H.
Qed.

Lemma compensate_quiet self g l : quiet (compensate self g l).
Proof.
  unfold compensate. repeat apply quiet_bind.
  - destruct (truthy_int (ts_serve_port l)); [apply cleanup_serve_quiet|apply quiet_ret].
  - destruct (ts_connected l), (network l);
      first [apply disconnect_tailscale_quiet|apply quiet_ret].
  - destruct (client self); [apply stop_created_quiet|apply quiet_ret].
  - destruct (network l); [apply remove_created_network_quiet|apply quiet_ret].
Qed.

(** Every [containers.run] request of [create_container_group] has the
    shape of [group_run_shape]. *)
Lemma create_container_group_runs self d g w :
  client self = Some d ->
  Forall (group_run_shape g)
         (run_requests (new_calls w (snd (create_container_group self g w)))).
Proof.
  intros Hc.
  destruct (create_container_group self g w) as [r w'] eqn:E. cbn [snd].
  unfold create_container_group in E. unfold bind at 1 in E.
  rewrite (is_connected_client _ _ _ Hc) in E.
  destruct (ping d (calls w)) eqn:Hp; cbn [negb] in E.
  - destruct (group_body self g _) as [rb [l wb]] eqn:EB.
    destruct (group_body_spec _ _ _ _ _ _ _ Hc EB) as (body & ls & [Hcalls _] & -> & Hf).
    cbn [calls] in Hcalls. rewrite <- app_assoc in Hcalls.
    destruct rb as [h|e].
    + injection E as <- <-. rewrite (new_calls_app _ _ _ Hcalls).
      rewrite run_requests_app. exact Hf.
    + unfold bind at 1 in E. unfold logger at 1 in E. unfold bind at 1 in E.
      destruct (compensate self g _ _) as [rc wc] eqn:EC.
      destruct (compensate_quiet _ _ _ _ _ _ EC) as (-> & evs & ls' & [Hcalls' _] & Hr).
      cbn in E. injection E as <- <-. cbn [calls] in Hcalls'.
      rewrite Hcalls, <- app_assoc in Hcalls'.
      rewrite (new_calls_app _ _ _ Hcalls'), !run_requests_app, Hr, app_nil_r.
      exact Hf.
  - cbn in E. injection E as <- <-. unfold new_calls. cbn [calls].
    rewrite drop_app_length. constructor.
Qed.

(** Every [containers.run] request of [create_container] carries the
    period 100000 and the quota computed from [cpu_limit]. *)
Lemma create_container_runs self a w ra :
  ra ∈ run_requests (new_calls w (snd (create_container self a w))) ->
  ra_cpu_period ra = 100000
  /\ py_int (cc_cpu_limit a * py_float 100000) = Ok (ra_cpu_quota ra).
Proof.
  destruct (create_container self a w) as [r w'] eqn:E. cbn [snd].
  unfold create_container, is_connected in E. unfold_monad. cbn beta in E.
  repeat (case_step E; cbn [calls log negb] in E; try discriminate);
    injection E as <- <-; unfold new_calls; cbn [calls];
    rewrite <- ?app_assoc, ?drop_app_length, ?drop_all; cbn;
    intros Hin; repeat (apply elem_of_cons in Hin as [->|Hin]);
    try (apply elem_of_nil in Hin; contradiction); auto.
Qed.

(** Every [containers.run] request of [create_container], in either of its
    branches, is hardened and carries the two management labels. *)
Lemma create_container_runs_hardened self a w ra :
  ra ∈ run_requests (new_calls w (snd (create_container self a w))) ->
  hardened ra = true /\ management_labels ra = true.
Proof.
  destruct (create_container self a w) as [r w'] eqn:E. cbn [snd].
  unfold create_container, is_connected in E. unfold_monad. cbn beta in E.
  repeat (case_step E; cbn [calls log negb] in E; try discriminate);
    injection E as <- <-; unfold new_calls; cbn [calls];
    rewrite <- ?app_assoc, ?drop_app_length, ?drop_all; cbn;
    intros Hin; repeat (apply elem_of_cons in Hin as [->|Hin]);
    try (apply elem_of_nil in Hin; contradiction);
    (split; [reflexivity|]); unfold management_labels; cbn [ra_labels];
    rewrite lookup_insert_ne, !lookup_insert_eq by discriminate; reflexivity.
Qed.

(** [int()] truncates towards zero: it is the quotient [Z.quot] of the
    exact value of its argument. *)
Lemma py_int_truncates f q :
  py_int f = Ok q ->
  exists n k, float_fraction f = Some (n, k) /\ 0 < k /\ q = Z.quot n k.
Proof.
  unfold py_int, float_fraction.
  destruct (Prim2SF f) as [s| | |s m e]; try discriminate.
  - intros H. injection H as <-. exists 0, 1. repeat split; lia.
  - intros H. injection H as <-.
    destruct (0 <=? e) eqn:He.
    + eexists _, 1. split; [reflexivity|]. split; [lia|].
      rewrite Z.quot_1_r. destruct s; lia.
    + apply Z.leb_gt in He. eexists _, _. split; [reflexivity|].
      assert (0 < 2 ^ (- e)) by (apply Z.pow_pos_nonneg; lia).
      split; [assumption|]. destruct s.
      * change (Z.neg m) with (- Z.pos m). rewrite Z.quot_opp_l by lia.
        rewrite Z.quot_div_nonneg by lia. reflexivity.
      * rewrite Z.quot_div_nonneg by lia. reflexivity.
Qed.

(** C9. Every container, created by [create_container] or by
    [create_container_group], is requested with the period 100000 and
    with the quota [int(cpu_limit * 100000)]: the product is taken in
    binary64 and truncated towards zero, so the quota is the quotient
    [Z.quot] of the product's exact value.  It is 50000 for a share of 0.5
    and 100000 for a share of 1.0. *)
Theorem cpu_quota_conversion self w ra :
  (forall a,
     ra ∈ run_requests (new_calls w (snd (create_container self a w))) ->
     ra_cpu_period ra = 100000
     /\ py_int (cc_cpu_limit a * py_float 100000) = Ok (ra_cpu_quota ra)
     /\ (exists n k,
           float_fraction (cc_cpu_limit a * py_float 100000) = Some (n, k)
           /\ 0 < k /\ ra_cpu_quota ra = Z.quot n k)
     /\ (cc_cpu_limit a = 0.5%float -> ra_cpu_quota ra = 50000)
     /\ (cc_cpu_limit a = 1.0%float -> ra_cpu_quota ra = 100000))
  /\ (forall d g,
        client self = Some d ->
        ra ∈ run_requests (new_calls w (snd (create_container_group self g w))) ->
        ra_cpu_period ra = 100000
        /\ py_int (g_cpu_limit g * py_float 100000) = Ok (ra_cpu_quota ra)
        /\ (exists n k,
              float_fraction (g_cpu_limit g * py_float 100000) = Some (n, k)
              /\ 0 < k /\ ra_cpu_quota ra = Z.quot n k)
        /\ (g_cpu_limit g = 0.5%float -> ra_cpu_quota ra = 50000)
        /\ (g_cpu_limit g = 1.0%float -> ra_cpu_quota ra = 100000)).
Proof.
  assert (Hhalf : py_int (0.5 * py_float 100000) = Ok 50000) by (vm_compute; reflexivity).
  assert (Hone : py_int (1.0 * py_float 100000) = Ok 100000) by (vm_compute; reflexivity).
  split.
  - intros a Hin. destruct (create_container_runs _ _ _ _ Hin) as [Hp Hq].
    split; [exact Hp|]. split; [exact Hq|]. split; [exact (py_int_truncates _ _ Hq)|].
    split; intros Hs; rewrite Hs in Hq; congruence.
  - intros d g Hc Hin.
    pose proof (create_container_group_runs self d g w Hc) as Hf.
    rewrite Forall_forall in Hf. destruct (Hf _ Hin) as (Hp & Hq & _).
    split; [exact Hp|]. split; [exact Hq|]. split; [exact (py_int_truncates _ _ Hq)|].
    split; intros Hs; rewrite Hs in Hq; congruence.
Qed.

Lemma cpu_quota_witness :
  exists ra rg,
    head (run_requests (calls (snd (create_container (service healthy) web_args fresh))))
    = Some ra
    /\ head (run_requests (calls (snd (create_container_group (service healthy)
                                         one_entry_group fresh))))
       = Some rg
    /\ ra_cpu_quota ra = 50000 /\ ra_cpu_quota rg = 50000.
Proof.
  eexists _, _. split; [vm_compute; reflexivity|]. split; [vm_compute; reflexivity|].
  split.
  - match goal with
    | |- ra_cpu_quota ?ra = _ =>
        pose proof (proj1 (cpu_quota_conversion (service healthy) fresh ra) web_args) as H
    end.
    lapply H.
    + intros (_ & _ & _ & Hhalf & _). apply Hhalf. reflexivity.
    + vm_compute. apply list_elem_of_here.
  - match goal with
    | |- ra_cpu_quota ?ra = _ =>
        pose proof (proj2 (cpu_quota_conversion (service healthy) fresh ra)
                      (scripted healthy) one_entry_group eq_refl) as H
    end.
    lapply H.
    + intros (_ & _ & _ & Hhalf & _). apply Hhalf. reflexivity.
    + vm_compute. apply list_elem_of_here.
Defined.

(** C9, as stated, fails: for a share of 0.29 the quota is 28999 on both
    paths, where share times period is 29000.  The binary64 product is
    7971459301375999 / 2^38, just below 29000, and [int()] truncates. *)
Lemma cpu_quota_truncates :
  map ra_cpu_quota
    (run_requests (calls (snd (create_container (service healthy) throttled_args fresh))))
  = [28999]
  /\ map ra_cpu_quota
       (run_requests (calls (snd (create_container_group (service healthy)
                                    throttled_group fresh))))
     = [28999]
  /\ float_fraction (throttled * py_float 100000)
     = Some (7971459301375999, 2 ^ 38)
  /\ 28999 * 2 ^ 38 < 7971459301375999 < 29000 * 2 ^ 38.
Proof. vm_compute. repeat split; reflexivity. Qed.

(** * Further properties *)

(** ** Connecting *)

(** X1. [_connect] never raises and keeps [base_url].  The client is built
    with a timeout of 30 for an [ssh://] URL and of 10 otherwise; it is kept
    exactly when it could be built and answers one probe, the only request
    made.  When it is not kept, the two warnings are the last lines
    logged. *)
Theorem connect_outcome docker_DockerClient self w :
  let t := if String.prefix "ssh://" (base_url self) then 30 else 10 in
  exists self' w',
    _connect docker_DockerClient self w = (Ok self', w')
    /\ base_url self' = base_url self
    /\ client self'
       = match docker_DockerClient (base_url self) t with
         | Ok c => match ping c (calls w) with Ok _ => Some c | Raise _ => None end
         | Raise _ => None
         end
    /\ new_calls w w'
       = match docker_DockerClient (base_url self) t with
         | Ok c => [ping_event c w]
         | Raise _ => []
         end
    /\ (client self' = None ->
        exists pre msg,
          new_log w w'
          = pre ++ [(WARNING, "Failed to connect to Docker: " +:+ msg);
                    (WARNING, "Docker connection will be retried when needed. Configure in plugin settings.")]).
Proof.
  cbn zeta. unfold _connect. unfold_monad.
  destruct (String.prefix "ssh://" (base_url self)); cbn [calls log];
    (destruct (docker_DockerClient (base_url self) _) as [c|e]; cbn [calls log];
     [destruct (ping c _) as [[]|e] eqn:Hp; cbn [calls log result_map]|]);
    eexists _, _; (split; [reflexivity|]); cbn [base_url client];
    (split; [reflexivity|]); (split; [reflexivity|]);
    unfold new_calls, new_log, ping_event; cbn [calls log];
    rewrite <- ?app_assoc, ?drop_app_length, ?drop_all, ?Hp;
    (split; [reflexivity|]); intros Hnone; try discriminate;
    first [by eexists [], _ | by eexists [_], _].
Qed.

Lemma connect_outcome_witness :
  exists self' w',
    _connect (fun _ _ => Raise (OtherError "DockerException" "no route to host"))
      {| base_url := "ssh://docker@10.0.0.2"; client := None |} fresh = (Ok self', w')
    /\ client self' = None.
Proof.
  destruct (connect_outcome
              (fun _ _ => Raise (OtherError "DockerException" "no route to host"))
              {| base_url := "ssh://docker@10.0.0.2"; client := None |} fresh)
    as (self' & w' & E & _ & Hc & _).
  exists self', w'. split; [exact E|exact Hc].
Defined.

(** ** Without a connection *)

Lemma is_connected_total self w : exists b, fst (is_connected self w) = Ok b.
Proof.
  unfold is_connected. destruct (client self); [|cbn; eauto].
  unfold_monad. destruct (ping _ _); cbn; eauto.
Qed.

(** X2. When the probe of [is_connected] gives [False] (no client, or a
    client that does not answer), [create_container] and
    [create_container_group] raise "Docker is not connected" at once:
    nothing is requested of the daemon but that probe, and nothing is
    logged. *)
Theorem disconnected_creation_fails_fast self w :
  fst (is_connected self w) = Ok false ->
  (forall a,
     create_container self a w
     = (Raise (Exception "Docker is not connected"), snd (is_connected self w)))
  /\ (forall g,
        create_container_group self g w
        = (Raise (Exception "Docker is not connected"), snd (is_connected self w)))
  /\ new_calls w (snd (is_connected self w))
     = match client self with Some d => [ping_event d w] | None => [] end
  /\ new_log w (snd (is_connected self w)) = [].
Proof.
  intros H. repeat split.
  - intros a. unfold create_container. unfold bind at 1.
    destruct (is_connected self w) as [r w1]. cbn in H. subst r. reflexivity.
  - intros g. unfold create_container_group. unfold bind at 1.
    destruct (is_connected self w) as [r w1]. cbn in H. subst r. reflexivity.
  - destruct (client self) as [d|] eqn:Hc.
    + rewrite (is_connected_client _ _ _ Hc). unfold new_calls. cbn [snd calls].
      apply drop_app_length.
    + rewrite (is_connected_no_client _ _ Hc). unfold new_calls. cbn [snd].
      apply drop_all.
  - destruct (client self) as [d|] eqn:Hc.
    + rewrite (is_connected_client _ _ _ Hc). unfold new_log. cbn [snd log].
      apply drop_all.
    + rewrite (is_connected_no_client _ _ Hc). unfold new_log. cbn [snd].
      apply drop_all.
Qed.

Lemma disconnected_creation_witness :
  fst (create_container (service unreachable) web_args fresh)
  = Raise (Exception "Docker is not connected")
  /\ fst (create_container_group (service unreachable) one_entry_group fresh)
     = Raise (Exception "Docker is not connected").
Proof.
  destruct (disconnected_creation_fails_fast (service unreachable) fresh eq_refl)
    as (H1 & H2 & _).
  rewrite H1, H2. split; reflexivity.
Defined.

(** X3. When the probe of [is_connected] gives [False], the operations
    that tear down or inspect do not raise and request nothing more of the
    daemon: [stop_container], [stop_container_group], [create_network] and
    [remove_network] return [False], [get_container_status] returns [None],
    [is_container_running] returns [False], [list_managed_containers]
    returns the empty list and [cleanup_expired_containers] does nothing. *)
Theorem disconnected_teardown_is_inert self w :
  fst (is_connected self w) = Ok false ->
  let w0 := snd (is_connected self w) in
  (forall cid,
     fst (stop_container self cid w) = Ok false
     /\ calls (snd (stop_container self cid w)) = calls w0)
  /\ (forall ids nid hp tn,
        fst (stop_container_group self ids nid hp tn w) = Ok false
        /\ calls (snd (stop_container_group self ids nid hp tn w)) = calls w0)
  /\ (forall name internal driver options,
        create_network self name internal driver options w = (Ok false, w0))
  /\ (forall name, remove_network self name w = (Ok false, w0))
  /\ (forall cid, get_container_status self cid w = (Ok None, w0))
  /\ (forall cid, is_container_running self cid w = (Ok false, w0))
  /\ list_managed_containers self w = (Ok [], w0)
  /\ (forall uuids, cleanup_expired_containers self uuids w = (Ok tt, w0)).
Proof.
  intros H w0. subst w0.
  unfold stop_container, stop_container_group, create_network, remove_network,
    is_container_running, get_container_status, list_managed_containers,
    cleanup_expired_containers.
  unfold bind.
  destruct (is_connected self w) as [r w1]. cbn in H. subst r. cbn.
  repeat split.
Qed.

Lemma disconnected_teardown_witness :
  fst (stop_container (service unreachable) "0123456789ab" fresh) = Ok false
  /\ fst (get_container_status (service unreachable) "0123456789ab" fresh) = Ok None.
Proof.
  destruct (disconnected_teardown_is_inert (service unreachable) fresh eq_refl)
    as (H1 & _ & _ & _ & H5 & _).
  split.
  - apply H1.
  - rewrite H5. reflexivity.
Defined.

(** ** Inspecting a container *)

Lemma get_container_status_total self cid w :
  exists o, fst (get_container_status self cid w) = Ok o.
Proof.
  unfold get_container_status, is_connected. unfold_monad.
  destruct (client self); cbn; [|eauto].
  repeat (case_goal; cbn; eauto).
Qed.

Lemma get_container_status_disconnected self cid w :
  fst (is_connected self w) = Ok false ->
  fst (get_container_status self cid w) = Ok None.
Proof.
  intros H. unfold get_container_status, bind.
  destruct (is_connected self w) as [r w1]. cbn in H. subst r. reflexivity.
Qed.

Lemma get_container_status_connected self d cid w :
  client self = Some d ->
  ping d (calls w) = Ok tt ->
  let r := get_container_status self cid w in
  let answer := containers_get d (calls w ++ [ping_event d w]) cid in
  fst r = Ok (match answer with Ok c => Some (c_status c) | Raise _ => None end)
  /\ new_calls w (snd r)
     = [ping_event d w; (ContainersGet cid, result_map RContainer answer)]
  /\ new_log w (snd r)
     = match answer with
       | Ok _ => []
       | Raise e =>
           if is_NotFound e then []
           else [(ERROR, "Error getting container status: " +:+ exn_str e)]
       end.
Proof.
  intros Hc Hp r answer. subst r answer.
  destruct (get_container_status self cid w) as [r w'] eqn:E.
  unfold get_container_status in E. unfold bind at 1 in E.
  rewrite (is_connected_client _ _ _ Hc), Hp in E. cbn [negb] in E.
  unfold_monad. rewrite Hc in E. cbn [calls log] in E.
  unfold new_calls, new_log.
  destruct (containers_get d _ cid) as [c|e] eqn:Hg; cbn [calls log] in E;
    [|destruct (is_NotFound e)]; injection E as <- <-; cbn [fst snd calls log];
    rewrite <- ?app_assoc, ?drop_app_length, ?drop_all; repeat split.
Qed.

(** X4. [get_container_status] never raises.  Once connected it returns the
    status the daemon reports for the container, and [None] when the lookup
    fails: silently when the container is not found, with one line logged
    at error level otherwise.  The lookup is the only request after the
    probe. *)
Theorem get_container_status_tolerant :
  (forall self cid w, exists o, fst (get_container_status self cid w) = Ok o)
  /\ (forall self d cid w,
        client self = Some d ->
        ping d (calls w) = Ok tt ->
        let r := get_container_status self cid w in
        let answer := containers_get d (calls w ++ [ping_event d w]) cid in
        fst r = Ok (match answer with Ok c => Some (c_status c) | Raise _ => None end)
        /\ new_calls w (snd r)
           = [ping_event d w; (ContainersGet cid, result_map RContainer answer)]
        /\ new_log w (snd r)
           = match answer with
             | Ok _ => []
             | Raise e =>
                 if is_NotFound e then []
                 else [(ERROR, "Error getting container status: " +:+ exn_str e)]
             end).
Proof.
  split.
  - apply get_container_status_total.
  - apply get_container_status_connected.
Qed.

Lemma get_container_status_witness :
  fst (get_container_status (service healthy) "tailscale-challenges" fresh)
  = Ok (Some "running")
  /\ fst (get_container_status (service healthy) "0123456789ab" fresh) = Ok None.
Proof.
  destruct get_container_status_tolerant as [_ H].
  split.
  - destruct (H (service healthy) (scripted healthy) "tailscale-challenges" fresh
                eq_refl eq_refl) as (-> & _). reflexivity.
  - destruct (H (service healthy) (scripted healthy) "0123456789ab" fresh
                eq_refl eq_refl) as (-> & _). reflexivity.
Defined.

(** X5. [is_container_running] never raises, and is [True] only for a
    container the daemon finds and reports as ['running']: it is [False]
    without a connection, for a container that is not found, when the
    lookup fails, and for every other status. *)
Theorem is_container_running_spec :
  (forall self cid w, exists b, fst (is_container_running self cid w) = Ok b)
  /\ (forall self cid w,
        fst (is_container_running self cid w) = Ok true ->
        exists d c,
          client self = Some d
          /\ ping d (calls w) = Ok tt
          /\ containers_get d (calls w ++ [ping_event d w]) cid = Ok c
          /\ c_status c = "running")
  /\ (forall self d cid w c,
        client self = Some d ->
        ping d (calls w) = Ok tt ->
        containers_get d (calls w ++ [ping_event d w]) cid = Ok c ->
        fst (is_container_running self cid w)
        = Ok (bool_decide (c_status c = "running"))).
Proof.
  split; [|split].
  - intros self cid w. unfold is_container_running, bind.
    destruct (get_container_status_total self cid w) as [o Ho].
    destruct (get_container_status self cid w) as [r w']. cbn in Ho. subst r.
    cbn. eauto.
  - intros self cid w H. unfold is_container_running, bind in H.
    assert (Hdown : fst (is_connected self w) = Ok false -> False).
    { intros Hd. pose proof (get_container_status_disconnected self cid w Hd) as H5.
      destruct (get_container_status self cid w) as [r w']. cbn in H5. subst r.
      discriminate. }
    destruct (client self) as [d|] eqn:Hc.
    + destruct (ping d (calls w)) as [[]|e] eqn:Hp.
      * destruct (get_container_status_connected self d cid w Hc Hp) as (Hr & _).
        destruct (get_container_status self cid w) as [r w']. cbn in Hr. subst r.
        destruct (containers_get d _ cid) as [c|e] eqn:Hg; cbn in H.
        -- injection H as H. apply bool_decide_eq_true in H. injection H as H.
           exists d, c. auto.
        -- discriminate.
      * exfalso. apply Hdown.
        rewrite (is_connected_client _ _ _ Hc), Hp. reflexivity.
    + exfalso. apply Hdown. rewrite (is_connected_no_client _ _ Hc). reflexivity.
  - intros self d cid w c Hc Hp Hg. unfold is_container_running, bind.
    destruct (get_container_status_connected self d cid w Hc Hp) as (Hr & _).
    destruct (get_container_status self cid w) as [r w']. cbn in Hr. subst r.
    rewrite Hg. cbn. f_equal. apply bool_decide_ext. split; congruence.
Qed.

Lemma is_container_running_witness :
  fst (is_container_running (service healthy) "tailscale-challenges" fresh) = Ok true.
Proof.
  destruct is_container_running_spec as (_ & _ & H).
  rewrite (H (service healthy) (scripted healthy) "tailscale-challenges" fresh relay
             eq_refl eq_refl eq_refl).
  reflexivity.
Defined.

(** ** Creating a single container *)

(** Connected, and with a quota that converts, [create_container] is one
    [containers.run] request and one log line. *)
Lemma create_container_connected self d a w q :
  client self = Some d ->
  ping d (calls w) = Ok tt ->
  py_int (cc_cpu_limit a * py_float 100000) = Ok q ->
  exists ra,
    let h := calls w ++ [ping_event d w] in
    let answer := containers_run d h ra in
    exists line,
      create_container self a w
      = (match answer with
         | Ok c => Ok {| container_id := c_id c; status := c_status c;
                         port := cc_host_port a |}
         | Raise e =>
             Raise (if is_ImageNotFound e then
                      Exception ("Docker image '" +:+ cc_image a +:+ "' not found")
                    else if is_APIError e then
                      Exception ("Failed to create container: " +:+ exn_str e)
                    else e)
         end,
         {| calls := h ++ [(ContainersRun ra, result_map RContainer answer)];
            log := log w ++ [line] |})
      /\ line = match answer with
                | Ok c => (INFO, "Created container " +:+ str_take 12 (c_id c)
                                 +:+ " from image " +:+ cc_image a)
                | Raise e =>
                    (ERROR,
                     if is_ImageNotFound e then "Docker image not found: " +:+ cc_image a
                     else if is_APIError e then "Docker API error: " +:+ exn_str e
                     else "Unexpected error creating container: " +:+ exn_str e)
                end.
Proof.
  intros Hc Hp Hq.
  destruct (create_container self a w) as [r w'] eqn:E.
  unfold create_container in E. unfold bind at 1 in E.
  rewrite (is_connected_client _ _ _ Hc), Hp in E. cbn [negb] in E.
  unfold_monad. rewrite Hq, Hc in E. cbn [calls log] in E.
  destruct (truthy_str (cc_network_mode a)); cbn [calls log] in E;
    match type of E with
    | context [containers_run d ?h ?ra] =>
        exists ra; cbn zeta; destruct (containers_run d h ra) as [c|e] eqn:Hrun
    end;
    cbn [calls log result_map] in E;
    try (destruct (is_ImageNotFound e); [|destruct (is_APIError e)]);
    cbn [calls log] in E; injection E as <- <-; eexists; split; reflexivity.
Qed.

(** X6. When the [containers.run] request of [create_container] fails, the
    caller gets: for an image that is not found, an exception naming the
    image; for any other error of the daemon's API, an exception wrapping
    its message; for anything else, the error itself.  One line is logged
    at error level, the request is not repeated and nothing else is asked
    of the daemon. *)
Theorem create_container_error_taxonomy self d a w q :
  client self = Some d ->
  ping d (calls w) = Ok tt ->
  py_int (cc_cpu_limit a * py_float 100000) = Ok q ->
  exists ra,
    let h := calls w ++ [ping_event d w] in
    forall e,
      containers_run d h ra = Raise e ->
      fst (create_container self a w)
      = Raise (if is_ImageNotFound e then
                 Exception ("Docker image '" +:+ cc_image a +:+ "' not found")
               else if is_APIError e then
                 Exception ("Failed to create container: " +:+ exn_str e)
               else e)
      /\ new_calls w (snd (create_container self a w))
         = [ping_event d w; (ContainersRun ra, Raise e)]
      /\ exists msg, new_log w (snd (create_container self a w)) = [(ERROR, msg)].
Proof.
  intros Hc Hp Hq.
  destruct (create_container_connected self d a w q Hc Hp Hq) as (ra & H).
  exists ra. cbn zeta in *. intros e He. destruct H as (line & -> & ->).
  rewrite He. cbn [fst snd result_map]. unfold new_calls, new_log. cbn [calls log].
  rewrite <- app_assoc, !drop_app_length. eauto.
Qed.

Lemma create_container_error_witness :
  fst (create_container
         (service (fail_on is_ContainersRun (ImageNotFound "no such image")))
         web_args fresh)
  = Raise (Exception "Docker image 'nginx' not found").
Proof.
  destruct (create_container_error_taxonomy
              (service (fail_on is_ContainersRun (ImageNotFound "no such image")))
              (scripted (fail_on is_ContainersRun (ImageNotFound "no such image")))
              web_args fresh 50000 eq_refl eq_refl) as (ra & H).
  - vm_compute. reflexivity.
  - destruct (H (ImageNotFound "no such image") eq_refl) as (-> & _). reflexivity.
Defined.

(** X7. When its [containers.run] request succeeds, [create_container]
    returns the id and the status of the container the daemon answered
    with.  That request is the only one after the probe: the container is
    not started, connected or inspected by a further request, and one line
    is logged at info level. *)
Theorem create_container_returns_daemon_answer self d a w q :
  client self = Some d ->
  ping d (calls w) = Ok tt ->
  py_int (cc_cpu_limit a * py_float 100000) = Ok q ->
  exists ra,
    let h := calls w ++ [ping_event d w] in
    forall c,
      containers_run d h ra = Ok c ->
      create_container self a w
      = (Ok {| container_id := c_id c; status := c_status c; port := cc_host_port a |},
         {| calls := h ++ [(ContainersRun ra, Ok (RContainer c))];
            log := log w ++ [(INFO, "Created container " +:+ str_take 12 (c_id c)
                                    +:+ " from image " +:+ cc_image a)] |}).
Proof.
  intros Hc Hp Hq.
  destruct (create_container_connected self d a w q Hc Hp Hq) as (ra & H).
  exists ra. cbn zeta in *. intros c Hrun. destruct H as (line & -> & ->).
  rewrite Hrun. reflexivity.
Qed.

Lemma create_container_returns_witness :
  fst (create_container (service healthy) web_args fresh)
  = Ok {| container_id := "id-web"; status := "created"; port := Some 30001 |}.
Proof.
  destruct (create_container_returns_daemon_answer (service healthy) (scripted healthy)
              web_args fresh 50000 eq_refl eq_refl) as (ra & H).
  - vm_compute. reflexivity.
  - vm_compute. reflexivity.
Defined.

(** X8. Outside shared-namespace mode the container of [create_container]
    joins the network named by [network], or ['bridge'] when none (or an
    empty name) is given.  With [use_traefik] no port is published.
    Otherwise a non-empty [ports] dictionary publishes each of its internal
    ports as ["<internal>/tcp"] and takes precedence: [internal_port] and
    [host_port] are published, as one pair, only when [ports] is absent or
    empty. *)
Theorem create_container_port_bindings self a w ra :
  ra ∈ run_requests (new_calls w (snd (create_container self a w))) ->
  truthy_str (cc_network_mode a) = false ->
  ra_network_mode ra = None
  /\ ra_network ra
     = Some (match cc_network a with
             | Some (String c n) => String c n
             | _ => "bridge"
             end)
  /\ ra_ports ra
     = if cc_use_traefik a then None
       else match cc_ports a with
            | Some (p :: ps) =>
                Some (map (fun '(internal, external) => (internal +:+ "/tcp", Some external))
                          (p :: ps))
            | _ => Some [(str_opt_int (cc_internal_port a) +:+ "/tcp", cc_host_port a)]
            end.
Proof.
  intros Hin Hm. revert Hin.
  destruct (create_container self a w) as [r w'] eqn:E. cbn [snd].
  unfold create_container, is_connected in E. unfold_monad. cbn beta in E.
  rewrite Hm in E.
  repeat (case_step E; cbn [calls log negb] in E; try discriminate);
    injection E as <- <-; unfold new_calls; cbn [calls];
    rewrite <- ?app_assoc, ?drop_app_length, ?drop_all; cbn;
    intros Hin; repeat (apply elem_of_cons in Hin as [->|Hin]);
    try (apply elem_of_nil in Hin; contradiction); cbn;
    repeat match goal with
           | H : context [cc_network a] |- _ => revert H
           | H : context [cc_ports a] |- _ => revert H
           | H : context [cc_use_traefik a] |- _ => revert H
           end;
    destruct (cc_network a) as [[|? ?]|], (cc_ports a) as [[|[? ?] ?]|],
      (cc_use_traefik a); cbn; intros; try discriminate; auto.
Qed.

Lemma create_container_port_bindings_witness :
  exists ra,
    head (run_requests (calls (snd (create_container (service healthy) web_args fresh))))
    = Some ra
    /\ ra_network ra = Some "bridge"
    /\ ra_ports ra = Some [("80/tcp", Some 30001)].
Proof.
  eexists. split; [vm_compute; reflexivity|].
  match goal with
  | |- ra_network ?ra = _ /\ _ =>
      pose proof (create_container_port_bindings (service healthy) web_args fresh ra) as H
  end.
  lapply H.
  - intros H'. destruct (H' eq_refl) as (_ & Hn & Hports). split; [exact Hn|exact Hports].
  - vm_compute. apply list_elem_of_here.
Defined.

(** X9. Whatever labels the caller passes to [create_container], the
    container is requested with ['ctfd.managed'] set to ['true'] and
    ['ctfd.plugin'] set to ['containers']: the two reserved keys cannot be
    overridden, and every other label of the caller is passed on
    unchanged.  So are the environment, the memory limit and the process
    limit. *)
Theorem create_container_labels self a w ra :
  ra ∈ run_requests (new_calls w (snd (create_container self a w))) ->
  ra_labels ra !! "ctfd.managed" = Some "true"
  /\ ra_labels ra !! "ctfd.plugin" = Some "containers"
  /\ (forall k, k <> "ctfd.managed" -> k <> "ctfd.plugin" ->
                ra_labels ra !! k = or_empty (cc_labels a) !! k)
  /\ ra_environment ra = or_empty (cc_environment a)
  /\ ra_mem_limit ra = cc_memory_limit a
  /\ ra_pids_limit ra = cc_pids_limit a
  /\ ra_image ra = cc_image a
  /\ ra_name ra = cc_name a
  /\ ra_command ra = cc_command a.
Proof.
  destruct (create_container self a w) as [r w'] eqn:E. cbn [snd].
  unfold create_container, is_connected in E. unfold_monad. cbn beta in E.
  repeat (case_step E; cbn [calls log negb] in E; try discriminate);
    injection E as <- <-; unfold new_calls; cbn [calls];
    rewrite <- ?app_assoc, ?drop_app_length, ?drop_all; cbn;
    intros Hin; repeat (apply elem_of_cons in Hin as [->|Hin]);
    try (apply elem_of_nil in Hin; contradiction); cbn;
    (split; [rewrite lookup_insert_ne, lookup_insert_eq by discriminate; reflexivity|]);
    (split; [rewrite lookup_insert_eq; reflexivity|]);
    (split; [intros k Hk1 Hk2; rewrite !lookup_insert_ne by congruence; reflexivity|]);
    auto 10.
Qed.

Lemma create_container_labels_witness :
  exists ra,
    head (run_requests (calls (snd (create_container (service healthy) web_args fresh))))
    = Some ra
    /\ ra_labels ra !! "ctfd.managed" = Some "true".
Proof.
  eexists. split; [vm_compute; reflexivity|].
  match goal with
  | |- ra_labels ?ra !! _ = _ =>
      pose proof (create_container_labels (service healthy) web_args fresh ra) as H
  end.
  lapply H.
  - intros (Hm & _). exact Hm.
  - vm_compute. apply list_elem_of_here.
Defined.

Lemma py_int_raises f e : py_int f = Raise e -> is_APIError e = false.
Proof.
  unfold py_int. destruct (Prim2SF f); intros H; try discriminate;
    injection H as <-; reflexivity.
Qed.

(** X10. A [cpu_limit] whose quota does not convert to an integer (NaN or an
    infinity) makes [create_container] fail before anything is created:
    the conversion error is logged and raised unchanged, and the probe is
    the only request made. *)
Theorem create_container_bad_quota self d a w e :
  client self = Some d ->
  ping d (calls w) = Ok tt ->
  py_int (cc_cpu_limit a * py_float 100000) = Raise e ->
  create_container self a w
  = (Raise e,
     {| calls := calls w ++ [ping_event d w];
        log := log w ++ [(ERROR, "Unexpected error creating container: " +:+ exn_str e)] |}).
Proof.
  intros Hc Hp Hq. pose proof (py_int_raises _ _ Hq) as Hapi.
  assert (Himg : is_ImageNotFound e = false) by (destruct e; try discriminate; reflexivity).
  unfold create_container. unfold bind at 1.
  rewrite (is_connected_client _ _ _ Hc), Hp. cbn [negb].
  unfold_monad. rewrite Hq, Himg, Hapi. reflexivity.
Qed.

Lemma create_container_bad_quota_witness :
  fst (create_container (service healthy)
         {| cc_image := "nginx"; cc_internal_port := Some 80; cc_host_port := Some 30001;
            cc_ports := None; cc_command := None; cc_environment := None;
            cc_memory_limit := "512m"; cc_cpu_limit := PrimFloat.nan; cc_pids_limit := 100;
            cc_labels := None; cc_name := Some "web"; cc_network := None;
            cc_use_traefik := false; cc_network_mode := None |}
         fresh)
  = Raise (ValueError "cannot convert float NaN to integer").
Proof.
  rewrite (create_container_bad_quota (service healthy) (scripted healthy) _ fresh
             (ValueError "cannot convert float NaN to integer") eq_refl eq_refl).
  - reflexivity.
  - vm_compute. reflexivity.
Defined.

(** ** Networks and listing *)

Lemma create_network_total self name internal driver options w :
  exists b, fst (create_network self name internal driver options w) = Ok b.
Proof.
  unfold create_network, is_connected. unfold_monad.
  destruct (client self); cbn; [|eauto].
  repeat (case_goal; cbn; eauto).
Qed.

(** X11. [create_network] never raises.  When the lookup of the name says
    "not found", the network is created with the given driver, the given
    [internal] flag and options, duplicate checking and the management
    label, and the result tells whether that creation succeeded.  When the
    lookup fails in any other way nothing is created and the result is
    [False]. *)
Theorem create_network_creates_when_absent :
  (forall self name internal driver options w,
     exists b, fst (create_network self name internal driver options w) = Ok b)
  /\ (forall self d name internal driver options w e,
        client self = Some d ->
        ping d (calls w) = Ok tt ->
        let h := calls w ++ [ping_event d w] in
        let h' := h ++ [(NetworksGet name, Raise e)] in
        let args := {| na_name := name; na_driver := driver;
                       na_internal := Some internal; na_options := options;
                       na_check_duplicate := Some true;
                       na_labels := {["ctfd.managed" := "true"]} |} in
        let r := create_network self name internal driver options w in
        networks_get d h name = Raise e ->
        if is_NotFound e then
          fst r = Ok (match networks_create d h' args with
                      | Ok _ => true
                      | Raise _ => false
                      end)
          /\ calls (snd r)
             = h' ++ [(NetworksCreate args, result_map RNetwork (networks_create d h' args))]
        else
          fst r = Ok false /\ calls (snd r) = h').
Proof.
  split; [apply create_network_total|].
  intros self d name internal driver options w e Hc Hp h h' args r Hg.
  subst h h' args r.
  destruct (create_network self name internal driver options w) as [r w'] eqn:E.
  unfold create_network in E. unfold bind at 1 in E.
  rewrite (is_connected_client _ _ _ Hc), Hp in E. cbn [negb] in E.
  unfold_monad. rewrite Hc in E. cbn [calls log] in E. rewrite Hg in E.
  cbn [calls log result_map] in E.
  destruct (is_NotFound e); cbn [calls log] in E.
  - destruct (networks_create d _ _) as [n|e'] eqn:Hn; cbn [calls log] in E;
      injection E as <- <-; cbn [fst snd calls]; rewrite ?Hn; split; reflexivity.
  - injection E as <- <-. split; reflexivity.
Qed.

Lemma create_network_witness :
  fst (create_network (service network_gone) "net1" true "bridge" None fresh) = Ok true.
Proof.
  destruct create_network_creates_when_absent as [_ H].
  pose proof (H (service network_gone) (scripted network_gone) "net1" true "bridge" None
                fresh (NotFound "network net1 not found") eq_refl eq_refl eq_refl) as H'.
  cbn [is_NotFound] in H'. destruct H' as [-> _]. reflexivity.
Defined.

(** X12. [list_managed_containers] never raises.  Once connected it asks
    for all containers, stopped ones included, filtered by the label
    ['ctfd.managed=true'], and returns the daemon's answer; when the
    listing fails it returns the empty list. *)
Theorem list_managed_containers_filtered :
  (forall self w, exists cs, fst (list_managed_containers self w) = Ok cs)
  /\ (forall self d w,
        client self = Some d ->
        ping d (calls w) = Ok tt ->
        let r := list_managed_containers self w in
        let answer := containers_list d (calls w ++ [ping_event d w]) true
                        "ctfd.managed=true" in
        fst r = Ok (match answer with Ok cs => cs | Raise _ => [] end)
        /\ new_calls w (snd r)
           = [ping_event d w;
              (ContainersList true "ctfd.managed=true", result_map RContainers answer)]).
Proof.
  split.
  - intros self w. unfold list_managed_containers, is_connected. unfold_monad.
    destruct (client self); cbn; [|eauto].
    repeat (case_goal; cbn; eauto).
  - intros self d w Hc Hp r answer. subst r answer.
    destruct (list_managed_containers self w) as [r w'] eqn:E.
    unfold list_managed_containers in E. unfold bind at 1 in E.
    rewrite (is_connected_client _ _ _ Hc), Hp in E. cbn [negb] in E.
    unfold_monad. rewrite Hc in E. cbn [calls log] in E. unfold new_calls.
    destruct (containers_list d _ true _) as [cs|e] eqn:Hl; cbn [calls log] in E;
      injection E as <- <-; cbn [fst snd calls];
      rewrite <- ?app_assoc, ?drop_app_length; split; reflexivity.
Qed.

Lemma list_managed_containers_witness :
  fst (list_managed_containers (service crowded) fresh) = Ok [c_live; c_dead; c_plain].
Proof.
  destruct list_managed_containers_filtered as [_ H].
  destruct (H (service crowded) (scripted crowded) fresh eq_refl eq_refl) as [-> _].
  vm_compute. reflexivity.
Defined.

(** ** The sweep on any daemon *)

Lemma filter_all {A} (p : A -> bool) (l : list A) :
  Forall (fun x => p x = true) (List.filter p l).
Proof.
  apply List.Forall_forall. intros x Hin. apply List.filter_In in Hin. tauto.
Qed.

Lemma filter_elem_of {A} (p : A -> bool) (l : list A) x :
  x ∈ List.filter p l -> x ∈ l.
Proof.
  intros Hin. apply list_elem_of_In in Hin. apply List.filter_In in Hin.
  apply list_elem_of_In. tauto.
Qed.

(** The goal of a sweep that stopped nothing. *)
Ltac quiet_sweep :=
  split; [reflexivity|]; split; [reflexivity|]; split; [constructor|];
  let c := fresh "c" in let Hin := fresh "Hin" in
  intros c Hin; apply elem_of_nil in Hin; contradiction.

(** X13. Whatever the daemon answers, [cleanup_expired_containers] ends
    normally and asks for nothing but probes, the listing, stops and
    removals.  Every container it stops was in the answer to the listing
    and carries a non-empty correlation id outside [instance_uuids]; every
    container it removes is one it has stopped. *)
Theorem sweep_is_safe self instance_uuids w :
  let r := cleanup_expired_containers self instance_uuids w in
  let evs := new_calls w (snd r) in
  fst r = Ok tt
  /\ forallb sweep_request (map fst evs) = true
  /\ sublist (removed evs) (stopped evs)
  /\ forall c,
       c ∈ stopped evs ->
       orphaned instance_uuids c = true
       /\ exists cs,
            (ContainersList true "ctfd.managed=true", Ok (RContainers cs)) ∈ evs
            /\ c ∈ cs.
Proof.
  intros r evs. subst evs r.
  destruct (cleanup_expired_containers self instance_uuids w) as [r w'] eqn:E.
  cbn [fst snd].
  unfold cleanup_expired_containers in E. unfold bind at 1 in E.
  destruct (client self) as [d|] eqn:Hc.
  2:{ rewrite (is_connected_no_client _ _ Hc) in E. cbn in E. injection E as <- <-.
      unfold new_calls. rewrite drop_all. cbn. quiet_sweep. }
  rewrite (is_connected_client _ _ _ Hc) in E.
  destruct (ping d (calls w)) as [[]|e0] eqn:Hp; cbn [negb] in E.
  2:{ cbn in E. injection E as <- <-. unfold new_calls. cbn [calls].
      rewrite drop_app_length. cbn. quiet_sweep. }
  unfold try_except, bind, list_managed_containers in E. unfold bind at 1 in E.
  cbn beta in E. rewrite (is_connected_client _ _ _ Hc) in E. cbn [calls log] in E.
  unfold ping_event in E. rewrite Hp in E. cbn [result_map] in E.
  destruct (ping d (calls w ++ _)) as [[]|e1] eqn:Hp2; cbn [negb] in E.
  - unfold_monad. rewrite Hc in E. cbn [calls log] in E.
    destruct (containers_list d _ true _) as [cs|e2] eqn:Hl; cbn [calls log result_map] in E.
    + match type of E with
      | context [cleanup_loop ?a ?b ?c ?w0] =>
          destruct (cleanup_loop a b c w0) as [r1 w1] eqn:E1
      end.
      destruct (cleanup_loop_spec _ _ _ _ _ _ _ Hc E1)
        as (-> & evs & ls & [He _] & (S & R & F & _)).
      injection E as <- <-. cbn [calls] in He. rewrite <- !app_assoc in He.
      rewrite (new_calls_app _ _ _ He).
      rewrite !stopped_app, !removed_app, !map_app, !forallb_app.
      change (stopped [(Ping, Ok RNone)]) with (@nil Container).
      change (removed [(Ping, Ok RNone)]) with (@nil Container).
      change (stopped [(ContainersList true "ctfd.managed=true", Ok (RContainers cs))])
        with (@nil Container).
      change (removed [(ContainersList true "ctfd.managed=true", Ok (RContainers cs))])
        with (@nil Container).
      cbn [app map forallb fst sweep_request andb]. rewrite S.
      split; [reflexivity|]. split; [exact F|]. split; [exact R|].
      intros c Hin. split.
      * pose proof (filter_all (orphaned instance_uuids) cs) as Hall.
        rewrite List.Forall_forall in Hall. apply Hall. apply list_elem_of_In, Hin.
      * exists cs. split; [|eapply filter_elem_of; exact Hin].
        do 2 apply list_elem_of_further. apply list_elem_of_here.
    + injection E as <- <-. unfold new_calls. cbn [calls].
      rewrite <- !app_assoc, drop_app_length. cbn. quiet_sweep.
  - cbn in E. injection E as <- <-. unfold new_calls. cbn [calls].
    rewrite <- !app_assoc, drop_app_length. cbn. quiet_sweep.
Qed.

Lemma sweep_is_safe_witness :
  fst (cleanup_expired_containers (service crowded) ["u1"] fresh) = Ok tt
  /\ orphaned ["u1"] c_dead = true.
Proof.
  destruct (sweep_is_safe (service crowded) ["u1"] fresh) as (Hr & _ & _ & H).
  split; [exact Hr|].
  apply (H c_dead). vm_compute. apply list_elem_of_here.
Defined.

(** ** A group that is created *)

Lemma with_created_nil l : with_created l [] = l.
Proof. unfold with_created. rewrite app_nil_r. destruct l; reflexivity. Qed.

Lemma with_created_app l cs1 cs2 :
  with_created (with_created l cs1) cs2 = with_created l (cs1 ++ cs2).
Proof. unfold with_created. cbn. rewrite app_assoc. reflexivity. Qed.

Lemma create_internal_ok d g q c_def l w l' w' :
  create_internal d g q 100000 c_def (l, w) = (Ok tt, (l', w')) ->
  exists ra c,
    internal_request g q c_def = Some ra
    /\ calls w' = calls w ++ [run_event (ra, c)]
    /\ l' = with_created l [c].
Proof.
  intros H. unfold_group. unfold internal_request.
  repeat (case_step H; cbn [calls log] in H; try discriminate).
  injection H as <- <-. eexists _, _. repeat split.
Qed.

Lemma create_internals_ok d g q entry_idx cfg : forall i l w l' w',
  create_internals d g q 100000 entry_idx i cfg (l, w) = (Ok tt, (l', w')) ->
  exists rcs,
    calls w' = calls w ++ map run_event rcs
    /\ l' = with_created l (map snd rcs)
    /\ Forall2 (fun rc c_def => internal_request g q c_def = Some (fst rc))
               rcs (others entry_idx i cfg).
Proof.
  induction cfg as [|c_def cfg IH]; intros i l w l' w' H; cbn in H.
  - injection H as <- <-. exists []. cbn.
    rewrite app_nil_r, with_created_nil. repeat split. constructor.
  - unfold bind at 1 in H. cbn [others]. destruct (Nat.eqb i entry_idx).
    + cbn in H. apply IH in H. exact H.
    + destruct (create_internal d g q 100000 c_def (l, w)) as [r1 [l1 w1]] eqn:H1.
      destruct r1 as [[]|e]; [|discriminate].
      destruct (create_internal_ok _ _ _ _ _ _ _ _ H1) as (ra & c & Hra & Hc1 & ->).
      destruct (IH _ _ _ _ _ H) as (rcs & Hc2 & -> & Hf).
      exists ((ra, c) :: rcs). cbn [map snd fst].
      rewrite Hc2, Hc1, <- app_assoc, with_created_app. repeat split.
      constructor; assumption.
Qed.

(** What a [try] block that returns has done, request by request. *)
Lemma group_body_ok self d g w h l' w' :
  client self = Some d ->
  group_body self g (init_locals, w) = (Ok h, (l', w')) ->
  exists n q idx entry_def rcs ra_e c_e ts out,
    find_entry 0 (g_containers_config g) = Some idx
    /\ g_containers_config g !! idx = Some entry_def
    /\ py_int (g_cpu_limit g * py_float 100000) = Ok q
    /\ Forall2 (fun rc c_def => internal_request g q c_def = Some (fst rc))
               rcs (others idx 0 (g_containers_config g))
    /\ entry_request g q entry_def = Some ra_e
    /\ calls w'
       = calls w
         ++ [(NetworksCreate (group_net_args g), Ok (RNetwork n))]
         ++ map run_event rcs
         ++ [run_event (ra_e, c_e);
             (ContainersGet (g_tailnet_container g), Ok (RContainer ts));
             (NetworkConnect n ts, Ok RNone);
             (ContainerExecRun ts (serve_command g entry_def), Ok (RExec 0 out))]
    /\ h = {| container_ids := map c_id (map snd rcs ++ [c_e]);
              entry_container_id := c_id c_e;
              network_id := n_id n;
              gh_port := g_host_port g |}.
Proof.
  intros Hc E. unfold group_body in E. unfold_group. rewrite Hc in E.
  cbn [calls log] in E.
  repeat (case_step_to_loop E; cbn [calls log] in E; try discriminate).
  all: match type of E with
       | context [create_internals ?d0 ?g0 ?q ?p ?idx ?i ?cfg (?l0, ?w0)] =>
           destruct (create_internals d0 g0 q p idx i cfg (l0, w0))
             as [r1 [l1 w1]] eqn:EL
       end.
  all: destruct r1 as [[]|e1]; [|discriminate].
  all: destruct (create_internals_ok _ _ _ _ _ _ _ _ _ _ EL) as (rcs & Hcalls1 & -> & Hf).
  all: cbn [calls log] in Hcalls1.
  all: repeat (case_step E; cbn [calls log] in E; try discriminate).
  all: try discriminate.
  all: injection E as E1 E2 E3; subst h l' w'.
  all: match goal with
       | H : negb (negb (?z =? 0)) = _ |- _ =>
           apply negb_true_iff, negb_false_iff, Z.eqb_eq in H; subst z
       | H : negb (?z =? 0) = false |- _ =>
           apply negb_false_iff, Z.eqb_eq in H; subst z
       end.
  all: eexists _, _, _, _, rcs, _, _, _, _.
  all: do 3 (split; [first [eassumption|reflexivity]|]).
  all: (split; [exact Hf|]).
  all: unfold entry_request, serve_command;
       repeat match goal with H : cd_name _ = Some _ |- _ => rewrite H end;
       repeat match goal with H : cd_image _ = Some _ |- _ => rewrite H end.
  all: (split; [reflexivity|]).
  all: split; [cbn [calls]; rewrite Hcalls1, <- ?app_assoc; reflexivity|].
  all: cbn; rewrite ?app_nil_l; reflexivity.
Qed.

Lemma create_container_group_ok self d g w h w' :
  client self = Some d ->
  create_container_group self g w = (Ok h, w') ->
  exists n q idx entry_def rcs ra_e c_e ts out,
    find_entry 0 (g_containers_config g) = Some idx
    /\ g_containers_config g !! idx = Some entry_def
    /\ py_int (g_cpu_limit g * py_float 100000) = Ok q
    /\ Forall2 (fun rc c_def => internal_request g q c_def = Some (fst rc))
               rcs (others idx 0 (g_containers_config g))
    /\ entry_request g q entry_def = Some ra_e
    /\ new_calls w w'
       = [(Ping, Ok RNone); (NetworksCreate (group_net_args g), Ok (RNetwork n))]
         ++ map run_event rcs
         ++ [run_event (ra_e, c_e);
             (ContainersGet (g_tailnet_container g), Ok (RContainer ts));
             (NetworkConnect n ts, Ok RNone);
             (ContainerExecRun ts (serve_command g entry_def), Ok (RExec 0 out))]
    /\ h = {| container_ids := map c_id (map snd rcs ++ [c_e]);
              entry_container_id := c_id c_e;
              network_id := n_id n;
              gh_port := g_host_port g |}.
Proof.
  intros Hc H. unfold create_container_group in H. unfold bind at 1 in H.
  rewrite (is_connected_client _ _ _ Hc) in H.
  destruct (ping d (calls w)) as [[]|e0] eqn:Hp; cbn [negb] in H; [|discriminate].
  destruct (group_body self g _) as [r [l wb]] eqn:EB.
  destruct r as [h0|e].
  - injection H as <- <-.
    destruct (group_body_ok _ _ _ _ _ _ _ Hc EB)
      as (n & q & idx & entry_def & rcs & ra_e & c_e & ts & out
          & H1 & H2 & H3 & H4 & H5 & H6 & H7).
    exists n, q, idx, entry_def, rcs, ra_e, c_e, ts, out.
    repeat (split; [assumption|]). split; [|assumption].
    apply new_calls_app. rewrite H6. cbn [calls]. rewrite <- app_assoc.
    unfold ping_event. rewrite Hp. reflexivity.
  - exfalso. unfold bind at 1 in H. unfold logger at 1 in H. unfold bind at 1 in H.
    destruct (compensate self g l _) as [rc wc] eqn:EC.
    destruct (compensate_quiet _ _ _ _ _ _ EC) as (-> & _). discriminate.
Qed.

Lemma foldl_observe_runs rcs : forall R,
  foldl observe R (map run_event rcs)
  = {| r_network := r_network R; r_created := r_created R ++ map snd rcs;
       r_joined := r_joined R; r_bound := r_bound R |}.
Proof.
  induction rcs as [|[ra c] rcs IH]; intros R; cbn.
  - rewrite app_nil_r. destruct R; reflexivity.
  - rewrite IH. cbn. rewrite <- app_assoc. reflexivity.
Qed.

Lemma failures_runs rcs : failures (map run_event rcs) = [].
Proof. induction rcs as [|rc rcs IH]; [reflexivity|exact IH]. Qed.

Lemma run_requests_runs rcs : run_requests (map run_event rcs) = map fst rcs.
Proof.
  induction rcs as [|rc rcs IH]; [reflexivity|]. cbn. f_equal. exact IH.
Qed.

Lemma others_length entry_idx cfg : forall i,
  length (others entry_idx i cfg)
  = (length cfg
     - (if bool_decide (i <= entry_idx < i + length cfg)%nat then 1 else 0))%nat.
Proof.
  induction cfg as [|c cfg IH]; intros i; cbn [others length]; [reflexivity|].
  destruct (Nat.eqb_spec i entry_idx) as [->|Hne]; cbn [length]; rewrite IH;
    repeat case_bool_decide; lia.
Qed.

(** X14. The handle of a group that is created lists the ids the daemon
    answered the [containers.run] requests with, in the order of the
    requests: one per dictionary of [containers_config], the entry last, and
    [entry_container_id] is that last id.  [network_id] is the id of the
    network the daemon answered the creation with, ['port'] is [host_port],
    and no request of the call has failed. *)
Theorem group_handle_lists_created self d g w h w' :
  client self = Some d ->
  create_container_group self g w = (Ok h, w') ->
  let evs := new_calls w w' in
  container_ids h = map c_id (r_created (acquired evs))
  /\ length (container_ids h) = length (g_containers_config g)
  /\ last (container_ids h) = Some (entry_container_id h)
  /\ n_id <$> r_network (acquired evs) = Some (network_id h)
  /\ gh_port h = g_host_port g
  /\ failures evs = [].
Proof.
  intros Hc H evs. subst evs.
  destruct (create_container_group_ok _ _ _ _ _ _ Hc H)
    as (n & q & idx & entry_def & rcs & ra_e & c_e & ts & out
        & H1 & H2 & H3 & H4 & H5 & -> & ->).
  cbn [container_ids entry_container_id network_id gh_port].
  unfold acquired. rewrite !foldl_app, foldl_observe_runs, !failures_app, failures_runs.
  cbn. repeat split.
  - rewrite length_map, length_app, length_map. cbn.
    rewrite (Forall2_length _ _ _ H4), others_length.
    apply lookup_lt_Some in H2. case_bool_decide; lia.
  - rewrite map_app. cbn. apply last_snoc.
Qed.

Lemma group_handle_witness :
  exists h w',
    create_container_group (service healthy) one_entry_group fresh = (Ok h, w')
    /\ container_ids h = ["id-grp-db"; "id-grp-web"]
    /\ length (container_ids h) = length (g_containers_config one_entry_group).
Proof.
  eexists _, _. split; [vm_compute; reflexivity|].
  edestruct (group_handle_lists_created (service healthy) (scripted healthy)
               one_entry_group fresh) as (_ & Hlen & _).
  - reflexivity.
  - vm_compute. reflexivity.
  - split; [reflexivity|exact Hlen].
Defined.

(** X15. A group that is created was created in this order, every request
    succeeding: the probe, the private network, one container per
    dictionary, the lookup of the relay, the connection of the relay to
    the network the daemon had answered with, and last the
    [tailscale serve] command, run in the relay container, that forwards
    [host_port] to the entry's name and [entry_port]. *)
Theorem group_creation_order self d g w h w' :
  client self = Some d ->
  create_container_group self g w = (Ok h, w') ->
  let evs := new_calls w w' in
  exists n ts idx entry_def,
    find_entry 0 (g_containers_config g) = Some idx
    /\ g_containers_config g !! idx = Some entry_def
    /\ map fst evs
       = [Ping; NetworksCreate (group_net_args g)]
         ++ map ContainersRun (run_requests evs)
         ++ [ContainersGet (g_tailnet_container g);
             NetworkConnect n ts;
             ContainerExecRun ts (serve_command g entry_def)]
    /\ length (run_requests evs) = length (g_containers_config g)
    /\ (NetworksCreate (group_net_args g), Ok (RNetwork n)) ∈ evs
    /\ (ContainersGet (g_tailnet_container g), Ok (RContainer ts)) ∈ evs
    /\ network_id h = n_id n.
Proof.
  intros Hc H evs. subst evs.
  destruct (create_container_group_ok _ _ _ _ _ _ Hc H)
    as (n & q & idx & entry_def & rcs & ra_e & c_e & ts & out
        & H1 & H2 & H3 & H4 & H5 & -> & ->).
  exists n, ts, idx, entry_def.
  rewrite !run_requests_app, run_requests_runs. cbn [run_requests omap fst app].
  rewrite !map_app. cbn [map fst run_event app].
  split; [exact H1|]. split; [exact H2|]. split.
  { do 2 f_equal. rewrite <- app_assoc. cbn [app]. f_equal.
    clear. induction rcs as [|rc rcs IH]; [reflexivity|]. cbn. f_equal. exact IH. }
  split.
  { rewrite !length_app, length_map. cbn.
    rewrite (Forall2_length _ _ _ H4), others_length.
    apply lookup_lt_Some in H2. case_bool_decide; lia. }
  split; [set_solver|]. split; [set_solver|reflexivity].
Qed.

Lemma group_creation_order_witness :
  exists h w',
    create_container_group (service healthy) one_entry_group fresh = (Ok h, w')
    /\ length (run_requests (new_calls fresh w'))
       = length (g_containers_config one_entry_group).
Proof.
  eexists _, _. split; [vm_compute; reflexivity|].
  edestruct (group_creation_order (service healthy) (scripted healthy)
               one_entry_group fresh)
    as (n & ts & idx & entry_def & _ & _ & _ & Hlen & _).
  - reflexivity.
  - vm_compute. reflexivity.
  - exact Hlen.
Defined.

(** X16. In a group that is created, the containers follow
    [containers_config]: first the dictionaries other than the entry, in
    their order, each requested with its own image, command and
    environment, under the name ["<name_prefix>-<name>"]; then the entry,
    the first dictionary with a truthy ['expose'], whose environment is its
    own with ['FLAG'] set to the flag and ['PORT'] to [entry_port], both
    overriding what the dictionary says. *)
Theorem group_containers_follow_config self d g w h w' :
  client self = Some d ->
  create_container_group self g w = (Ok h, w') ->
  exists q idx entry_def ras ra_e,
    find_entry 0 (g_containers_config g) = Some idx
    /\ g_containers_config g !! idx = Some entry_def
    /\ run_requests (new_calls w w') = ras ++ [ra_e]
    /\ Forall2 (fun ra c_def => internal_request g q c_def = Some ra)
               ras (others idx 0 (g_containers_config g))
    /\ entry_request g q entry_def = Some ra_e
    /\ ra_environment ra_e !! "FLAG" = Some (g_flag g)
    /\ ra_environment ra_e !! "PORT" = Some (str_int (g_entry_port g))
    /\ (forall k, k <> "FLAG" -> k <> "PORT" ->
          ra_environment ra_e !! k = default ∅ (cd_environment entry_def) !! k).
Proof.
  intros Hc H.
  destruct (create_container_group_ok _ _ _ _ _ _ Hc H)
    as (n & q & idx & entry_def & rcs & ra_e & c_e & ts & out
        & H1 & H2 & H3 & H4 & H5 & -> & ->).
  exists q, idx, entry_def, (map fst rcs), ra_e.
  split; [exact H1|]. split; [exact H2|]. split.
  { rewrite !run_requests_app, run_requests_runs. reflexivity. }
  split.
  { clear -H4. induction H4; constructor; assumption. }
  split; [exact H5|].
  unfold entry_request in H5.
  destruct (cd_name entry_def), (cd_image entry_def); try discriminate.
  injection H5 as <-. cbn [ra_environment group_run_args].
  split; [rewrite lookup_insert_ne, lookup_insert_eq by discriminate; reflexivity|].
  split; [rewrite lookup_insert_eq; reflexivity|].
  intros k Hk1 Hk2. rewrite !lookup_insert_ne by congruence. reflexivity.
Qed.

Lemma group_containers_follow_config_witness :
  exists h w',
    create_container_group (service healthy) one_entry_group fresh = (Ok h, w')
    /\ map ra_name (run_requests (new_calls fresh w')) = [Some "grp-db"; Some "grp-web"].
Proof.
  eexists _, _. split; [vm_compute; reflexivity|].
  edestruct (group_containers_follow_config (service healthy) (scripted healthy)
               one_entry_group fresh)
    as (q & idx & entry_def & ras & ra_e & _).
  - reflexivity.
  - vm_compute. reflexivity.
  - vm_compute. reflexivity.
Defined.

(** ** Every container of a group, created or not *)

Section GroupRuns.
Variable g : group_args.
Variable P : run_args -> Prop.
Hypothesis P_group_run_args : forall image name command env role q,
  role = "internal" \/ role = "entry" ->
  P (group_run_args g image (g_name_prefix g +:+ "-" +:+ name) name command env
       (<["ctfd.compose_name" := name]>
          (<["ctfd.compose_role" := role]> (or_empty (g_labels g))))
       q 100000).

Lemma create_internal_runs d q c_def l w r l' w' :
  create_internal d g q 100000 c_def (l, w) = (r, (l', w')) ->
  exists evs ls, extends w w' evs ls /\ Forall P (run_requests evs).
Proof.
  intros H. unfold_group.
  repeat (case_step H; cbn [calls log] in H); injection H as <- <- <-;
    eexists _, _; (split; [solve_extends|]); cbn;
    try (apply List.Forall_cons; [apply P_group_run_args; auto|]);
    apply List.Forall_nil.
Qed.

Lemma create_internals_runs d q entry_idx cfg : forall i l w r l' w',
  create_internals d g q 100000 entry_idx i cfg (l, w) = (r, (l', w')) ->
  exists evs ls, extends w w' evs ls /\ Forall P (run_requests evs).
Proof.
  induction cfg as [|c_def cfg IH]; intros i l w r l' w' H; cbn in H.
  - injection H as <- <- <-. exists [], []. split; [apply extends_refl|constructor].
  - unfold bind at 1 in H. destruct (Nat.eqb i entry_idx).
    + cbn in H. apply IH in H; assumption.
    + destruct (create_internal d g q 100000 c_def (l, w)) as [r1 [l1 w1]] eqn:H1.
      destruct (create_internal_runs _ _ _ _ _ _ _ _ H1) as (evs1 & ls1 & He1 & Hf1).
      destruct r1 as [[]|e].
      * destruct (IH _ _ _ _ _ _ H) as (evs2 & ls2 & He2 & Hf2).
        exists (evs1 ++ evs2), (ls1 ++ ls2).
        split; [eapply extends_trans; eassumption|].
        rewrite run_requests_app. apply Forall_app; auto.
      * injection H as <- <- <-. eauto.
Qed.

Lemma group_body_runs self d w r l' w' :
  client self = Some d ->
  group_body self g (init_locals, w) = (r, (l', w')) ->
  exists evs ls, extends w w' evs ls /\ Forall P (run_requests evs).
Proof.
  intros Hc E. unfold group_body in E. unfold_group. rewrite Hc in E.
  cbn [calls log] in E.
  repeat (case_step_to_loop E; cbn [calls log] in E).
  all: try match type of E with
    | context [create_internals ?d0 ?g0 ?q ?p ?idx ?i ?cfg (?l0, ?w0)] =>
        destruct (create_internals d0 g0 q p idx i cfg (l0, w0))
          as [r1 [l1 w1]] eqn:EL;
        destruct (create_internals_runs _ _ _ _ _ _ _ _ _ _ EL)
          as (evs1 & ls1 & [Hcalls1 Hlog1] & Hf1);
        cbn [calls log] in Hcalls1, Hlog1
    end.
  all: repeat (case_step E; cbn [calls log] in E).
  all: injection E as <- <- <-.
  all: eexists _, _.
  all: (split; [split; cbn [calls log]; rewrite ?Hcalls1, ?Hlog1, <- ?app_assoc;
                first [reflexivity | apply app_eq_nil_r]|]).
  all: rewrite ?run_requests_app; cbn;
       repeat first [assumption
                    |apply P_group_run_args; auto
                    |apply Forall_app; split
                    |apply List.Forall_cons
                    |apply List.Forall_nil].
Qed.

Lemma create_container_group_runs_all self d w :
  client self = Some d ->
  Forall P (run_requests (new_calls w (snd (create_container_group self g w)))).
Proof.
  intros Hc.
  destruct (create_container_group self g w) as [r w'] eqn:E. cbn [snd].
  unfold create_container_group in E. unfold bind at 1 in E.
  rewrite (is_connected_client _ _ _ Hc) in E.
  destruct (ping d (calls w)) eqn:Hp; cbn [negb] in E.
  - destruct (group_body self g _) as [rb [l wb]] eqn:EB.
    destruct (group_body_runs _ _ _ _ _ _ Hc EB) as (body & ls & [Hcalls _] & Hf).
    cbn [calls] in Hcalls. rewrite <- app_assoc in Hcalls.
    destruct rb as [h|e].
    + injection E as <- <-. rewrite (new_calls_app _ _ _ Hcalls).
      rewrite run_requests_app. exact Hf.
    + unfold bind at 1 in E. unfold logger at 1 in E. unfold bind at 1 in E.
      destruct (compensate self g _ _) as [rc wc] eqn:EC.
      destruct (compensate_quiet _ _ _ _ _ _ EC) as (-> & evs & ls' & [Hcalls' _] & Hr).
      cbn in E. injection E as <- <-. cbn [calls] in Hcalls'.
      rewrite Hcalls, <- app_assoc in Hcalls'.
      rewrite (new_calls_app _ _ _ Hcalls'), !run_requests_app, Hr, app_nil_r.
      exact Hf.
  - cbn in E. injection E as <- <-. unfold new_calls. cbn [calls].
    rewrite drop_app_length. constructor.
Qed.

End GroupRuns.

(** X17. Every container [create_container_group] asks for, whether the
    call succeeds or fails later, publishes no port and names neither a
    network nor a network mode of its own: it is attached to the private
    network of the group only, under one DNS alias, its declared name.  It
    is named ["<name_prefix>-<name>"], carries the memory and process
    limits of the call, and is labelled with its name and its role,
    internal or entry. *)
Theorem group_containers_are_private self d g w ra :
  client self = Some d ->
  ra ∈ run_requests (new_calls w (snd (create_container_group self g w))) ->
  ra_ports ra = None
  /\ ra_network ra = None
  /\ ra_network_mode ra = None
  /\ ra_mem_limit ra = g_memory_limit g
  /\ ra_pids_limit ra = g_pids_limit g
  /\ exists name,
       ra_networking_config ra = Some [(g_network_name g, [name])]
       /\ ra_name ra = Some (g_name_prefix g +:+ "-" +:+ name)
       /\ ra_labels ra !! "ctfd.compose_name" = Some name
       /\ (ra_labels ra !! "ctfd.compose_role" = Some "internal"
           \/ ra_labels ra !! "ctfd.compose_role" = Some "entry").
Proof.
  intros Hc Hin.
  pose proof (create_container_group_runs_all g
                (fun ra =>
                   ra_ports ra = None
                   /\ ra_network ra = None
                   /\ ra_network_mode ra = None
                   /\ ra_mem_limit ra = g_memory_limit g
                   /\ ra_pids_limit ra = g_pids_limit g
                   /\ exists name,
                        ra_networking_config ra = Some [(g_network_name g, [name])]
                        /\ ra_name ra = Some (g_name_prefix g +:+ "-" +:+ name)
                        /\ ra_labels ra !! "ctfd.compose_name" = Some name
                        /\ (ra_labels ra !! "ctfd.compose_role" = Some "internal"
                            \/ ra_labels ra !! "ctfd.compose_role" = Some "entry")))
    as Hall.
  lapply Hall.
  - intros Hf. specialize (Hf self d w Hc). rewrite Forall_forall in Hf.
    apply Hf, Hin.
  - intros image name command env role q Hrole. cbn.
    do 5 (split; [reflexivity|]). exists name.
    do 2 (split; [reflexivity|]).
    split; [apply lookup_insert_eq|].
    rewrite lookup_insert_ne, lookup_insert_eq by discriminate.
    destruct Hrole as [->| ->]; auto.
Qed.

Lemma group_containers_are_private_witness :
  exists ra,
    head (run_requests (calls (snd (create_container_group (service healthy)
                                      one_entry_group fresh))))
    = Some ra
    /\ ra_ports ra = None.
Proof.
  eexists. split; [vm_compute; reflexivity|].
  match goal with
  | |- ra_ports ?ra = _ =>
      pose proof (group_containers_are_private (service healthy) (scripted healthy)
                    one_entry_group fresh ra eq_refl) as H
  end.
  lapply H.
  - intros (Hports & _). exact Hports.
  - vm_compute. apply list_elem_of_here.
Defined.

(** ** A group whose network cannot be created *)

(** X18. When the creation of the private network fails,
    [create_container_group] raises that very error: nothing was acquired,
    so the clean-up asks nothing of the daemon, and the probe and the
    failed creation are the only requests of the call. *)
Theorem group_network_failure_is_final self d g w e :
  client self = Some d ->
  ping d (calls w) = Ok tt ->
  networks_create d (calls w ++ [ping_event d w]) (group_net_args g) = Raise e ->
  create_container_group self g w
  = (Raise e,
     {| calls := calls w ++ [ping_event d w; (NetworksCreate (group_net_args g), Raise e)];
        log := log w ++ [(ERROR, "Error creating container group: " +:+ exn_str e)] |}).
Proof.
  intros Hc Hp Hn.
  unfold create_container_group. unfold bind at 1.
  rewrite (is_connected_client _ _ _ Hc), Hp. cbn [negb].
  unfold group_body. unfold_group. rewrite Hc. cbn [calls log].
  fold (group_net_args g). rewrite Hn. cbn [calls log result_map].
  unfold compensate. cbn [init_locals ts_serve_port ts_connected network
                            created_containers truthy_int stop_created].
  rewrite Hc. unfold_monad. cbn [calls log].
  rewrite <- app_assoc. reflexivity.
Qed.

Lemma group_network_failure_witness :
  fst (create_container_group
         (service (fail_on is_NetworksCreate (APIError "network with name net1 already exists")))
         one_entry_group fresh)
  = Raise (APIError "network with name net1 already exists").
Proof.
  rewrite (group_network_failure_is_final
             (service (fail_on is_NetworksCreate
                         (APIError "network with name net1 already exists")))
             (scripted (fail_on is_NetworksCreate
                          (APIError "network with name net1 already exists")))
             one_entry_group fresh
             (APIError "network with name net1 already exists") eq_refl eq_refl eq_refl).
  reflexivity.
Defined.

(** ** Tearing a group down *)

Lemma stop_each_gone self d ids : forall success w,
  client self = Some d ->
  (forall h ref, exists e, containers_get d h ref = Raise e /\ is_NotFound e = true) ->
  exists evs ls,
    stop_each self success ids w
    = (Ok success, {| calls := calls w ++ evs; log := log w ++ ls |})
    /\ map fst evs = map ContainersGet ids.
Proof.
  induction ids as [|cid ids IH]; intros success w Hc Hgone; cbn [stop_each].
  - exists [], []. rewrite !app_nil_r. destruct w; split; reflexivity.
  - unfold bind at 1. unfold stop_one. unfold_monad. rewrite Hc. cbn [calls log].
    destruct (Hgone (calls w) cid) as (e & -> & ->). cbn [calls log result_map].
    match goal with
    | |- context [stop_each self success ids ?w1] =>
        destruct (IH success w1 Hc Hgone) as (evs & ls & -> & Hm)
    end.
    cbn [calls log]. eexists (_ :: evs), (_ :: ls).
    rewrite <- !app_assoc. split; [reflexivity|]. cbn. rewrite Hm. reflexivity.
Qed.

(** X19. Tearing down a group that is already gone succeeds: on a daemon
    that finds no container (the relay included) and no network,
    [stop_container_group] returns [True], and asks only for the probe and
    for lookups, of the relay when [host_port] is given, of each container
    id, and of the network when [network_id] is given.  Nothing is stopped,
    removed, disconnected or executed. *)
Theorem teardown_of_gone_group self d container_ids network_id host_port tailnet_container w :
  client self = Some d ->
  ping d (calls w) = Ok tt ->
  (forall h ref, exists e, containers_get d h ref = Raise e /\ is_NotFound e = true) ->
  (forall h ref, exists e, networks_get d h ref = Raise e /\ is_NotFound e = true) ->
  let r := stop_container_group self container_ids network_id host_port
             tailnet_container w in
  fst r = Ok true
  /\ map fst (new_calls w (snd r))
     = [Ping]
       ++ (if truthy_int host_port then [ContainersGet tailnet_container] else [])
       ++ map ContainersGet (default [] container_ids)
       ++ (if truthy_str network_id then [NetworksGet (default "" network_id)] else []).
Proof.
  intros Hc Hp Hcg Hng r. subst r.
  destruct (stop_container_group self container_ids network_id host_port
              tailnet_container w) as [r w'] eqn:E.
  unfold stop_container_group in E. unfold bind at 1 in E.
  rewrite (is_connected_client _ _ _ Hc), Hp in E. cbn [negb] in E.
  unfold bind at 1 in E.
  assert (Hserve : exists ls,
             remove_serve self host_port tailnet_container
               {| calls := calls w ++ [ping_event d w]; log := log w |}
             = (Ok tt,
                {| calls := (calls w ++ [ping_event d w])
                            ++ (if truthy_int host_port
                                then [(ContainersGet tailnet_container,
                                       result_map RContainer
                                         (containers_get d (calls w ++ [ping_event d w])
                                            tailnet_container))]
                                else []);
                   log := log w ++ ls |})).
  { unfold remove_serve. destruct (truthy_int host_port).
    - unfold_monad. rewrite Hc. cbn [calls log].
      destruct (Hcg (calls w ++ [ping_event d w]) tailnet_container) as (e & -> & ->).
      cbn [calls log result_map]. eexists. reflexivity.
    - exists []. unfold ret. rewrite !app_nil_r. reflexivity. }
  destruct Hserve as (ls0 & Hserve). rewrite Hserve in E. clear Hserve.
  unfold bind at 1 in E.
  match type of E with
  | context [stop_each self true ?ids ?w1] =>
      destruct (stop_each_gone self d ids true w1 Hc Hcg) as (evs & ls & Hse & Hm)
  end.
  rewrite Hse in E. clear Hse. cbn [calls log] in E.
  unfold remove_group_network in E.
  destruct (truthy_str network_id).
  - unfold_monad. rewrite Hc in E. cbn [calls log] in E.
    match type of E with
    | context [networks_get d ?h ?ref] => destruct (Hng h ref) as (e & Hg & He)
    end.
    rewrite Hg, He in E. cbn [calls log result_map] in E. injection E as <- <-.
    split; [reflexivity|]. unfold new_calls. cbn [snd calls].
    rewrite <- !app_assoc, drop_app_length, !map_app.
    apply (f_equal2 app); [reflexivity|].
    apply (f_equal2 app); [destruct (truthy_int host_port); reflexivity|].
    apply (f_equal2 app); [exact Hm|reflexivity].
  - cbn in E. injection E as <- <-.
    split; [reflexivity|]. unfold new_calls. cbn [snd calls].
    rewrite <- !app_assoc, drop_app_length, !map_app.
    apply (f_equal2 app); [reflexivity|].
    apply (f_equal2 app); [destruct (truthy_int host_port); reflexivity|].
    rewrite app_nil_r. exact Hm.
Qed.

Lemma teardown_of_gone_group_witness :
  fst (stop_container_group (service nothing_left) (Some ["c1"; "c2"]) (Some "net1")
         (Some 30010) "tailscale-challenges" fresh) = Ok true.
Proof.
  destruct (teardown_of_gone_group (service nothing_left) (scripted nothing_left)
              (Some ["c1"; "c2"]) (Some "net1") (Some 30010) "tailscale-challenges" fresh
              eq_refl eq_refl) as [Hr _].
  - intros h ref. eexists. split; reflexivity.
  - intros h ref. eexists. split; reflexivity.
  - exact Hr.
Defined.

Lemma stop_each_stops self d (cont : string -> Container) ids : forall success w,
  client self = Some d ->
  (forall h ref, ref ∈ ids -> containers_get d h ref = Ok (cont ref)) ->
  (forall h c t, container_stop d h c t = Ok tt) ->
  (forall h c, container_remove d h c = Ok tt) ->
  exists evs ls,
    stop_each self success ids w
    = (Ok success, {| calls := calls w ++ evs; log := log w ++ ls |})
    /\ map fst evs
       = flat_map (fun cid => [ContainersGet cid; ContainerStop (cont cid) 3;
                               ContainerRemove (cont cid)]) ids.
Proof.
  induction ids as [|cid ids IH]; intros success w Hc Hg Hs Hr; cbn [stop_each].
  - exists [], []. rewrite !app_nil_r. destruct w; split; reflexivity.
  - unfold bind at 1. unfold stop_one. unfold_monad. rewrite Hc. cbn [calls log].
    rewrite (Hg _ cid) by apply list_elem_of_here. cbn [calls log result_map].
    rewrite Hs. cbn [calls log result_map]. rewrite Hr. cbn [calls log result_map].
    match goal with
    | |- context [stop_each self success ids ?w1] =>
        destruct (IH success w1 Hc) as (evs & ls & -> & Hm); auto
    end.
    { intros h ref Hin. apply Hg. apply list_elem_of_further, Hin. }
    cbn [calls log]. eexists (_ :: _ :: _ :: evs), (_ :: ls).
    rewrite <- !app_assoc. split; [reflexivity|]. cbn. rewrite Hm. reflexivity.
Qed.

(** X20. A teardown on which nothing fails but, possibly, the command in
    the relay and the disconnection, returns [True] and proceeds in the
    reverse order of the creation: the route of [host_port] is unbound in
    the relay; each container is looked up, stopped with a grace period of
    3 and removed, in the order of [container_ids]; the network is looked
    up, the relay is disconnected from it, and it is removed.  What the
    unbinding command and the disconnection answer does not matter. *)
Theorem teardown_order self d (cont : string -> Container) ids nid host_port
    tailnet_container n w :
  client self = Some d ->
  ping d (calls w) = Ok tt ->
  truthy_int host_port = true ->
  truthy_str (Some nid) = true ->
  (forall h ref, ref = tailnet_container \/ ref ∈ ids ->
                 containers_get d h ref = Ok (cont ref)) ->
  (forall h c t, container_stop d h c t = Ok tt) ->
  (forall h c, container_remove d h c = Ok tt) ->
  (forall h, networks_get d h nid = Ok n) ->
  (forall h, network_remove d h n = Ok tt) ->
  let r := stop_container_group self (Some ids) (Some nid) host_port
             tailnet_container w in
  fst r = Ok true
  /\ map fst (new_calls w (snd r))
     = [Ping;
        ContainersGet tailnet_container;
        ContainerExecRun (cont tailnet_container)
          ("tailscale serve --tcp " +:+ str_opt_int host_port +:+ " off")]
       ++ flat_map (fun cid => [ContainersGet cid; ContainerStop (cont cid) 3;
                                ContainerRemove (cont cid)]) ids
       ++ [NetworksGet nid;
           ContainersGet tailnet_container;
           NetworkDisconnect n (cont tailnet_container);
           NetworkRemove n].
Proof.
  intros Hc Hp Hhp Hnid Hg Hs Hr Hng Hnr r. subst r.
  destruct (stop_container_group self (Some ids) (Some nid) host_port
              tailnet_container w) as [r w'] eqn:E.
  unfold stop_container_group in E. unfold bind at 1 in E.
  rewrite (is_connected_client _ _ _ Hc), Hp in E. cbn [negb] in E.
  unfold bind at 1 in E.
  assert (Hserve : exists x ls,
             remove_serve self host_port tailnet_container
               {| calls := calls w ++ [ping_event d w]; log := log w |}
             = (Ok tt,
                {| calls := (calls w ++ [ping_event d w])
                            ++ [(ContainersGet tailnet_container,
                                 Ok (RContainer (cont tailnet_container)));
                                (ContainerExecRun (cont tailnet_container)
                                   ("tailscale serve --tcp " +:+ str_opt_int host_port
                                    +:+ " off"), x)];
                   log := log w ++ ls |})).
  { unfold remove_serve. rewrite Hhp. unfold_monad. rewrite Hc. cbn [calls log].
    rewrite (Hg _ tailnet_container) by auto. cbn [calls log result_map].
    destruct (container_exec_run d _ _ _) as [[x o]|e];
      [|destruct (is_NotFound e)]; cbn [calls log result_map];
      rewrite <- (app_assoc (calls w ++ [ping_event d w])); eexists _, _; reflexivity. }
  destruct Hserve as (x & ls0 & Hserve). rewrite Hserve in E. clear Hserve.
  unfold bind at 1 in E. change (default [] (Some ids)) with ids in E.
  match type of E with
  | context [stop_each self true ids ?w1] =>
      destruct (stop_each_stops self d cont ids true w1 Hc) as (evs & ls & Hse & Hm); auto
  end.
  rewrite Hse in E. clear Hse. cbn [calls log] in E.
  unfold remove_group_network in E. rewrite Hnid in E.
  change (default "" (Some nid)) with nid in E.
  unfold_monad. rewrite Hc in E. cbn [calls log] in E. rewrite Hng in E.
  cbn [calls log result_map] in E.
  rewrite (Hg _ tailnet_container) in E by auto. cbn [calls log result_map] in E.
  destruct (network_disconnect d _ n _) as [[]|e]; cbn [calls log result_map] in E;
    rewrite Hnr in E; cbn [calls log result_map] in E; injection E as <- <-;
    (split; [reflexivity|]); unfold new_calls; cbn [snd calls];
    rewrite <- !app_assoc, drop_app_length, !map_app;
    unfold ping_event; rewrite Hp; cbn [map fst app result_map];
    do 3 f_equal; (apply (f_equal2 app); [exact Hm|reflexivity]).
Qed.

Lemma teardown_order_witness :
  fst (stop_container_group (service running_group) (Some ["c-live"; "c-dead"])
         (Some "net1") (Some 30010) "tailscale-challenges" fresh) = Ok true.
Proof.
  destruct (teardown_order (service running_group) (scripted running_group) found
              ["c-live"; "c-dead"] "net1" (Some 30010) "tailscale-challenges"
              {| n_id := "net1" |} fresh eq_refl eq_refl eq_refl eq_refl) as [Hr _].
  - intros h ref [->|Hin]; [reflexivity|].
    repeat (apply elem_of_cons in Hin as [->|Hin]; [reflexivity|]).
    apply elem_of_nil in Hin. contradiction.
  - intros h c t. reflexivity.
  - intros h c. reflexivity.
  - intros h. reflexivity.
  - intros h. reflexivity.
  - exact Hr.
Defined.

(** ** The entry of a group *)

Lemma find_entry_sound cfg : forall i0 i,
  find_entry i0 cfg = Some i ->
  (i0 <= i)%nat
  /\ exists c,
       cfg !! (i - i0)%nat = Some c
       /\ exposes c = true
       /\ forall j c', (j < i - i0)%nat -> cfg !! j = Some c' -> exposes c' = false.
Proof.
  induction cfg as [|c cfg IH]; intros i0 i H; cbn in H; [discriminate|].
  destruct (truthy_int (cd_expose c)) eqn:Hc.
  - injection H as <-. split; [lia|]. rewrite Nat.sub_diag. exists c.
    repeat split; [exact Hc|]. intros j c' Hj. lia.
  - destruct (IH _ _ H) as (Hle & c1 & Hl & He & Hfirst).
    split; [lia|]. exists c1.
    replace (i - i0)%nat with (S (i - S i0)) by lia. cbn.
    repeat split; [exact Hl|exact He|].
    intros [|j] c' Hj Hl'; cbn in Hl'.
    + injection Hl' as <-. exact Hc.
    + apply (Hfirst j c'); [lia|exact Hl'].
Qed.

(** X21. The search for the entry of a group returns the index of the
    first dictionary whose ['expose'] is truthy: the index is within
    [containers_config], so that the later [containers_config[entry_idx]]
    cannot fail, and no dictionary before it exposes.  It finds none
    exactly when no dictionary exposes, a missing or zero ['expose']
    included. *)
Theorem find_entry_is_first_exposed cfg :
  match find_entry 0 cfg with
  | Some i =>
      exists c,
        cfg !! i = Some c
        /\ exposes c = true
        /\ forall j c', (j < i)%nat -> cfg !! j = Some c' -> exposes c' = false
  | None => Forall (fun c => exposes c = false) cfg
  end.
Proof.
  destruct (find_entry 0 cfg) as [i|] eqn:H.
  - destruct (find_entry_sound _ _ _ H) as (_ & c & Hl & He & Hfirst).
    rewrite Nat.sub_0_r in Hl, Hfirst. exists c. auto.
  - revert H. generalize 0%nat.
    induction cfg as [|c cfg IH]; intros i0 H; [constructor|]. cbn in H.
    destruct (truthy_int (cd_expose c)) eqn:Hc; [discriminate|].
    constructor; [exact Hc|]. apply (IH _ H).
Qed.

Lemma find_entry_witness :
  exists c,
    [cdef "db" "postgres" None; cdef "web" "nginx" (Some 80)] !! 1%nat = Some c
    /\ exposes c = true.
Proof.
  pose proof (find_entry_is_first_exposed
                [cdef "db" "postgres" None; cdef "web" "nginx" (Some 80)]) as H.
  cbn in H. destruct H as (c & Hl & He & _). exists c. split; [exact Hl|exact He].
Defined.

(** ** Stopping one container *)

(** X22. [stop_container] works through the probe, the lookup, a stop with
    a grace period of 3 and the removal, in this order, on the container
    the lookup answered with, and gives up at the first of them that
    fails.  A container it could not stop is therefore never removed. *)
Theorem stop_container_steps self d cid w :
  client self = Some d ->
  let evs := new_calls w (snd (stop_container self cid w)) in
  ((exists e, evs = [(Ping, Raise e)])
   \/ (exists e, evs = [(Ping, Ok RNone); (ContainersGet cid, Raise e)])
   \/ (exists c e,
         evs = [(Ping, Ok RNone); (ContainersGet cid, Ok (RContainer c));
                (ContainerStop c 3, Raise e)])
   \/ (exists c r,
         evs = [(Ping, Ok RNone); (ContainersGet cid, Ok (RContainer c));
                (ContainerStop c 3, Ok RNone); (ContainerRemove c, r)]))
  /\ (forall c, c ∈ removed evs -> (ContainerStop c 3, Ok RNone) ∈ evs).
Proof.
  intros Hc evs. subst evs.
  destruct (stop_container self cid w) as [r w'] eqn:E.
  unfold stop_container, is_connected in E. unfold_monad. rewrite Hc in E.
  cbn [calls log fst snd] in *.
  repeat (case_step E; cbn [calls log] in E); injection E as <- <-;
    unfold new_calls; cbn [calls log snd];
    rewrite <- ?app_assoc, ?drop_app_length; cbn [app].
  all: try (cbn in *; discriminate).
  all: split;
    [ first [ left; eexists; reflexivity
            | right; left; eexists; reflexivity
            | right; right; left; eexists _, _; reflexivity
            | right; right; right; eexists _, _; reflexivity ]
    | cbn; intros c0 Hin;
      repeat (apply elem_of_cons in Hin as [->|Hin]; [set_solver|]);
      try (apply elem_of_nil in Hin; contradiction) ].
Qed.

Lemma stop_container_steps_witness :
  exists e,
    new_calls fresh (snd (stop_container (service container_gone) "c-live" fresh))
    = [(Ping, Ok RNone); (ContainersGet "c-live", Raise e)].
Proof.
  destruct (proj1 (stop_container_steps (service container_gone) (scripted container_gone)
                     "c-live" fresh eq_refl))
    as [(e & H)|[(e & H)|[(c & e & H)|(c & r & H)]]].
  - vm_compute in H. inversion H.
  - exists e. exact H.
  - vm_compute in H. inversion H.
  - vm_compute in H. inversion H.
Defined.
